(** * Market-data pipeline: extract / transform / load

    A shallow embedding of the decision logic of the pipeline
    (src/pipeline/{extract,transform,load}, src/models.py and the mock API of
    src/market_data_api.py) together with the properties its design document
    states about it.

    Conventions of the embedding:
    - Python [str] is [string]; Python [float] is the binary64 [float] of
      [PrimFloat]; Python [int] is [Z]; a [datetime.date] is its proleptic
      ordinal ([date.toordinal()]) and a [datetime] a number of microseconds,
      both in [Z].
    - A function that may raise returns a [PyResult]; the exception carries
      the class that the source raises and, for [ValueError], which [raise]
      statement produced it.
    - The two tables are lists of rows in insertion order, seen through the
      ORM session, which flushes pending rows before every query: a row added
      to the session is visible to the queries that follow.
    - The wall clock, the random draws of the mock API, the formatting of
      blob file names and the verdict of the file system on a file name are
      parameters of the extractor; the blob directory is a map from file
      names to blobs.
    - The engine is SQLite, as in every connection string of the sources: it
      checks the constraints of a table when a pending row is flushed, and
      does not enforce foreign keys.  The rows that the extractor adds have
      passed the validation of [RawData] and have a new version, so they
      satisfy the constraints of raw_data.  The loader is given objects by
      reference: a flush or a commit that a constraint of clean_data makes
      fail raises, and an object that a committed session had inserted is
      detached.
    - Connection errors are not modelled. *)

From Stdlib Require Import ZArith List String Ascii Bool Lia PrimFloat.
From Stdlib Require Import Sorted Permutation.
From stdpp Require Import gmap strings list.

Open Scope string_scope.
Open Scope Z_scope.

(** ** Exceptions and fallible computations *)

(** One constructor per [raise ValueError(...)] statement of the sources,
    named after the text of its message. *)
Inductive ValueErrorMsg : Type :=
| MustStartWithDBAndEndWithParen
| MustFollowCovVolswaptionFormat
| InvalidReferenceIndicator (ref_indicator currency : string)
| MustHave7Or8Parts (got : nat)
| InvalidXTenor (x_tenor : string)
| InvalidYTenor (y_tenor : string)
| CouldNotMapReferenceRate (currency : string)
| MissingRequiredFields
| ModeRequiresSameDates (mode : string)
| RawDataIdIsNone.

Inductive PyExn : Type :=
| ValueError (msg : ValueErrorMsg)
| KeyError (key : string)
| IndexError
| TypeError
| ValidationError (model : string)
| OSError
| IntegrityError
| PendingRollbackError
| DetachedInstanceError.

Inductive PyResult (A : Type) : Type :=
| Ok (a : A)
| Raise (e : PyExn).
Arguments Ok {A} a.
Arguments Raise {A} e.

#[global] Instance PyResult_ret : MRet PyResult := fun A a => Ok a.
#[global] Instance PyResult_bind : MBind PyResult := fun A B k m =>
  match m with
  | Ok a => k a
  | Raise e => Raise e
  end.

(** The error classes of the design document, as the sources realise them. *)
Definition MalformedExpressionError (e : PyExn) : Prop :=
  match e with
  | ValueError MustStartWithDBAndEndWithParen
  | ValueError MustFollowCovVolswaptionFormat
  | ValueError (InvalidReferenceIndicator _ _)
  | ValueError (MustHave7Or8Parts _) => True
  | _ => False
  end.

Definition InvalidTenorError (e : PyExn) : Prop :=
  match e with
  | ValueError (InvalidXTenor _) | ValueError (InvalidYTenor _) => True
  | _ => False
  end.

Definition UnmappableReferenceRateError (e : PyExn) : Prop :=
  match e with
  | ValueError (CouldNotMapReferenceRate _) => True
  | _ => False
  end.

Definition InvalidDateRangeError (e : PyExn) : Prop :=
  match e with
  | ValueError (ModeRequiresSameDates _) => True
  | _ => False
  end.

(** ** Python string and list primitives used by the parser *)

Module Py.

(** [s.startswith(p)] *)
Definition startswith (s p : string) : bool := String.prefix p s.

(** [s.endswith(p)] *)
Definition endswith (s p : string) : bool :=
  let n := String.length s in
  let m := String.length p in
  (m <=? n)%nat && String.eqb (String.substring (n - m) m s) p.

(** [s[3:-1]] *)
Definition slice_3_m1 (s : string) : string :=
  String.substring 3 (String.length s - 1 - 3) s.

(** [s.split(sep)] for a one-character separator: one more part than
    there are separators, empty parts included. *)
Fixpoint split (sep : ascii) (s : string) : list string :=
  match s with
  | EmptyString => [EmptyString]
  | String c s' =>
      if Ascii.eqb c sep then EmptyString :: split sep s'
      else match split sep s' with
           | h :: t => String c h :: t
           | [] => [String c EmptyString]
           end
  end.

(** [sep.join(parts)] *)
Fixpoint join (sep : ascii) (parts : list string) : string :=
  match parts with
  | [] => EmptyString
  | [p] => p
  | p :: ps => p +:+ String sep (join sep ps)
  end.

(** [l[i]] *)
Definition getitem {A} (l : list A) (i : nat) : PyResult A :=
  match nth_error l i with
  | Some a => Ok a
  | None => Raise IndexError
  end.

(** [d[k]] on a dict *)
Definition dict_getitem {V} (d : gmap string V) (k : string) : PyResult V :=
  match d !! k with
  | Some v => Ok v
  | None => Raise (KeyError k)
  end.

(** [x in l] for a list of strings *)
Definition str_in (x : string) (l : list string) : bool :=
  existsb (String.eqb x) l.

(** truth value of a string *)
Definition truthy (s : string) : bool := negb (String.eqb s "").

End Py.

(** ** models.py: enumerations *)

Inductive CurrencyEnum := USD | EUR | GBP | CHF.
Inductive OptionExpiryEnum := ONE_YEAR | FIVE_YEAR.
Inductive SwapTenorEnum := TWO_YEAR | SWAP_FIVE_YEAR | TEN_YEAR.
Inductive RunModeEnum := DEFAULT | OLD_CODES | HISTORICAL.

Definition CurrencyEnum_value (c : CurrencyEnum) : string :=
  match c with USD => "USD" | EUR => "EUR" | GBP => "GBP" | CHF => "CHF" end.

Definition OptionExpiryEnum_value (e : OptionExpiryEnum) : string :=
  match e with ONE_YEAR => "1y" | FIVE_YEAR => "5y" end.

Definition SwapTenorEnum_value (e : SwapTenorEnum) : string :=
  match e with TWO_YEAR => "2y" | SWAP_FIVE_YEAR => "5y" | TEN_YEAR => "10y" end.

Definition RunModeEnum_value (m : RunModeEnum) : string :=
  match m with
  | DEFAULT => "default"
  | OLD_CODES => "old_codes"
  | HISTORICAL => "historical"
  end.

(** [[e.value for e in Enum]], in declaration order *)
Definition CurrencyEnum_values : list string :=
  map CurrencyEnum_value [USD; EUR; GBP; CHF].
Definition OptionExpiryEnum_values : list string :=
  map OptionExpiryEnum_value [ONE_YEAR; FIVE_YEAR].
Definition SwapTenorEnum_values : list string :=
  map SwapTenorEnum_value [TWO_YEAR; SWAP_FIVE_YEAR; TEN_YEAR].
Definition RunModeEnum_values : list string :=
  map RunModeEnum_value [DEFAULT; OLD_CODES; HISTORICAL].

(** ** transformer.py: expression parsing and reference-rate mapping *)

(** A value of [currency_ref_mapping] is a rate name or a nested dict. *)
Inductive RefEntry : Type :=
| RateName (rate : string)
| ByIndicator (mapping : gmap string string).

Definition currency_ref_mapping : gmap string RefEntry :=
  {[ "USD" := RateName "Libor";
     "USDD" := RateName "SOFR";
     "EUR" := RateName "Euribor";
     "GBP" := ByIndicator {[ "default" := "Libor"; "SONIA" := "SOFR" ]};
     "CHF" := ByIndicator {[ "default" := "Libor"; "SARON" := "SARON" ]} ]}.

Definition _map_reference_rate (currency : string) (expression_parts : list string)
  : PyResult (option string) :=
  if Py.str_in currency ["USD"; "USDD"; "EUR"] then
    entry ← Py.dict_getitem currency_ref_mapping currency;
    match entry with
    | RateName rate => Ok (Some rate)
    | ByIndicator _ => Raise TypeError
    end
  else if Py.str_in currency ["GBP"; "CHF"] then
    entry ← Py.dict_getitem currency_ref_mapping currency;
    match entry with
    | ByIndicator currency_mapping =>
        if (length expression_parts =? 8)%nat then
          ref_indicator ← Py.getitem expression_parts 3;
          rate ← Py.dict_getitem currency_mapping ref_indicator;
          Ok (Some rate)
        else
          rate ← Py.dict_getitem currency_mapping "default";
          Ok (Some rate)
    | RateName _ => Raise TypeError
    end
  else Ok None.

(** Result order as in the source: (normalized currency, x_tenor, y_tenor,
    reference rate), where x is the option expiry and y the swap tenor. *)
Definition _parse_expression (expression : string)
  : PyResult (string * string * string * string) :=
  if negb (Py.startswith expression "DB(") || negb (Py.endswith expression ")")
  then Raise (ValueError MustStartWithDBAndEndWithParen)
  else
    let parts := Py.split "," (Py.slice_3_m1 expression) in
    p0 ← Py.getitem parts 0;
    bad_prefix ← (if negb (String.eqb p0 "COV") then Ok true
                  else p1 ← Py.getitem parts 1;
                       Ok (negb (String.eqb p1 "VOLSWAPTION")));
    if bad_prefix : bool then Raise (ValueError MustFollowCovVolswaptionFormat)
    else
      '(currency, y_tenor, x_tenor) ←
        (if (length parts =? 7)%nat then
           currency ← Py.getitem parts 2;
           y_tenor ← Py.getitem parts 3;
           x_tenor ← Py.getitem parts 4;
           Ok (currency, y_tenor, x_tenor)
         else if (length parts =? 8)%nat then
           currency ← Py.getitem parts 2;
           ref_indicator ← Py.getitem parts 3;
           y_tenor ← Py.getitem parts 4;
           x_tenor ← Py.getitem parts 5;
           if Py.str_in currency ["GBP"; "CHF"]
              && negb (Py.str_in ref_indicator ["SONIA"; "SARON"])
           then Raise (ValueError (InvalidReferenceIndicator ref_indicator currency))
           else Ok (currency, y_tenor, x_tenor)
         else Raise (ValueError (MustHave7Or8Parts (length parts))));
      if negb (Py.str_in x_tenor OptionExpiryEnum_values)
      then Raise (ValueError (InvalidXTenor x_tenor))
      else if negb (Py.str_in y_tenor SwapTenorEnum_values)
      then Raise (ValueError (InvalidYTenor y_tenor))
      else
        ref_rate ← _map_reference_rate currency parts;
        match ref_rate with
        | None => Raise (ValueError (CouldNotMapReferenceRate currency))
        | Some ref_rate =>
            if negb (Py.truthy ref_rate)
            then Raise (ValueError (CouldNotMapReferenceRate currency))
            else
              let normalized_currency :=
                if String.eqb currency "USDD" then "USD" else currency in
              if negb (forallb Py.truthy
                         [normalized_currency; x_tenor; y_tenor; ref_rate])
              then Raise (ValueError MissingRequiredFields)
              else Ok (normalized_currency, x_tenor, y_tenor, ref_rate)
        end.

(** [math.sqrt(252)]: the correctly rounded binary64 square root. *)
Definition math_sqrt_252 : float := PrimFloat.sqrt 252.

Definition _apply_value_transformations (value : float) (currency ref_rate : string)
  : float :=
  if String.eqb currency "USD" && String.eqb ref_rate "SOFR"
  then PrimFloat.mul value math_sqrt_252
  else value.

(** ** models.py: rows of the two tables *)

(** [date.toordinal()] *)
Definition Date : Type := Z.
(** microseconds since the epoch *)
Definition Timestamp : Type := Z.

Module RawData.

Record t : Type := mk {
  raw_data_id : option Z;
  expression : string;
  date : Date;
  value : float;
  fetch_timestamp : Timestamp;
  version : Z;
  ingestion_mode : string;
  source_file_uri : string
}.

(** [RawData(...)]: the field constraints ([max_length], [gt], [ge]) and the
    two field validators run in the constructor; the primary key is left to
    the database. *)
Definition new (expression : string) (date : Date) (value : float)
    (fetch_timestamp : Timestamp) (version : Z)
    (ingestion_mode source_file_uri : string) : PyResult t :=
  if (String.length expression <=? 200)%nat
     && PrimFloat.ltb 0 value
     && (1 <=? version)
     && Py.str_in ingestion_mode RunModeEnum_values
     && (String.length source_file_uri <=? 500)%nat
  then Ok (mk None expression date value fetch_timestamp version
              ingestion_mode source_file_uri)
  else Raise (ValidationError "RawData").

End RawData.

Module CleanData.

Record t : Type := mk {
  clean_data_id : option Z;
  expression : string;
  date : Date;
  currency : string;
  x : string;
  y : string;
  ref : string;
  value : float;
  raw_data_id : Z
}.

(** [CleanData(...)]: field constraints and the validators of [currency],
    [x] and [y]. *)
Definition new (expression : string) (date : Date)
    (currency x y ref : string) (value : float) (raw_data_id : Z) : PyResult t :=
  if (String.length expression <=? 200)%nat
     && (String.length currency <=? 10)%nat
     && (String.length x <=? 10)%nat
     && (String.length y <=? 10)%nat
     && (String.length ref <=? 20)%nat
     && PrimFloat.ltb 0 value
     && Py.str_in currency CurrencyEnum_values
     && Py.str_in x OptionExpiryEnum_values
     && Py.str_in y SwapTenorEnum_values
  then Ok (mk None expression date currency x y ref value raw_data_id)
  else Raise (ValidationError "CleanData").

End CleanData.

(** [APIRequest(expression=..., start_date=..., end_date=...)] *)
Definition validate_expression_format (v : string) : bool :=
  if negb (Py.startswith v "DB(") || negb (Py.endswith v ")") then false
  else
    let parts := Py.split "," (Py.slice_3_m1 v) in
    if negb ((length parts =? 7)%nat || (length parts =? 8)%nat) then false
    else
      match parts with
      | p0 :: p1 :: _ => String.eqb p0 "COV" && String.eqb p1 "VOLSWAPTION"
      | _ => false
      end.

Definition validate_date_range (start_date v : Date) : bool :=
  negb (v <? start_date).

Definition APIRequest_new (expression : string) (start_date end_date : Date)
  : PyResult (string * Date * Date) :=
  if validate_expression_format expression
     && validate_date_range start_date end_date
  then Ok (expression, start_date, end_date)
  else Raise (ValidationError "APIRequest").

(** [APIResponse(date=..., value=...)] *)
Definition APIResponse_new (date : Date) (value : float) : PyResult (Date * float) :=
  if PrimFloat.ltb 0 value then Ok (date, value)
  else Raise (ValidationError "APIResponse").

(** ** The raw_data table as the session sees it *)

Definition raw_key_matches (expression : string) (date : Date) (r : RawData.t) : bool :=
  String.eqb (RawData.expression r) expression && (RawData.date r =? date).

(** [select(RawData).where(expression == e, date == d)] *)
Definition select_raw (session : list RawData.t) (expression : string) (date : Date)
  : list RawData.t :=
  List.filter (raw_key_matches expression date) session.

(** SQL [max]: NULL on no rows. *)
Definition sql_max (l : list Z) : option Z :=
  match l with
  | [] => None
  | a :: l' => Some (fold_left Z.max l' a)
  end.

(** SQL [coalesce(v, d)] *)
Definition coalesce (v : option Z) (d : Z) : Z :=
  match v with Some a => a | None => d end.

(** [select(coalesce(max(version), 0) + 1).where(expression == e, date == d)],
    then [.first() or 1]. *)
Definition select_next_version (session : list RawData.t)
    (expression : string) (date : Date) : Z :=
  let first :=
    coalesce (sql_max (map RawData.version (select_raw session expression date))) 0 + 1 in
  if first =? 0 then 1 else first.

(** The key the database gives a new row: one more than the largest rowid. *)
Definition next_raw_id (session : list RawData.t) : Z :=
  fold_left Z.max (map (fun r => coalesce (RawData.raw_data_id r) 0) session) 0 + 1.

(** [session.add(raw_record)]; the row is flushed, and so keyed and visible,
    by the next query at the latest. *)
Definition session_add_raw (session : list RawData.t) (r : RawData.t) : list RawData.t :=
  session ++ [RawData.mk (Some (next_raw_id session)) (RawData.expression r)
                (RawData.date r) (RawData.value r) (RawData.fetch_timestamp r)
                (RawData.version r) (RawData.ingestion_mode r)
                (RawData.source_file_uri r)].

(** ** market_data_api.py and extractor.py *)

(** [date.weekday()] *)
Definition weekday (d : Date) : Z := (d + 6) mod 7.

(** [pd.bdate_range(start, end, freq="B")]: the Mondays to Fridays of the
    closed range. *)
Definition bdate_range (start_date end_date : Date) : list Date :=
  List.filter (fun d => weekday d <? 5)
    (map (fun i => start_date + Z.of_nat i)
       (seq 0 (Z.to_nat (end_date - start_date + 1)))).

Record Metrics : Type := mkMetrics {
  expressions_processed : Z;
  rows_fetched : Z;
  rows_inserted : Z;
  duplicates_detected : Z;
  errors : Z
}.

(** The [blob_data] that [_store_blob] dumps into a file. *)
Record Blob : Type := mkBlob {
  blob_expression : string;
  blob_start_date : Date;
  blob_end_date : Date;
  blob_fetch_timestamp : Timestamp;
  blob_rows : list (Date * float)
}.

(** What an extraction can touch: the raw_data table, the blob directory
    (its files by name), the API (the calls made so far) and the wall clock
    (the number of readings so far). *)
Record World : Type := mkWorld {
  raw_data : list RawData.t;
  blob_storage : gmap string Blob;
  api_calls : list (string * Date * Date);
  clock : nat
}.

Section Extractor.

(** The n-th reading of the wall clock. *)
Variable utcnow : nat -> Timestamp.
(** The i-th draw of [random.uniform(-10, 10)] after seeding from the
    expression and the date range. *)
Variable random_uniform : string -> Date -> Date -> nat -> float.
(** The file name built from the expression, the range and a time stamp. *)
Variable blob_filename : string -> Date -> Date -> Timestamp -> string.
(** Whether [open(file_path, "w")] raises for a file name: the verdict of
    the file system on a name that is no path into the blob directory. *)
Variable open_fails : string -> bool.

(** [MarketData.get_historical_data] *)
Definition get_historical_data (expression : string) (start_date end_date : Date)
  : list (Date * float) :=
  let dates := bdate_range start_date end_date in
  let values :=
    map (fun i => PrimFloat.add 80 (random_uniform expression start_date end_date i))
      (seq 0 (length dates)) in
  combine dates values.

(** The final [raise ValueError("Unsupported ingestion mode")] of the source
    is beyond the three members of the enumeration. *)
Definition _should_fetch_data (session : list RawData.t) (expression : string)
    (start_date end_date : Date) (ingestion_mode : RunModeEnum) : PyResult bool :=
  match ingestion_mode with
  | HISTORICAL => Ok true
  | DEFAULT | OLD_CODES =>
      Ok (Z.of_nat (length (select_raw session expression start_date)) <? 3)
  end.

(** The clock is read for the file name and for the [fetch_timestamp] of
    the blob, before the file is opened; a file of the same name is
    overwritten. *)
Definition _store_blob (w : World) (df : list (Date * float)) (expression : string)
    (start_date end_date : Date) : PyResult string * World :=
  let timestamp := utcnow (clock w) in
  let filename := blob_filename expression start_date end_date timestamp in
  let blob_data :=
    mkBlob expression start_date end_date (utcnow (1 + clock w)) df in
  if open_fails filename then
    (Raise OSError,
     mkWorld (raw_data w) (blob_storage w) (api_calls w) (2 + clock w))
  else
    (Ok ("blob://market-data/" +:+ filename),
     mkWorld (raw_data w) (<[filename := blob_data]> (blob_storage w))
       (api_calls w) (2 + clock w)).

(** The body of the loop of [_insert_raw_data], for one row of the frame. *)
Definition insert_raw_row (session : list RawData.t) (row : Date * float)
    (expression blob_uri : string) (ingestion_mode : RunModeEnum)
    (fetch_timestamp : Timestamp) : PyResult unit * list RawData.t :=
  match APIResponse_new (fst row) (snd row) with
  | Raise e => (Raise e, session)
  | Ok (date, value) =>
      let version := select_next_version session expression date in
      match RawData.new expression date value fetch_timestamp version
              (RunModeEnum_value ingestion_mode) blob_uri with
      | Raise e => (Raise e, session)
      | Ok raw_record => (Ok tt, session_add_raw session raw_record)
      end
  end.

Fixpoint insert_raw_rows (session : list RawData.t) (df : list (Date * float))
    (expression blob_uri : string) (ingestion_mode : RunModeEnum)
    (fetch_timestamp : Timestamp) (rows_inserted : Z)
  : PyResult Z * list RawData.t :=
  match df with
  | [] => (Ok rows_inserted, session)
  | row :: df' =>
      match insert_raw_row session row expression blob_uri ingestion_mode
              fetch_timestamp with
      | (Raise e, session') => (Raise e, session')
      | (Ok _, session') =>
          insert_raw_rows session' df' expression blob_uri ingestion_mode
            fetch_timestamp (rows_inserted + 1)
      end
  end.

Definition _insert_raw_data (w : World) (df : list (Date * float))
    (expression blob_uri : string) (ingestion_mode : RunModeEnum)
  : PyResult Z * World :=
  let fetch_timestamp := utcnow (clock w) in
  let '(result, session) :=
    insert_raw_rows (raw_data w) df expression blob_uri ingestion_mode
      fetch_timestamp 0 in
  (result, mkWorld session (blob_storage w) (api_calls w) (1 + clock w)).

(** One iteration of the loop of [extract_data], with its [try]/[except]. *)
Definition extract_expression (w : World) (metrics : Metrics) (expression : string)
    (start_date end_date : Date) (ingestion_mode : RunModeEnum) : Metrics * World :=
  let failed :=
    mkMetrics (expressions_processed metrics) (rows_fetched metrics)
      (rows_inserted metrics) (duplicates_detected metrics) (errors metrics + 1) in
  match APIRequest_new expression start_date end_date with
  | Raise _ => (failed, w)
  | Ok _ =>
      match _should_fetch_data (raw_data w) expression start_date end_date
              ingestion_mode with
      | Raise _ => (failed, w)
      | Ok false => (metrics, w)
      | Ok true =>
          let df := get_historical_data expression start_date end_date in
          let w1 := mkWorld (raw_data w) (blob_storage w)
                      (api_calls w ++ [(expression, start_date, end_date)])
                      (clock w) in
          match df with
          | [] => (metrics, w1)
          | _ :: _ =>
              match _store_blob w1 df expression start_date end_date with
              | (Raise _, w2) => (failed, w2)
              | (Ok blob_uri, w2) =>
                  match _insert_raw_data w2 df expression blob_uri
                          ingestion_mode with
                  | (Raise _, w3) => (failed, w3)
                  | (Ok inserted, w3) =>
                      (mkMetrics (expressions_processed metrics + 1)
                         (rows_fetched metrics + Z.of_nat (length df))
                         (rows_inserted metrics + inserted)
                         (duplicates_detected metrics) (errors metrics),
                       w3)
                  end
              end
          end
      end
  end.

Fixpoint extract_expressions (w : World) (metrics : Metrics)
    (expressions : list string) (start_date end_date : Date)
    (ingestion_mode : RunModeEnum) : Metrics * World :=
  match expressions with
  | [] => (metrics, w)
  | expression :: rest =>
      let '(metrics', w') :=
        extract_expression w metrics expression start_date end_date
          ingestion_mode in
      extract_expressions w' metrics' rest start_date end_date ingestion_mode
  end.

Definition extract_data (w : World) (expressions : list string)
    (start_date end_date : Date) (ingestion_mode : RunModeEnum)
  : PyResult Metrics * World :=
  if match ingestion_mode with DEFAULT | OLD_CODES => true | HISTORICAL => false end
     && negb (start_date =? end_date)
  then (Raise (ValueError (ModeRequiresSameDates (RunModeEnum_value ingestion_mode))), w)
  else
    let '(metrics, w') :=
      extract_expressions w (mkMetrics 0 0 0 0 0) expressions start_date end_date
        ingestion_mode in
    (Ok metrics, w').

End Extractor.

(** ** The database read by the transformer and written by the loader *)

Record Database : Type := mkDatabase {
  raw_data_table : list RawData.t;
  clean_data_table : list CleanData.t
}.

Definition clean_key_matches (expression : string) (date : Date) (c : CleanData.t) : bool :=
  String.eqb (CleanData.expression c) expression && (CleanData.date c =? date).

(** ** transformer.py: selection and transformation *)

(** [select(RawData, CleanData).join(CleanData, and_(...), isouter=True)]:
    every raw row, paired with each clean row of its (expression, date), or
    with NULL when there is none. *)
Definition left_outer_join (raws : list RawData.t) (cleans : list CleanData.t)
  : list (RawData.t * option CleanData.t) :=
  flat_map
    (fun r =>
       match List.filter
               (clean_key_matches (RawData.expression r) (RawData.date r)) cleans with
       | [] => [(r, None)]
       | matched => map (fun c => (r, Some c)) matched
       end)
    raws.

(** SQL [a > b] on a nullable left operand: NULL is not true. *)
Definition sql_gt (a : option Z) (b : Z) : bool :=
  match a with Some a => b <? a | None => false end.

(** The [where] clause: [clean_data_id IS NULL], or [raw_data_id IS NOT NULL]
    (a non-nullable column) and the raw row is newer. *)
Definition unprocessed_or_newer (row : RawData.t * option CleanData.t) : bool :=
  match snd row with
  | None => true
  | Some c =>
      match CleanData.clean_data_id c with None => true | Some _ => false end
      || sql_gt (RawData.raw_data_id (fst row)) (CleanData.raw_data_id c)
  end.

(** Ascending order of a nullable key, NULL first. *)
Definition raw_id_le (a b : RawData.t) : bool :=
  match RawData.raw_data_id a, RawData.raw_data_id b with
  | None, _ => true
  | Some _, None => false
  | Some i, Some j => i <=? j
  end.

Fixpoint insert_by_raw_id (row : RawData.t * option CleanData.t)
    (sorted : list (RawData.t * option CleanData.t))
  : list (RawData.t * option CleanData.t) :=
  match sorted with
  | [] => [row]
  | h :: t =>
      if raw_id_le (fst row) (fst h) then row :: sorted
      else h :: insert_by_raw_id row t
  end.

(** [.order_by(col(RawData.raw_data_id))] *)
Definition order_by_raw_data_id (rows : list (RawData.t * option CleanData.t))
  : list (RawData.t * option CleanData.t) :=
  fold_right insert_by_raw_id [] rows.

(** [x in ids] for a list of integers, against a nullable column *)
Definition id_in (id : option Z) (ids : list Z) : bool :=
  match id with Some i => existsb (Z.eqb i) ids | None => false end.

Definition _get_raw_data_to_process (session : Database) (raw_data_ids : option (list Z))
  : list RawData.t :=
  match raw_data_ids with
  | Some (id :: ids) =>
      List.filter (fun r => id_in (RawData.raw_data_id r) (id :: ids))
        (raw_data_table session)
  | Some [] | None =>
      let results :=
        order_by_raw_data_id
          (List.filter unprocessed_or_newer
             (left_outer_join (raw_data_table session) (clean_data_table session))) in
      map fst results
  end.

Record TransformMetrics : Type := mkTransformMetrics {
  rows_processed : Z;
  rows_transformed : Z;
  rows_rejected : Z;
  validation_errors : Z
}.

(** The [try] block of the loop of [transform_raw_data], for one raw row. *)
Definition transform_raw_record (raw_record : RawData.t) : PyResult CleanData.t :=
  '(currency, x_tenor, y_tenor, ref_rate) ←
    _parse_expression (RawData.expression raw_record);
  let transformed_value :=
    _apply_value_transformations (RawData.value raw_record) currency ref_rate in
  match RawData.raw_data_id raw_record with
  | None => Raise (ValueError RawDataIdIsNone)
  | Some raw_data_id =>
      CleanData.new (RawData.expression raw_record) (RawData.date raw_record)
        currency x_tenor y_tenor ref_rate transformed_value raw_data_id
  end.

(** The loop of [transform_raw_data].  A constructed [CleanData] is always
    truthy, so the [else] of [if clean_record] is never taken. *)
Fixpoint transform_raw_records (raw_records : list RawData.t)
    (clean_records : list CleanData.t) (metrics : TransformMetrics)
  : list CleanData.t * TransformMetrics :=
  match raw_records with
  | [] => (clean_records, metrics)
  | raw_record :: rest =>
      let processed := rows_processed metrics + 1 in
      match transform_raw_record raw_record with
      | Ok clean_record =>
          transform_raw_records rest (clean_records ++ [clean_record])
            (mkTransformMetrics processed (rows_transformed metrics + 1)
               (rows_rejected metrics) (validation_errors metrics))
      | Raise (ValidationError _) =>
          transform_raw_records rest clean_records
            (mkTransformMetrics processed (rows_transformed metrics)
               (rows_rejected metrics) (validation_errors metrics + 1))
      | Raise _ =>
          transform_raw_records rest clean_records
            (mkTransformMetrics processed (rows_transformed metrics)
               (rows_rejected metrics + 1) (validation_errors metrics))
      end
  end.

Definition transform_raw_data (session : Database) (raw_data_ids : option (list Z))
  : list CleanData.t * TransformMetrics :=
  let raw_records := _get_raw_data_to_process session raw_data_ids in
  transform_raw_records raw_records [] (mkTransformMetrics 0 0 0 0).

(** ** loader.py: upsert and integrity check *)

(** The key the database gives a new row: one more than the largest rowid. *)
Definition next_clean_id (session : list CleanData.t) : Z :=
  fold_left Z.max (map (fun c => coalesce (CleanData.clean_data_id c) 0) session) 0 + 1.

Record LoadMetrics : Type := mkLoadMetrics {
  records_processed : Z;
  records_inserted : Z;
  records_updated : Z;
  records_failed : Z
}.

(** A [CleanData] object held by the caller of the loader.  A transient
    object has attributes of its own.  An object that a session inserted is
    expired by the commit and detached when the session closes: reading an
    attribute of it raises. *)
Inductive CleanObject : Type :=
| Transient (attributes : CleanData.t)
| Detached.

(** The objects by reference: [load_clean_data] is given a list of
    references, and the same object may be given to several calls, or
    several times to one. *)
Definition Objects : Type := nat -> CleanObject.

(** The session of a load.  A row of clean_data as the session sees it comes
    with the candidate object that [session.add] made this row, if any: the
    object and the row are then one thing.  The engine checks the
    constraints of the table when the pending change is flushed, before the
    next query or at the commit; after a failed flush every use of the
    session raises until a rollback, which the loader never issues. *)
Record Session : Type := mkSession {
  clean_data : list (option nat * CleanData.t);
  pending_violation : bool;
  needs_rollback : bool
}.

(** [Session(self.engine)] *)
Definition Session_new (engine : Database) : Session :=
  mkSession (map (fun row => (None, row)) (clean_data_table engine)) false false.

(** The constraints [positive_value] and [reasonable_value_range] of
    clean_data, as SQLite evaluates them; a NaN is stored as NULL, which the
    column refuses. *)
Definition reasonable_value_range (value : float) : bool :=
  PrimFloat.leb 1 value && PrimFloat.leb value 2000.

(** Whether a row has the primary key. *)
Definition primary_key_taken (rows : list CleanData.t) (clean_data_id : Z) : bool :=
  existsb
    (fun row =>
       match CleanData.clean_data_id row with
       | Some k => k =? clean_data_id
       | None => false
       end)
    rows.

(** The flush before a query and at the commit. *)
Definition flush (session : Session) : PyResult unit * Session :=
  if needs_rollback session then (Raise PendingRollbackError, session)
  else if pending_violation session then
    (Raise IntegrityError, mkSession (clean_data session) false true)
  else (Ok tt, session).

(** Reading the attributes of a candidate: those of its row when the
    session holds the object, its own otherwise. *)
Definition getattr (objects : Objects) (session : Session) (clean_record : nat)
  : PyResult CleanData.t :=
  match list_find (fun row => fst row = Some clean_record) (clean_data session) with
  | Some (_, (_, columns)) => Ok columns
  | None =>
      match objects clean_record with
      | Transient attributes => Ok attributes
      | Detached => Raise DetachedInstanceError
      end
  end.

(** [session.add(clean_record)] for a transient object: the object becomes
    a pending row, with its own key when it has one. *)
Definition session_add (session : Session) (clean_record : nat)
    (attributes : CleanData.t) : Session :=
  let rows := map snd (clean_data session) in
  let clean_data_id :=
    match CleanData.clean_data_id attributes with
    | Some k => k
    | None => next_clean_id rows
    end in
  mkSession
    (clean_data session
     ++ [(Some clean_record,
          CleanData.mk (Some clean_data_id) (CleanData.expression attributes)
            (CleanData.date attributes) (CleanData.currency attributes)
            (CleanData.x attributes) (CleanData.y attributes)
            (CleanData.ref attributes) (CleanData.value attributes)
            (CleanData.raw_data_id attributes))])
    (negb (reasonable_value_range (CleanData.value attributes))
     || match CleanData.clean_data_id attributes with
        | Some k => primary_key_taken rows k
        | None => false
        end)
    (needs_rollback session).

(** The expression and the date of the candidate are read for the
    statement, the query flushes, and the first row of the result is
    updated in place or the candidate is added.  The foreign key to
    raw_data is not enforced by SQLite. *)
Definition _upsert_clean_record (objects : Objects) (session : Session)
    (clean_record : nat) : PyResult string * Session :=
  match getattr objects session clean_record with
  | Raise e => (Raise e, session)
  | Ok attributes =>
      match flush session with
      | (Raise e, session) => (Raise e, session)
      | (Ok _, session) =>
          match list_find
                  (fun row =>
                     CleanData.expression (snd row) = CleanData.expression attributes
                     /\ CleanData.date (snd row) = CleanData.date attributes)
                  (clean_data session) with
          | None => (Ok "inserted", session_add session clean_record attributes)
          | Some (i, (object, existing_record)) =>
              let existing_record :=
                CleanData.mk (CleanData.clean_data_id existing_record)
                  (CleanData.expression existing_record)
                  (CleanData.date existing_record)
                  (CleanData.currency attributes) (CleanData.x attributes)
                  (CleanData.y attributes) (CleanData.ref attributes)
                  (CleanData.value attributes) (CleanData.raw_data_id attributes) in
              (Ok "updated",
               mkSession (<[i := (object, existing_record)]> (clean_data session))
                 (negb (reasonable_value_range (CleanData.value attributes)))
                 (needs_rollback session))
          end
      end
  end.

(** The loop of [load_clean_data], with its [try]/[except]. *)
Fixpoint load_clean_records (objects : Objects) (session : Session)
    (clean_records : list nat) (metrics : LoadMetrics) : LoadMetrics * Session :=
  match clean_records with
  | [] => (metrics, session)
  | clean_record :: rest =>
      let processed := records_processed metrics + 1 in
      match _upsert_clean_record objects session clean_record with
      | (Ok result, session') =>
          let metrics' :=
            if String.eqb result "inserted" then
              mkLoadMetrics processed (records_inserted metrics + 1)
                (records_updated metrics) (records_failed metrics)
            else if String.eqb result "updated" then
              mkLoadMetrics processed (records_inserted metrics)
                (records_updated metrics + 1) (records_failed metrics)
            else
              mkLoadMetrics processed (records_inserted metrics)
                (records_updated metrics) (records_failed metrics) in
          load_clean_records objects session' rest metrics'
      | (Raise _, session') =>
          load_clean_records objects session' rest
            (mkLoadMetrics processed (records_inserted metrics)
               (records_updated metrics) (records_failed metrics + 1))
      end
  end.

(** The commit, outside the [try], flushes.  When it raises, the block of
    the session rolls back and the exception leaves [load_clean_data]: the
    database is what it was, and the model says nothing of the objects.
    When it returns, the objects that the session holds are expired, and
    detached by the end of the block. *)
Definition load_clean_data (engine : Database) (objects : Objects)
    (clean_records : list nat) : PyResult (LoadMetrics * Objects) * Database :=
  let '(metrics, session) :=
    load_clean_records objects (Session_new engine) clean_records
      (mkLoadMetrics 0 0 0 0) in
  match flush session with
  | (Raise e, _) => (Raise e, engine)
  | (Ok _, session) =>
      (Ok (metrics,
           fun r =>
             match list_find (fun row => fst row = Some r) (clean_data session) with
             | Some _ => Detached
             | None => objects r
             end),
       mkDatabase (raw_data_table engine) (map snd (clean_data session)))
  end.

Inductive Issue : Type :=
| NoRawDataRecordsFound
| FoundDuplicateCombinations (duplicates : Z) (fetch_timestamp : Timestamp).

Record IntegrityReport : Type := mkIntegrityReport {
  valid : bool;
  issues : list Issue;
  duplicate_combinations : Z;
  validation_fetch_timestamp : option Timestamp;
  records_checked : Z
}.

(** [select(fetch_timestamp).order_by(fetch_timestamp.desc()).limit(1)],
    then [.first()] *)
Definition latest_fetch (raws : list RawData.t) : option Timestamp :=
  sql_max (map RawData.fetch_timestamp raws).

(** [select(CleanData).join(RawData, and_(...)).where(fetch_timestamp == t)] *)
Definition latest_clean_data_stmt (session : Database) (latest : Timestamp)
  : list CleanData.t :=
  flat_map
    (fun c =>
       map (fun _ => c)
         (List.filter
            (fun r =>
               raw_key_matches (CleanData.expression c) (CleanData.date c) r
               && (RawData.fetch_timestamp r =? latest))
            (raw_data_table session)))
    (clean_data_table session).

(** The loop over [latest_clean_data], with its set and its counter. *)
Fixpoint count_duplicates (records : list CleanData.t)
    (expressions_seen : gset (string * Date)) (duplicates : Z) : Z :=
  match records with
  | [] => duplicates
  | record :: rest =>
      let expression_date_combo :=
        (CleanData.expression record, CleanData.date record) in
      if bool_decide (expression_date_combo ∈ expressions_seen)
      then count_duplicates rest expressions_seen (duplicates + 1)
      else count_duplicates rest ({[expression_date_combo]} ∪ expressions_seen)
             duplicates
  end.

Definition validate_clean_data_integrity (session : Database) : IntegrityReport :=
  match latest_fetch (raw_data_table session) with
  | None => mkIntegrityReport true [NoRawDataRecordsFound] 0 None 0
  | Some latest_fetch_timestamp =>
      let latest_clean_data := latest_clean_data_stmt session latest_fetch_timestamp in
      let duplicates := count_duplicates latest_clean_data ∅ 0 in
      if 0 <? duplicates then
        mkIntegrityReport false
          [FoundDuplicateCombinations duplicates latest_fetch_timestamp]
          duplicates (Some latest_fetch_timestamp)
          (Z.of_nat (length latest_clean_data))
      else
        mkIntegrityReport true [] 0 (Some latest_fetch_timestamp)
          (Z.of_nat (length latest_clean_data))
  end.

Definition key_eq_dec (a b : string * Date) : {a = b} + {a <> b} := decide (a = b).

(** The count in the words of the design document: the (expression, date)
    pairs that appear more than once among the records. *)
Definition pairs_appearing_more_than_once (records : list CleanData.t) : Z :=
  let keys := map (fun c => (CleanData.expression c, CleanData.date c)) records in
  Z.of_nat
    (length
       (List.filter (fun k => (1 <? count_occ key_eq_dec keys k)%nat)
          (nodup key_eq_dec keys))).

(** ** Vocabulary of the statements about expressions *)

(** A token: a string without the separator. *)
Fixpoint comma_free (s : string) : bool :=
  match s with
  | EmptyString => true
  | String c s' => negb (Ascii.eqb c ",") && comma_free s'
  end.

(** The expression whose body is the given token list. *)
Definition expression_of (parts : list string) : string :=
  "DB(" +:+ Py.join "," parts +:+ ")".

(** ** Vocabulary of the statements about the tables *)

(** The rows stored for an (expression, date): the rows of the table with
    that expression and that date, in the order of the table. *)
Definition rows_stored_for (session : list RawData.t) (expression : string)
    (date : Date) : list RawData.t :=
  List.filter
    (fun r => bool_decide (RawData.expression r = expression /\ RawData.date r = date))
    session.

(** The versions stored for an (expression, date), in insertion order. *)
Definition versions_of (session : list RawData.t) (expression : string) (date : Date)
  : list Z :=
  map RawData.version (select_raw session expression date).




Definition select_clean (session : list CleanData.t) (expression : string) (date : Date)
  : list CleanData.t :=
  List.filter (clean_key_matches expression date) session.

(** The (expression, date) of a clean row. *)
Definition clean_key (c : CleanData.t) : string * Date :=
  (CleanData.expression c, CleanData.date c).

(** The constraint [uq_clean_data_combination]. *)
Definition clean_unique (session : list CleanData.t) : Prop :=
  NoDup (map clean_key session).

(** ** market_data_api.py: the sample expressions *)

(** [create_sample_expressions()]: the dict of the three lists. *)
Definition create_sample_expressions : gmap string (list string) :=
  let new_codes :=
    flat_map
      (fun y =>
         flat_map
           (fun x =>
              ["DB(COV,VOLSWAPTION,USDD," +:+ y +:+ "," +:+ x +:+ ",PAYER,VOLBPVOL)";
               "DB(COV,VOLSWAPTION,EUR," +:+ y +:+ "," +:+ x +:+ ",PAYER,VOLBPVOL)";
               "DB(COV,VOLSWAPTION,GBP,SONIA," +:+ y +:+ "," +:+ x +:+ ",PAYER,VOLBPVOL)";
               "DB(COV,VOLSWAPTION,CHF,SARON," +:+ y +:+ "," +:+ x +:+ ",PAYER,VOLBPVOL)"])
           ["1y"; "5y"])
      ["2y"; "5y"; "10y"] in
  let old_codes :=
    flat_map
      (fun y =>
         flat_map
           (fun x =>
              ["DB(COV,VOLSWAPTION,USD," +:+ y +:+ "," +:+ x +:+ ",PAYER,VOLBPVOL)";
               "DB(COV,VOLSWAPTION,GBP," +:+ y +:+ "," +:+ x +:+ ",PAYER,VOLBPVOL)";
               "DB(COV,VOLSWAPTION,CHF," +:+ y +:+ "," +:+ x +:+ ",PAYER,VOLBPVOL)"])
           ["1y"; "5y"])
      ["2y"; "5y"; "10y"] in
  {[ "new_codes" := new_codes;
     "old_codes" := old_codes;
     "all_codes" := (new_codes ++ old_codes)%list ]}.

(** ** extractor.py: the expressions of a mode *)

(** The final [raise ValueError] of the source is beyond the three members
    of the enumeration. *)
Definition get_expressions_for_mode (mode : RunModeEnum) : PyResult (list string) :=
  let sample_expressions := create_sample_expressions in
  match mode with
  | DEFAULT => Py.dict_getitem sample_expressions "new_codes"
  | OLD_CODES => Py.dict_getitem sample_expressions "all_codes"
  | HISTORICAL => Py.dict_getitem sample_expressions "old_codes"
  end.

(** ** Vocabulary of the further statements *)

(** The errors of the parser about the wrapper, the prefix and the number of
    tokens, and the [IndexError] of a one-token body. *)
Definition shape_error (e : PyExn) : Prop :=
  match e with
  | ValueError MustStartWithDBAndEndWithParen
  | ValueError MustFollowCovVolswaptionFormat
  | ValueError (MustHave7Or8Parts _)
  | IndexError => True
  | _ => False
  end.

(** Why [APIResponse] or [RawData] refuses a row of a frame: its value is
    not positive, the expression or the blob URI is too long, or the table
    holds a negative version for the key of the row (which the constraint
    [positive_version] of the table excludes). *)
Definition row_refused (session : list RawData.t) (expression blob_uri : string)
    (row : Date * float) : Prop :=
  PrimFloat.ltb 0 (snd row) = false
  \/ (200 < String.length expression)%nat
  \/ (500 < String.length blob_uri)%nat
  \/ exists r,
       In r session /\ RawData.expression r = expression
       /\ RawData.date r = fst row /\ RawData.version r < 0.

(** What holds of a raw row inserted by a call for the given expressions,
    date range and mode, [blobs] being the blob directory. *)
Definition inserted_row_ok (expressions : list string) (start_date end_date : Date)
    (ingestion_mode : RunModeEnum) (blobs : gmap string Blob) (r : RawData.t)
  : Prop :=
  In (RawData.expression r) expressions
  /\ validate_expression_format (RawData.expression r) = true
  /\ start_date <= RawData.date r <= end_date
  /\ weekday (RawData.date r) < 5
  /\ PrimFloat.ltb 0 (RawData.value r) = true
  /\ 1 <= RawData.version r
  /\ RawData.ingestion_mode r = RunModeEnum_value ingestion_mode
  /\ RawData.raw_data_id r <> None
  /\ exists filename,
       is_Some (blobs !! filename)
       /\ RawData.source_file_uri r = "blob://market-data/" +:+ filename.

(** The blob was written by a call for the given expressions and range. *)
Definition blob_of_call (expressions : list string) (start_date end_date : Date)
    (blob : Blob) : Prop :=
  In (blob_expression blob) expressions
  /\ blob_start_date blob = start_date
  /\ blob_end_date blob = end_date.

(** How a call of the extractor may change the world: rows and logged API
    calls are added at the end and the clock does not go back; a file of the
    blob directory is what it was or was written by this call, so no file
    disappears, and the directory grows by no more files than API calls are
    made; the added rows are as above, and an added API call is for one of
    the expressions and for the range. *)
Definition extraction_step (expressions : list string) (start_date end_date : Date)
    (ingestion_mode : RunModeEnum) (w w' : World) : Prop :=
  exists added calls,
    raw_data w' = (raw_data w ++ added)%list
    /\ api_calls w' = (api_calls w ++ calls)%list
    /\ (clock w <= clock w')%nat
    /\ (forall filename,
          blob_storage w' !! filename = blob_storage w !! filename
          \/ exists blob,
               blob_storage w' !! filename = Some blob
               /\ blob_of_call expressions start_date end_date blob)
    /\ (size (blob_storage w') <= size (blob_storage w) + length calls)%nat
    /\ Forall (inserted_row_ok expressions start_date end_date ingestion_mode
                 (blob_storage w')) added
    /\ Forall (fun c => In (fst (fst c)) expressions
                        /\ snd (fst c) = start_date /\ snd c = end_date) calls.

(** The accounting of the iterations of [extract_data] between two points of
    its loop: the counter of duplicates is untouched, rows fetched and rows
    inserted move together, and the rows counted as inserted are among the
    rows added, all of them when no error was counted. *)
Definition iteration_accounts (m m' : Metrics) (w w' : World) : Prop :=
  duplicates_detected m' = duplicates_detected m
  /\ rows_fetched m' - rows_fetched m = rows_inserted m' - rows_inserted m
  /\ 0 <= rows_inserted m' - rows_inserted m
     <= Z.of_nat (length (raw_data w')) - Z.of_nat (length (raw_data w))
  /\ 0 <= expressions_processed m' - expressions_processed m
  /\ 0 <= errors m' - errors m
  /\ (errors m' = errors m ->
      rows_inserted m' - rows_inserted m
      = Z.of_nat (length (raw_data w')) - Z.of_nat (length (raw_data w))).

(** Ascending order of the raw id, a row without id before the others. *)
Definition raw_id_ascending (a b : RawData.t) : Prop :=
  match RawData.raw_data_id a, RawData.raw_data_id b with
  | None, _ => True
  | Some _, None => False
  | Some i, Some j => i <= j
  end.

(** The clean record of a raw row, when its transformation returns one. *)
Definition candidates_of (raw_records : list RawData.t) : list CleanData.t :=
  flat_map
    (fun r => match transform_raw_record r with Ok c => [c] | Raise _ => [] end)
    raw_records.

(** The candidate [c] is the transformation of the raw row [r]. *)
Definition candidate_from (r : RawData.t) (c : CleanData.t) : Prop :=
  CleanData.expression c = RawData.expression r
  /\ CleanData.date c = RawData.date r
  /\ RawData.raw_data_id r = Some (CleanData.raw_data_id c)
  /\ CleanData.clean_data_id c = None
  /\ _parse_expression (RawData.expression r)
     = Ok (CleanData.currency c, CleanData.x c, CleanData.y c, CleanData.ref c)
  /\ CleanData.value c
     = _apply_value_transformations (RawData.value r) (CleanData.currency c)
         (CleanData.ref c)
  /\ PrimFloat.ltb 0 (CleanData.value c) = true.

(** The last of the candidates with the given (expression, date). *)
Definition latest_candidate (expression : string) (date : Date)
    (clean_records : list CleanData.t) : option CleanData.t :=
  last (List.filter (clean_key_matches expression date) clean_records).

(** The row carries the (expression, date) and the six mutable fields of the
    candidate. *)
Definition carries (row c : CleanData.t) : Prop :=
  CleanData.expression row = CleanData.expression c
  /\ CleanData.date row = CleanData.date c
  /\ CleanData.currency row = CleanData.currency c
  /\ CleanData.x row = CleanData.x c
  /\ CleanData.y row = CleanData.y c
  /\ CleanData.ref row = CleanData.ref c
  /\ CleanData.value row = CleanData.value c
  /\ CleanData.raw_data_id row = CleanData.raw_data_id c.

(** The (expression, date) pairs of a list of clean rows, as a set. *)
Definition clean_keys (rows : list CleanData.t) : gset (string * Date) :=
  list_to_set (map clean_key rows).

(** The clean table has caught up with the raw table: a raw row whose
    transformation succeeds has exactly one clean row for its
    (expression, date), and that row refers to a raw id that is not
    smaller. *)
Definition caught_up (session : Database) : Prop :=
  forall r c,
    In r (raw_data_table session) ->
    transform_raw_record r = Ok c ->
    exists row,
      select_clean (clean_data_table session) (RawData.expression r)
        (RawData.date r) = [row]
      /\ CleanData.clean_data_id row <> None
      /\ CleanData.raw_data_id c <= CleanData.raw_data_id row.

(** The clean row is what the transformation makes of a raw row of the
    table: it refers to the raw id of a row with its (expression, date), its
    currency, tenors and reference rate are the parse of that expression, and
    its value is the transformed raw value, which is positive. *)
Definition derived_from (raws : list RawData.t) (row : CleanData.t) : Prop :=
  exists r,
    In r raws
    /\ RawData.raw_data_id r = Some (CleanData.raw_data_id row)
    /\ RawData.expression r = CleanData.expression row
    /\ RawData.date r = CleanData.date row
    /\ _parse_expression (RawData.expression r)
       = Ok (CleanData.currency row, CleanData.x row, CleanData.y row,
             CleanData.ref row)
    /\ CleanData.value row
       = _apply_value_transformations (RawData.value r) (CleanData.currency row)
           (CleanData.ref row)
    /\ PrimFloat.ltb 0 (CleanData.value row) = true.

(** The raw rows of an (expression, date) fetched at a given time stamp. *)
Definition select_raw_at (session : list RawData.t) (expression : string)
    (date : Date) (fetch_timestamp : Timestamp) : list RawData.t :=
  List.filter
    (fun r =>
       raw_key_matches expression date r
       && (RawData.fetch_timestamp r =? fetch_timestamp))
    session.

(** ** The upserts on the columns *)

(** What a load does to the columns of the table when every candidate can
    be read and no flush fails: the statements about the loader are proved
    by comparing it with this run of upserts on attribute values. *)

(** The row that a candidate without a key of its own becomes. *)
Definition session_add_clean (session : list CleanData.t) (c : CleanData.t)
  : list CleanData.t :=
  session ++ [CleanData.mk (Some (next_clean_id session)) (CleanData.expression c)
                (CleanData.date c) (CleanData.currency c) (CleanData.x c)
                (CleanData.y c) (CleanData.ref c) (CleanData.value c)
                (CleanData.raw_data_id c)].

(** The first row of an (expression, date), with its position. *)
Definition select_clean_first (session : list CleanData.t) (expression : string)
    (date : Date) : option (nat * CleanData.t) :=
  list_find
    (fun c => CleanData.expression c = expression /\ CleanData.date c = date)
    session.

(** The action and the table after it. *)
Definition upsert_row (session : list CleanData.t) (clean_record : CleanData.t)
  : string * list CleanData.t :=
  match select_clean_first session (CleanData.expression clean_record)
          (CleanData.date clean_record) with
  | None => ("inserted", session_add_clean session clean_record)
  | Some (i, existing_record) =>
      let existing_record :=
        CleanData.mk (CleanData.clean_data_id existing_record)
          (CleanData.expression existing_record) (CleanData.date existing_record)
          (CleanData.currency clean_record) (CleanData.x clean_record)
          (CleanData.y clean_record) (CleanData.ref clean_record)
          (CleanData.value clean_record) (CleanData.raw_data_id clean_record) in
      ("updated", <[i := existing_record]> session)
  end.

(** The run of upserts, with the counters of the loader. *)
Fixpoint upsert_rows (session : list CleanData.t)
    (clean_records : list CleanData.t) (metrics : LoadMetrics)
  : LoadMetrics * list CleanData.t :=
  match clean_records with
  | [] => (metrics, session)
  | clean_record :: rest =>
      let processed := records_processed metrics + 1 in
      let '(result, session') := upsert_row session clean_record in
      let metrics' :=
        if String.eqb result "inserted" then
          mkLoadMetrics processed (records_inserted metrics + 1)
            (records_updated metrics) (records_failed metrics)
        else if String.eqb result "updated" then
          mkLoadMetrics processed (records_inserted metrics)
            (records_updated metrics + 1) (records_failed metrics)
        else
          mkLoadMetrics processed (records_inserted metrics)
            (records_updated metrics) (records_failed metrics) in
      upsert_rows session' rest metrics'
  end.

Definition upsert_table (session : Database) (clean_records : list CleanData.t)
  : LoadMetrics * Database :=
  let '(metrics, cleans) :=
    upsert_rows (clean_data_table session) clean_records
      (mkLoadMetrics 0 0 0 0) in
  (metrics, mkDatabase (raw_data_table session) cleans).

(** The attributes of the candidates of a list that can be read: those of
    its transient objects, in the order of the list. *)
Definition readable (objects : Objects) (clean_records : list nat)
  : list CleanData.t :=
  flat_map
    (fun r => match objects r with Transient c => [c] | Detached => [] end)
    clean_records.

(** Candidates as the transformer returns them: different objects, the
    transient ones without a key of their own. *)
Definition fresh_candidates (objects : Objects) (clean_records : list nat) : Prop :=
  NoDup clean_records
  /\ forall r c,
       In r clean_records -> objects r = Transient c ->
       CleanData.clean_data_id c = None.

(** The objects that a transformation returns, and the list of them. *)
Definition new_objects (clean_records : list CleanData.t) : Objects :=
  fun r =>
    match clean_records !! r with
    | Some c => Transient c
    | None => Detached
    end.

Definition references (clean_records : list CleanData.t) : list nat :=
  seq 0 (length clean_records).

(** The candidates that a run of upserts on the columns reports as
    updated, in order. *)
Fixpoint updated_of (table : list CleanData.t) (clean_records : list CleanData.t)
  : list CleanData.t :=
  match clean_records with
  | [] => []
  | c :: rest =>
      let '(result, table') := upsert_row table c in
      ((if String.eqb result "inserted" then [] else [c])
       ++ updated_of table' rest)%list
  end.

(** The candidates of a list that can be read once the given objects are
    detached. *)
Definition readable_without (objects : Objects) (detached clean_records : list nat)
  : list CleanData.t :=
  flat_map
    (fun r =>
       if bool_decide (r ∈ detached) then []
       else match objects r with Transient c => [c] | Detached => [] end)
    clean_records.

(** No change is pending that the engine refuses, and no flush has failed. *)
Definition healthy (session : Session) : Prop :=
  pending_violation session = false /\ needs_rollback session = false.

(** The objects that the session holds. *)
Definition held (session : Session) : list (option nat) :=
  map fst (clean_data session).

(** The columns of the rows that the session sees. *)
Definition columns (session : Session) : list CleanData.t :=
  map snd (clean_data session).

(** * Properties *)

(** ** Facts about the string primitives *)

Section StringFacts.

Lemma length_append (a b : string) :
  String.length (a +:+ b) = (String.length a + String.length b)%nat.
Proof. induction a as [|c a IH]; simpl; [reflexivity | now rewrite IH]. Qed.

Lemma substring_exact (a b : string) :
  String.substring 0 (String.length a) (a +:+ b) = a.
Proof.
  induction a as [|c a IH]; simpl.
  - now destruct b.
  - now rewrite IH.
Qed.

Lemma substring_skip (a b : string) (m : nat) :
  String.substring (String.length a) m (a +:+ b) = String.substring 0 m b.
Proof. induction a as [|c a IH]; simpl; [reflexivity | exact IH]. Qed.

Lemma startswith_wrapped (body : string) :
  Py.startswith ("DB(" +:+ body +:+ ")") "DB(" = true.
Proof.
  unfold Py.startswith. simpl.
  destruct (body +:+ ")"); reflexivity.
Qed.

Lemma endswith_app (a : string) : Py.endswith (a +:+ ")") ")" = true.
Proof.
  unfold Py.endswith. rewrite length_append.
  cbn [String.length].
  replace (String.length a + 1 - 1)%nat with (String.length a) by lia.
  rewrite substring_skip.
  replace (1 <=? String.length a + 1)%nat with true
    by (symmetry; apply Nat.leb_le; lia).
  reflexivity.
Qed.

Lemma endswith_wrapped (body : string) :
  Py.endswith ("DB(" +:+ body +:+ ")") ")" = true.
Proof. exact (endswith_app ("DB(" +:+ body)). Qed.

Lemma slice_wrapped (body : string) :
  Py.slice_3_m1 ("DB(" +:+ body +:+ ")") = body.
Proof.
  unfold Py.slice_3_m1.
  replace (String.length ("DB(" +:+ body +:+ ")") - 1 - 3)%nat
    with (String.length body).
  - change 3%nat with (String.length "DB(").
    rewrite substring_skip. apply substring_exact.
  - rewrite !length_append. cbn [String.length]. lia.
Qed.

Lemma split_token (p : string) :
  comma_free p = true -> Py.split "," p = [p].
Proof.
  induction p as [|c p IH]; simpl; [reflexivity |].
  intros H. apply andb_prop in H as [Hc Hp].
  apply negb_true_iff in Hc. rewrite Hc, (IH Hp). reflexivity.
Qed.

Lemma split_token_app (p rest : string) :
  comma_free p = true ->
  Py.split "," (p +:+ String "," rest) = p :: Py.split "," rest.
Proof.
  induction p as [|c p IH]; simpl; [reflexivity |].
  intros H. apply andb_prop in H as [Hc Hp].
  apply negb_true_iff in Hc. rewrite Hc, (IH Hp). reflexivity.
Qed.

Lemma split_join (parts : list string) :
  parts <> [] ->
  forallb comma_free parts = true ->
  Py.split "," (Py.join "," parts) = parts.
Proof.
  induction parts as [|p ps IH]; [congruence |].
  intros _ H. simpl in H. apply andb_prop in H as [Hp Hps].
  destruct ps as [|q ps].
  - simpl. now apply split_token.
  - change (Py.join "," (p :: q :: ps))
      with (p +:+ String "," (Py.join "," (q :: ps))).
    rewrite split_token_app by assumption.
    rewrite IH; [reflexivity | congruence | assumption].
Qed.

End StringFacts.

(** Reduces the parse of [expression_of parts] to the parse of [parts]. *)
Ltac parse_tokens :=
  unfold _parse_expression, expression_of;
  rewrite startswith_wrapped, endswith_wrapped, slice_wrapped;
  rewrite split_join by (try discriminate; simpl; rewrite ?andb_true_r;
                         repeat (apply andb_true_intro; split); auto);
  cbn [negb orb].

(** ** Properties of the parser and of the value adjustment *)

Section ParserProperties.

Example parse_usd_old :
  _parse_expression "DB(COV,VOLSWAPTION,USD,2y,1y,PAYER,VOLBPVOL)"
  = Ok ("USD", "1y", "2y", "Libor").
Proof. vm_compute. reflexivity. Qed.

Example parse_short_body :
  _parse_expression "DB(COV)" = Raise IndexError.
Proof. vm_compute. reflexivity. Qed.

(** Unknown currencies reach the resolver, which answers [None]. *)
Lemma _map_reference_rate_unknown (currency : string) (parts : list string) :
  Py.str_in currency ["USD"; "USDD"; "EUR"; "GBP"; "CHF"] = false ->
  _map_reference_rate currency parts = Ok None.
Proof.
  unfold _map_reference_rate, Py.str_in. cbn [existsb].
  intros H.
  repeat (apply orb_false_elim in H as [-> H]).
  reflexivity.
Qed.

(** A well-shaped 7-token expression over an unknown currency fails with
    the mapping error. *)
Lemma _parse_expression_unknown_currency (currency y x t5 t6 : string) :
  forallb comma_free [currency; y; x; t5; t6] = true ->
  Py.str_in currency ["USD"; "USDD"; "EUR"; "GBP"; "CHF"] = false ->
  In y SwapTenorEnum_values ->
  In x OptionExpiryEnum_values ->
  _parse_expression
    (expression_of ["COV"; "VOLSWAPTION"; currency; y; x; t5; t6])
  = Raise (ValueError (CouldNotMapReferenceRate currency)).
Proof.
  intros Hcf Hcur Hy Hx.
  cbn [forallb] in Hcf.
  repeat (apply andb_prop in Hcf as [? Hcf]).
  parse_tokens.
  cbn [Py.getitem nth_error mbind PyResult_bind String.eqb Ascii.eqb
       Bool.eqb negb length Nat.eqb].
  assert (Hx' : Py.str_in x OptionExpiryEnum_values = true).
  { cbn in Hx. destruct Hx as [<-|[<-|[]]]; reflexivity. }
  assert (Hy' : Py.str_in y SwapTenorEnum_values = true).
  { cbn in Hy. destruct Hy as [<-|[<-|[<-|[]]]]; reflexivity. }
  rewrite Hx', Hy'. cbn [negb].
  rewrite _map_reference_rate_unknown by assumption.
  reflexivity.
Qed.

End ParserProperties.

(** C5. The adjustment multiplies by sqrt(252), in binary64 arithmetic, for
    the pair (USD, SOFR) and returns its argument for every other pair; the
    8-token GBP expression with the SONIA indicator resolves to (GBP, SOFR)
    and so is not adjusted. *)
Theorem C5_adjust_only_usd_sofr :
  (forall v : float,
      _apply_value_transformations v "USD" "SOFR"
      = PrimFloat.mul v (PrimFloat.sqrt 252))
  /\ (forall (v : float) (c r : string),
        (c, r) <> ("USD", "SOFR") -> _apply_value_transformations v c r = v)
  /\ _parse_expression "DB(COV,VOLSWAPTION,GBP,SONIA,2y,1y,PAYER,VOLBPVOL)"
     = Ok ("GBP", "1y", "2y", "SOFR")
  /\ (forall v : float, _apply_value_transformations v "GBP" "SOFR" = v).
Proof.
  split; [reflexivity |].
  split.
  - intros v c r Hne. unfold _apply_value_transformations.
    destruct (String.eqb_spec c "USD") as [-> | Hc]; [| reflexivity].
    destruct (String.eqb_spec r "SOFR") as [-> | Hr]; [| reflexivity].
    congruence.
  - split; [vm_compute; reflexivity | reflexivity].
Qed.

Lemma C5_adjust_only_usd_sofr_witness :
  _apply_value_transformations 100 "USD" "Libor" = 100%float.
Proof.
  apply (proj1 (proj2 C5_adjust_only_usd_sofr) 100%float "USD" "Libor").
  discriminate.
Defined.

(** C8. The 8-token GBP expression carrying the SARON indicator, and the CHF
    one carrying SONIA, pass the indicator guard; the lookup of the indicator
    in the currency's nested dict then raises [KeyError], which is not the
    mapping error.  The mapping error is what an unknown currency gets, and
    an indicator outside SONIA and SARON is stopped by the guard. *)
Theorem C8_foreign_indicator_raises_KeyError :
  _parse_expression "DB(COV,VOLSWAPTION,GBP,SARON,2y,1y,PAYER,VOLBPVOL)"
  = Raise (KeyError "SARON")
  /\ _parse_expression "DB(COV,VOLSWAPTION,CHF,SONIA,2y,1y,PAYER,VOLBPVOL)"
     = Raise (KeyError "SONIA")
  /\ ~ UnmappableReferenceRateError (KeyError "SARON")
  /\ ~ UnmappableReferenceRateError (KeyError "SONIA")
  /\ _parse_expression "DB(COV,VOLSWAPTION,JPY,2y,1y,PAYER,VOLBPVOL)"
     = Raise (ValueError (CouldNotMapReferenceRate "JPY"))
  /\ _parse_expression "DB(COV,VOLSWAPTION,JPY,TONA,2y,1y,PAYER,VOLBPVOL)"
     = Raise (ValueError (CouldNotMapReferenceRate "JPY"))
  /\ _parse_expression "DB(COV,VOLSWAPTION,GBP,TONA,2y,1y,PAYER,VOLBPVOL)"
     = Raise (ValueError (InvalidReferenceIndicator "TONA" "GBP")).
Proof.
  repeat split; try (vm_compute; reflexivity); intros [].
Qed.

(** C9 as stated fails: a 7-token body with valid prefix, currency and
    tenors whose tokens 5 and 6 are not PAYER and VOLBPVOL is parsed. *)
Lemma C9_counterexample :
  let expression := "DB(COV,VOLSWAPTION,USD,2y,1y,FOO,BAR)" in
  Py.split "," (Py.slice_3_m1 expression)
  = ["COV"; "VOLSWAPTION"; "USD"; "2y"; "1y"; "FOO"; "BAR"]
  /\ _parse_expression expression = Ok ("USD", "1y", "2y", "Libor")
  /\ ~ (exists e, _parse_expression expression = Raise e
                  /\ MalformedExpressionError e).
Proof.
  cbv zeta. split; [vm_compute; reflexivity |].
  split; [vm_compute; reflexivity |].
  intros [e [H _]]. vm_compute in H. discriminate.
Qed.

(** C9 (amended). Tokens 5 and 6 of a 7-token body are never examined: with
    a valid prefix, a mapped currency and valid tenors, the parse succeeds
    whatever the two trailing tokens are, with the result it has for PAYER
    and VOLBPVOL. *)
Theorem C9_trailing_tokens_ignored (currency y x t5 t6 : string) :
  comma_free t5 = true ->
  comma_free t6 = true ->
  In currency ["USD"; "USDD"; "EUR"; "GBP"; "CHF"] ->
  In y SwapTenorEnum_values ->
  In x OptionExpiryEnum_values ->
  (exists rate,
      _parse_expression
        (expression_of ["COV"; "VOLSWAPTION"; currency; y; x; t5; t6])
      = Ok (if String.eqb currency "USDD" then "USD" else currency, x, y, rate))
  /\ _parse_expression
       (expression_of ["COV"; "VOLSWAPTION"; currency; y; x; t5; t6])
     = _parse_expression
         (expression_of ["COV"; "VOLSWAPTION"; currency; y; x; "PAYER"; "VOLBPVOL"]).
Proof.
  intros H5 H6 Hc Hy Hx.
  cbn in Hc, Hy, Hx.
  assert (E : forall a b, comma_free a = true -> comma_free b = true ->
     exists rate,
       _parse_expression
         (expression_of ["COV"; "VOLSWAPTION"; currency; y; x; a; b])
       = Ok (if String.eqb currency "USDD" then "USD" else currency, x, y, rate)
       /\ In rate ["Libor"; "SOFR"; "Euribor"]
       /\ rate = match currency with
                 | "USDD" => "SOFR" | "EUR" => "Euribor" | _ => "Libor"
                 end).
  { intros a b Ha Hb.
    destruct Hc as [<-|[<-|[<-|[<-|[<-|[]]]]]];
      destruct Hy as [<-|[<-|[<-|[]]]];
      destruct Hx as [<-|[<-|[]]];
      eexists; (split; [parse_tokens; vm_compute; reflexivity |]);
      (split; [cbn; tauto | reflexivity]). }
  destruct (E t5 t6 H5 H6) as [r [E1 [_ Er]]].
  destruct (E "PAYER" "VOLBPVOL" eq_refl eq_refl) as [r' [E2 [_ Er']]].
  split; [exists r; exact E1 |].
  rewrite E1, E2, Er, Er'. reflexivity.
Qed.

Lemma C9_trailing_tokens_ignored_witness :
  (exists rate,
      _parse_expression
        (expression_of ["COV"; "VOLSWAPTION"; "EUR"; "10y"; "5y"; "X"; ""])
      = Ok ("EUR", "5y", "10y", rate))
  /\ _parse_expression
       (expression_of ["COV"; "VOLSWAPTION"; "EUR"; "10y"; "5y"; "X"; ""])
     = _parse_expression
         (expression_of ["COV"; "VOLSWAPTION"; "EUR"; "10y"; "5y"; "PAYER"; "VOLBPVOL"]).
Proof.
  apply (C9_trailing_tokens_ignored "EUR" "10y" "5y" "X" "").
  - reflexivity.
  - reflexivity.
  - simpl; tauto.
  - simpl; tauto.
  - simpl; tauto.
Defined.

(** C1. The new-code USD expression parses to (USD, expiry 5y, tenor 10y,
    SOFR) and its value is multiplied by sqrt(252), so that a raw value of
    100.0 becomes the clean value 100.0 * sqrt(252); the old-code USD
    expression parses to (USD, expiry 1y, tenor 2y, Libor) and its value is
    passed through. *)
Theorem C1_usd_new_and_old_codes :
  _parse_expression "DB(COV,VOLSWAPTION,USDD,10y,5y,PAYER,VOLBPVOL)"
  = Ok ("USD", "5y", "10y", "SOFR")
  /\ (forall v : float,
        _apply_value_transformations v "USD" "SOFR"
        = PrimFloat.mul v (PrimFloat.sqrt 252))
  /\ (forall (id : Z) (d : Date) (ts : Timestamp) (ver : Z) (mode uri : string),
        transform_raw_record
          (RawData.mk (Some id) "DB(COV,VOLSWAPTION,USDD,10y,5y,PAYER,VOLBPVOL)"
             d 100 ts ver mode uri)
        = Ok (CleanData.mk None "DB(COV,VOLSWAPTION,USDD,10y,5y,PAYER,VOLBPVOL)"
                d "USD" "5y" "10y" "SOFR"
                (PrimFloat.mul 100 (PrimFloat.sqrt 252)) id))
  /\ _parse_expression "DB(COV,VOLSWAPTION,USD,2y,1y,PAYER,VOLBPVOL)"
     = Ok ("USD", "1y", "2y", "Libor")
  /\ (forall v : float, _apply_value_transformations v "USD" "Libor" = v)
  /\ (forall (id : Z) (d : Date) (ts : Timestamp) (ver : Z) (mode uri : string),
        transform_raw_record
          (RawData.mk (Some id) "DB(COV,VOLSWAPTION,USD,2y,1y,PAYER,VOLBPVOL)"
             d 100 ts ver mode uri)
        = Ok (CleanData.mk None "DB(COV,VOLSWAPTION,USD,2y,1y,PAYER,VOLBPVOL)"
                d "USD" "1y" "2y" "Libor" 100 id)).
Proof.
  split; [vm_compute; reflexivity |].
  split; [reflexivity |].
  split; [intros; vm_compute; reflexivity |].
  split; [vm_compute; reflexivity |].
  split; [reflexivity |].
  intros; vm_compute; reflexivity.
Qed.

(** ** Facts about the raw_data table *)

Section RawTableFacts.

Lemma fold_left_max_ge (l : list Z) (a : Z) :
  a <= fold_left Z.max l a /\ Forall (fun v => v <= fold_left Z.max l a) l.
Proof.
  revert a. induction l as [|b l IH]; intros a; cbn [fold_left].
  - split; [lia | constructor].
  - destruct (IH (Z.max a b)) as [H1 H2]. split; [lia |].
    constructor; [lia | exact H2].
Qed.

Lemma sql_max_ge (l : list Z) (m : Z) :
  sql_max l = Some m -> Forall (fun v => v <= m) l.
Proof.
  destruct l as [|a l]; cbn [sql_max]; [discriminate |].
  intros [= <-]. destruct (fold_left_max_ge l a) as [H1 H2].
  constructor; assumption.
Qed.



Lemma sql_max_In (l : list Z) (m : Z) : sql_max l = Some m -> In m l.
Proof.
  destruct l as [|a l]; cbn [sql_max]; [discriminate |].
  intros [= <-]. revert a. induction l as [|b l IH]; intros a; cbn [fold_left].
  - now left.
  - destruct (IH (Z.max a b)) as [H | H].
    + destruct (Z.max_spec a b) as [[_ Hm] | [_ Hm]]; rewrite Hm in H |- *.
      * right. left. exact H.
      * left. exact H.
    + right. right. exact H.
Qed.


(** It is one more than the largest of them, and 1 when there is none. *)
Lemma select_next_version_spec (session : list RawData.t) (expression : string)
    (date : Date) :
  match sql_max (versions_of session expression date) with
  | None =>
      select_raw session expression date = []
      /\ select_next_version session expression date = 1
  | Some m =>
      In m (versions_of session expression date)
      /\ Forall (fun v => v <= m) (versions_of session expression date)
      /\ (1 <= m -> select_next_version session expression date = 1 + m)
  end.
Proof.
  unfold select_next_version. fold (versions_of session expression date).
  destruct (sql_max (versions_of session expression date)) as [m|] eqn:E.
  - split; [| split].
    + now apply sql_max_In.
    + now apply sql_max_ge.
    + intros Hm. cbn [coalesce]. destruct (Z.eqb_spec (m + 1) 0); lia.
  - split; [| reflexivity].
    unfold versions_of in E.
    destruct (select_raw session expression date); [reflexivity | discriminate].
Qed.

Lemma select_raw_add (session : list RawData.t) (r : RawData.t)
    (expression : string) (date : Date) :
  exists r',
    RawData.version r' = RawData.version r
    /\ select_raw (session_add_raw session r) expression date
       = (select_raw session expression date
          ++ (if raw_key_matches expression date r then [r'] else []))%list.
Proof.
  eexists. split; [| unfold select_raw, session_add_raw; rewrite List.filter_app;
                     cbn [List.filter]; unfold raw_key_matches at 2;
                     cbn [RawData.expression RawData.date];
                     fold (raw_key_matches expression date r);
                     destruct (raw_key_matches expression date r); reflexivity].
  reflexivity.
Qed.

Lemma raw_key_matches_iff (expression : string) (date : Date) (r : RawData.t) :
  raw_key_matches expression date r = true
  <-> RawData.expression r = expression /\ RawData.date r = date.
Proof.
  unfold raw_key_matches. rewrite andb_true_iff, String.eqb_eq, Z.eqb_eq.
  reflexivity.
Qed.



End RawTableFacts.

(** ** Properties of the extractor *)

Section ExtractorProperties.

Variable utcnow : nat -> Timestamp.
Variable random_uniform : string -> Date -> Date -> nat -> float.
Variable blob_filename : string -> Date -> Date -> Timestamp -> string.
Variable open_fails : string -> bool.

Local Abbreviation extract := (extract_data utcnow random_uniform blob_filename open_fails).
Local Abbreviation extract_all :=
  (extract_expressions utcnow random_uniform blob_filename open_fails).
Local Abbreviation extract_one :=
  (extract_expression utcnow random_uniform blob_filename open_fails).
Local Abbreviation insert_frame := (_insert_raw_data utcnow).
Local Abbreviation store_blob := (_store_blob utcnow blob_filename open_fails).
Local Abbreviation fetch := (get_historical_data random_uniform).

Lemma extract_data_same_dates_required (w : World) (expressions : list string)
    (start_date end_date : Date) (ingestion_mode : RunModeEnum) :
  ingestion_mode <> HISTORICAL ->
  start_date <> end_date ->
  extract w expressions start_date end_date ingestion_mode
  = (Raise (ValueError (ModeRequiresSameDates (RunModeEnum_value ingestion_mode))), w).
Proof.
  intros Hm Hd. unfold extract_data.
  apply Z.eqb_neq in Hd. rewrite Hd.
  destruct ingestion_mode; [reflexivity | reflexivity | congruence].
Qed.

Lemma extract_data_historical_returns (w : World) (expressions : list string)
    (start_date end_date : Date) :
  exists metrics w',
    extract w expressions start_date end_date HISTORICAL = (Ok metrics, w').
Proof.
  unfold extract_data. cbn [andb].
  destruct (extract_all w (mkMetrics 0 0 0 0 0) expressions start_date
              end_date HISTORICAL) as [metrics w'].
  now exists metrics, w'.
Qed.

(** *** What one call can add to the table *)

Lemma RawData_new_Ok (e : string) (d : Date) (v : float) (ts : Timestamp)
    (ver : Z) (mode uri : string) (r : RawData.t) :
  RawData.new e d v ts ver mode uri = Ok r ->
  r = RawData.mk None e d v ts ver mode uri.
Proof.
  unfold RawData.new.
  destruct (_ && _); [intros [= <-]; reflexivity | discriminate].
Qed.

(** A row of the frame either raises and leaves the table as it is, or adds
    one row for (expression, date of the row) with the next version. *)
Lemma insert_raw_row_effect (session : list RawData.t) (row : Date * float)
    (expression blob_uri : string) (mode : RunModeEnum) (ts : Timestamp) :
  (exists e, insert_raw_row session row expression blob_uri mode ts
             = (Raise e, session))
  \/ (exists r,
         insert_raw_row session row expression blob_uri mode ts
         = (Ok tt, session_add_raw session r)
         /\ RawData.expression r = expression
         /\ RawData.date r = fst row
         /\ RawData.version r = select_next_version session expression (fst row)).
Proof.
  unfold insert_raw_row, APIResponse_new. destruct row as [d v]. cbn [fst snd].
  destruct (PrimFloat.ltb 0 v); [| left; eexists; reflexivity].
  destruct (RawData.new expression d v ts (select_next_version session expression d)
              (RunModeEnum_value mode) blob_uri) as [r|e] eqn:E.
  - right. exists r. apply RawData_new_Ok in E. subst r. cbn. auto.
  - left. eexists; reflexivity.
Qed.

Section TableInvariant.

Variable P : list RawData.t -> Prop.
Hypothesis P_add :
  forall session r,
    RawData.version r
    = select_next_version session (RawData.expression r) (RawData.date r) ->
    P session -> P (session_add_raw session r).







End TableInvariant.

(** *** The cap of three versions *)

Lemma bdate_range_single (d : Date) :
  bdate_range d d = [d] \/ bdate_range d d = [].
Proof.
  unfold bdate_range. replace (d - d + 1) with 1 by lia.
  change (Z.to_nat 1) with 1%nat.
  cbn [seq map List.filter]. change (Z.of_nat 0) with 0.
  rewrite Z.add_0_r. destruct (weekday d <? 5); auto.
Qed.

Lemma get_historical_data_single (expression : string) (d : Date) :
  fetch expression d d = [] \/ exists v, fetch expression d d = [(d, v)].
Proof.
  unfold get_historical_data.
  destruct (bdate_range_single d) as [-> | ->]; [right | left; reflexivity].
  eexists. reflexivity.
Qed.

Lemma select_raw_add_length (session : list RawData.t) (r : RawData.t)
    (expression : string) (date : Date) :
  length (select_raw (session_add_raw session r) expression date)
  = (length (select_raw session expression date)
     + (if raw_key_matches expression date r then 1 else 0))%nat.
Proof.
  destruct (select_raw_add session r expression date) as [r' [_ ->]].
  rewrite length_app. destruct (raw_key_matches expression date r); reflexivity.
Qed.

(** In the capped modes one iteration adds at most one row, for
    (expression, start_date), and only while it has fewer than three. *)
Lemma extract_expression_capped (w : World) (metrics : Metrics)
    (expression : string) (d : Date) (mode : RunModeEnum) :
  mode <> HISTORICAL ->
  forall e' d',
    (length (select_raw (raw_data (snd (extract_one w metrics expression d d mode)))
               e' d')
     <= Nat.max (length (select_raw (raw_data w) e' d')) 3)%nat.
Proof.
  intros Hm e' d'. unfold extract_expression.
  destruct (APIRequest_new expression d d); cbn [snd]; [| lia].
  assert (Hf : _should_fetch_data (raw_data w) expression d d mode
               = Ok (Z.of_nat (length (select_raw (raw_data w) expression d)) <? 3))
    by (destruct mode; [reflexivity | reflexivity | congruence]).
  rewrite Hf. clear Hf.
  destruct (Z.ltb_spec (Z.of_nat (length (select_raw (raw_data w) expression d))) 3)
    as [Hlt | Hge]; cbn [snd]; [| lia].
  destruct (get_historical_data_single expression d) as [-> | [v ->]];
    cbn [snd raw_data]; [lia |].
  unfold _store_blob. destruct (open_fails _); cbn [snd raw_data]; [lia |].
  unfold _insert_raw_data. cbn [raw_data clock insert_raw_rows].
  match goal with
  | |- context [insert_raw_row ?s ?row ?e ?uri ?m ?ts] =>
      destruct (insert_raw_row_effect s row e uri m ts)
        as [[err ->] | [r [-> [He [Hd _]]]]]
  end; cbn [snd raw_data]; [lia |].
  rewrite select_raw_add_length.
  destruct (raw_key_matches e' d' r) eqn:Hk; [| lia].
  apply raw_key_matches_iff in Hk as [He' Hd']. cbn [fst] in Hd.
  rewrite He in He'. rewrite Hd in Hd'. subst e' d'. lia.
Qed.

Lemma extract_expressions_capped (expressions : list string) :
  forall (w : World) (metrics : Metrics) (d : Date) (mode : RunModeEnum),
    mode <> HISTORICAL ->
    forall e' d',
      (length (select_raw
                 (raw_data (snd (extract_all w metrics expressions d d mode)))
                 e' d')
       <= Nat.max (length (select_raw (raw_data w) e' d')) 3)%nat.
Proof.
  induction expressions as [|expression rest IH]; intros w metrics d mode Hm e' d';
    cbn [extract_expressions snd]; [lia |].
  pose proof (extract_expression_capped w metrics expression d mode Hm e' d') as H1.
  destruct (extract_one w metrics expression d d mode) as [metrics' w'].
  cbn [snd] in H1.
  pose proof (IH w' metrics' d mode Hm e' d') as H2. lia.
Qed.

Lemma extract_data_capped (w : World) (expressions : list string)
    (start_date end_date : Date) (mode : RunModeEnum) :
  mode <> HISTORICAL ->
  forall e' d',
    (length (select_raw
               (raw_data (snd (extract w expressions start_date end_date mode)))
               e' d')
     <= Nat.max (length (select_raw (raw_data w) e' d')) 3)%nat.
Proof.
  intros Hm e' d'. unfold extract_data.
  destruct (Z.eqb_spec start_date end_date) as [<- | Hne].
  - rewrite andb_false_r.
    pose proof (extract_expressions_capped expressions w (mkMetrics 0 0 0 0 0)
                  start_date mode Hm e' d') as H1.
    destruct (extract_all w (mkMetrics 0 0 0 0 0) expressions start_date
                start_date mode) as [metrics w'].
    exact H1.
  - destruct mode; cbn [andb negb snd]; [lia | lia | congruence].
Qed.

(** With three versions stored, a further attempt touches nothing. *)
Lemma extract_data_fourth_attempt (w : World) (expression : string) (d : Date)
    (mode : RunModeEnum) :
  mode <> HISTORICAL ->
  (3 <= length (select_raw (raw_data w) expression d))%nat ->
  exists metrics,
    extract w [expression] d d mode = (Ok metrics, w)
    /\ rows_inserted metrics = 0
    /\ rows_fetched metrics = 0.
Proof.
  intros Hm H3. unfold extract_data.
  rewrite Z.eqb_refl, andb_false_r.
  cbn [extract_expressions]. unfold extract_expression.
  destruct (APIRequest_new expression d d); [| eexists; split; [reflexivity | auto]].
  assert (Hf : _should_fetch_data (raw_data w) expression d d mode = Ok false).
  { destruct mode; [| | congruence]; cbn [_should_fetch_data]; f_equal;
      apply Z.ltb_ge; lia. }
  rewrite Hf. eexists; split; [reflexivity | auto].
Qed.

End ExtractorProperties.

(** C6. In the modes default and old_codes a call with different start and
    end dates raises the date-range error and leaves the world as it was: no
    API call, no blob, no row, no reading of the clock.  In the mode
    historical every call returns its metrics. *)
Theorem C6_date_range_precondition
    (utcnow : nat -> Timestamp)
    (random_uniform : string -> Date -> Date -> nat -> float)
    (blob_filename : string -> Date -> Date -> Timestamp -> string)
    (open_fails : string -> bool)
    (w : World) (expressions : list string) (start_date end_date : Date) :
  (forall ingestion_mode,
      In ingestion_mode [DEFAULT; OLD_CODES] ->
      start_date <> end_date ->
      exists e,
        extract_data utcnow random_uniform blob_filename open_fails w expressions
          start_date end_date ingestion_mode = (Raise e, w)
        /\ InvalidDateRangeError e)
  /\ (exists metrics w',
        extract_data utcnow random_uniform blob_filename open_fails w expressions
          start_date end_date HISTORICAL = (Ok metrics, w')).
Proof.
  split.
  - intros m Hm Hd. eexists. split.
    + apply extract_data_same_dates_required; [| assumption].
      cbn in Hm. destruct Hm as [<-|[<-|[]]]; discriminate.
    + exact I.
  - apply extract_data_historical_returns.
Qed.

Lemma C6_date_range_precondition_witness :
  let w := mkWorld [] ∅ [] 0 in
  let expressions := ["DB(COV,VOLSWAPTION,EUR,2y,1y,PAYER,VOLBPVOL)"] in
  exists e,
    extract_data (fun _ => 0) (fun _ _ _ _ => 0%float) (fun e _ _ _ => e) (fun _ => false)
      w expressions 738000 738001 DEFAULT = (Raise e, w)
    /\ InvalidDateRangeError e.
Proof.
  cbv zeta.
  apply (proj1 (C6_date_range_precondition (fun _ => 0) (fun _ _ _ _ => 0%float)
                  (fun e _ _ _ => e) (fun _ => false) (mkWorld [] ∅ [] 0)
                  ["DB(COV,VOLSWAPTION,EUR,2y,1y,PAYER,VOLBPVOL)"] 738000 738001)
               DEFAULT).
  - simpl. tauto.
  - lia.
Defined.



Section RawKeys.

(** The query of the extractor for an (expression, date) returns the rows
    stored for it. *)
Lemma select_raw_rows_stored_for (session : list RawData.t) (expression : string)
    (date : Date) :
  select_raw session expression date = rows_stored_for session expression date.
Proof.
  unfold select_raw, rows_stored_for. apply List.filter_ext. intros r.
  destruct (raw_key_matches expression date r) eqn:Hk.
  - apply raw_key_matches_iff in Hk. symmetry. now apply bool_decide_eq_true.
  - symmetry. apply bool_decide_eq_false. intros H.
    apply raw_key_matches_iff in H. congruence.
Qed.

End RawKeys.

(** C3. In the modes default and old_codes the fetch decision is true
    exactly when fewer than three rows are stored for (expression,
    start_date), whatever is stored for other expressions and dates; in the
    mode historical it is always true.  An extraction call in the capped
    modes therefore leaves, for every (expression, date), at most three rows
    or the rows it had before, and a call for an expression that already has
    three rows changes nothing: no API call, no blob, no row. *)
Theorem C3_three_versions_cap
    (utcnow : nat -> Timestamp)
    (random_uniform : string -> Date -> Date -> nat -> float)
    (blob_filename : string -> Date -> Date -> Timestamp -> string)
    (open_fails : string -> bool) :
  (forall session expression start_date end_date mode,
      In mode [DEFAULT; OLD_CODES] ->
      exists b,
        _should_fetch_data session expression start_date end_date mode = Ok b
        /\ (b = true
            <-> (length (rows_stored_for session expression start_date) < 3)%nat))
  /\ (forall session expression start_date end_date,
        _should_fetch_data session expression start_date end_date HISTORICAL
        = Ok true)
  /\ (forall w expressions start_date end_date mode expression date,
        In mode [DEFAULT; OLD_CODES] ->
        (length (rows_stored_for
                   (raw_data (snd (extract_data utcnow random_uniform blob_filename
                                     open_fails w expressions start_date end_date
                                     mode)))
                   expression date)
         <= Nat.max (length (rows_stored_for (raw_data w) expression date)) 3)%nat)
  /\ (forall w expression date mode,
        In mode [DEFAULT; OLD_CODES] ->
        (3 <= length (rows_stored_for (raw_data w) expression date))%nat ->
        exists metrics,
          extract_data utcnow random_uniform blob_filename open_fails w [expression]
            date date mode = (Ok metrics, w)
          /\ rows_inserted metrics = 0
          /\ rows_fetched metrics = 0).
Proof.
  assert (Hmode : forall mode, In mode [DEFAULT; OLD_CODES] -> mode <> HISTORICAL).
  { intros mode H. cbn in H. destruct H as [<-|[<-|[]]]; discriminate. }
  split; [| split; [| split]].
  - intros session expression start_date end_date mode Hm.
    exists (Z.of_nat (length (select_raw session expression start_date)) <? 3).
    split.
    + cbn in Hm. destruct Hm as [<-|[<-|[]]]; reflexivity.
    + rewrite Z.ltb_lt, select_raw_rows_stored_for. lia.
  - reflexivity.
  - intros w expressions start_date end_date mode expression date Hm.
    rewrite <- !select_raw_rows_stored_for.
    apply extract_data_capped. auto.
  - intros w expression date mode Hm H3.
    rewrite <- select_raw_rows_stored_for in H3.
    apply extract_data_fourth_attempt; auto.
Qed.

(** Three calls for two expressions on a Thursday and one call for the first
    of them on the Friday leave seven rows: three for each expression on
    the Thursday, one on the Friday.  A further call fetches for the key
    with one row and does nothing for a key with three. *)
Lemma C3_three_versions_cap_witness :
  let e1 := "DB(COV,VOLSWAPTION,EUR,2y,1y,PAYER,VOLBPVOL)" in
  let e2 := "DB(COV,VOLSWAPTION,USDD,2y,1y,PAYER,VOLBPVOL)" in
  let thursday : Date := 738000 in
  let friday : Date := 738001 in
  let run expressions d w :=
    snd (extract_data (fun n => Z.of_nat n) (fun _ _ _ _ => 0%float)
           (fun x _ _ _ => x) (fun _ => false) w expressions d d DEFAULT) in
  let w3 :=
    run [e1] friday
      (run [e1; e2] thursday (run [e1; e2] thursday
         (run [e1; e2] thursday (mkWorld [] ∅ [] 0)))) in
  length (raw_data w3) = 7%nat
  /\ length (rows_stored_for (raw_data w3) e1 thursday) = 3%nat
  /\ length (rows_stored_for (raw_data w3) e1 friday) = 1%nat
  /\ (exists b,
        _should_fetch_data (raw_data w3) e1 friday friday DEFAULT = Ok b
        /\ (b = true
            <-> (length (rows_stored_for (raw_data w3) e1 friday) < 3)%nat))
  /\ (length (rows_stored_for (raw_data (run [e1; e2] thursday w3)) e2 thursday)
      <= Nat.max (length (rows_stored_for (raw_data w3) e2 thursday)) 3)%nat
  /\ exists metrics,
       extract_data (fun n => Z.of_nat n) (fun _ _ _ _ => 0%float)
         (fun x _ _ _ => x) (fun _ => false) w3 [e1] thursday thursday DEFAULT
       = (Ok metrics, w3)
       /\ rows_inserted metrics = 0
       /\ rows_fetched metrics = 0.
Proof.
  cbv zeta.
  pose proof (C3_three_versions_cap (fun n => Z.of_nat n) (fun _ _ _ _ => 0%float)
                (fun x _ _ _ => x) (fun _ => false)) as (Hfetch & _ & Hcap & Hfourth).
  split; [vm_compute; reflexivity |].
  split; [vm_compute; reflexivity |].
  split; [vm_compute; reflexivity |].
  split; [apply Hfetch; simpl; tauto |].
  split; [apply Hcap; simpl; tauto |].
  apply Hfourth.
  - simpl. tauto.
  - vm_compute. lia.
Defined.

(** ** Properties of the transformer's selection *)

Section SelectionFacts.

(** Ascending order of the raw key on joined rows. *)
Let row_le (a b : RawData.t * option CleanData.t) : Prop :=
  raw_id_le (fst a) (fst b) = true.

Lemma raw_id_le_total (a b : RawData.t) :
  raw_id_le a b = true \/ raw_id_le b a = true.
Proof.
  unfold raw_id_le.
  destruct (RawData.raw_data_id a) as [i|], (RawData.raw_data_id b) as [j|]; auto.
  destruct (Z.leb_spec i j); [auto |]. right. apply Z.leb_le. lia.
Qed.

Lemma raw_id_le_trans (a b c : RawData.t) :
  raw_id_le a b = true -> raw_id_le b c = true -> raw_id_le a c = true.
Proof.
  unfold raw_id_le.
  destruct (RawData.raw_data_id a) as [i|], (RawData.raw_data_id b) as [j|],
    (RawData.raw_data_id c) as [k|]; try congruence.
  rewrite !Z.leb_le. lia.
Qed.

Lemma insert_by_raw_id_perm (row : RawData.t * option CleanData.t)
    (sorted : list (RawData.t * option CleanData.t)) :
  Permutation (insert_by_raw_id row sorted) (row :: sorted).
Proof.
  induction sorted as [|h t IH]; cbn [insert_by_raw_id]; [reflexivity |].
  destruct (raw_id_le (fst row) (fst h)); [reflexivity |].
  rewrite IH. apply perm_swap.
Qed.

Lemma order_by_raw_data_id_perm (rows : list (RawData.t * option CleanData.t)) :
  Permutation (order_by_raw_data_id rows) rows.
Proof.
  induction rows as [|row rows IH]; cbn [order_by_raw_data_id fold_right];
    [reflexivity |].
  fold (order_by_raw_data_id rows).
  rewrite insert_by_raw_id_perm. now apply perm_skip.
Qed.

Lemma insert_by_raw_id_sorted (row : RawData.t * option CleanData.t)
    (sorted : list (RawData.t * option CleanData.t)) :
  StronglySorted row_le sorted ->
  StronglySorted row_le (insert_by_raw_id row sorted).
Proof.
  induction 1 as [|h t Hs IH Hh]; cbn [insert_by_raw_id].
  - constructor; constructor.
  - destruct (raw_id_le (fst row) (fst h)) eqn:E.
    + constructor; [constructor; assumption |].
      constructor; [exact E |].
      eapply Forall_impl; [exact Hh |]. intros y Hy.
      unfold row_le in *. eapply raw_id_le_trans; eassumption.
    + constructor; [exact IH |].
      assert (Hrow : row_le h row).
      { unfold row_le. destruct (raw_id_le_total (fst h) (fst row)); congruence. }
      apply Forall_forall. intros y Hy.
      apply list_elem_of_In in Hy.
      apply (Permutation_in _ (insert_by_raw_id_perm row t)) in Hy.
      destruct Hy as [<- | Hy]; [exact Hrow |].
      rewrite Forall_forall in Hh. apply Hh. now apply list_elem_of_In.
Qed.

Lemma order_by_raw_data_id_sorted (rows : list (RawData.t * option CleanData.t)) :
  StronglySorted row_le (order_by_raw_data_id rows).
Proof.
  induction rows as [|row rows IH]; cbn [order_by_raw_data_id fold_right].
  - constructor.
  - apply insert_by_raw_id_sorted. exact IH.
Qed.

Lemma StronglySorted_map_fst (rows : list (RawData.t * option CleanData.t)) :
  StronglySorted row_le rows ->
  StronglySorted (fun a b => raw_id_le a b = true) (map fst rows).
Proof.
  induction 1 as [|h t Hs IH Hh]; cbn [map]; constructor; [exact IH |].
  apply Forall_forall. intros y Hy.
  apply list_elem_of_In, in_map_iff in Hy as [z [<- Hz]].
  rewrite Forall_forall in Hh. apply Hh. now apply list_elem_of_In.
Qed.

Lemma in_left_outer_join (raws : list RawData.t) (cleans : list CleanData.t)
    (r : RawData.t) (oc : option CleanData.t) :
  In (r, oc) (left_outer_join raws cleans)
  <-> In r raws
      /\ match oc with
         | None => select_clean cleans (RawData.expression r) (RawData.date r) = []
         | Some c =>
             In c (select_clean cleans (RawData.expression r) (RawData.date r))
         end.
Proof.
  unfold left_outer_join. rewrite in_flat_map. split.
  - intros [r0 [Hr0 Hin]].
    fold (select_clean cleans (RawData.expression r0) (RawData.date r0)) in Hin.
    destruct (select_clean cleans (RawData.expression r0) (RawData.date r0))
      as [|c0 cs] eqn:E.
    + destruct Hin as [[= <- <-] | []]. auto.
    + apply in_map_iff in Hin as [c [[= <- <-] Hc]]. rewrite E. auto.
  - intros [Hr Hoc]. exists r. split; [exact Hr |].
    fold (select_clean cleans (RawData.expression r) (RawData.date r)).
    destruct oc as [c|].
    + destruct (select_clean cleans (RawData.expression r) (RawData.date r))
        as [|c0 cs]; [destruct Hoc |].
      apply in_map_iff. exists c. auto.
    + rewrite Hoc. now left.
Qed.

(** Membership in the default selection. *)
Lemma in_default_selection (session : Database) (r : RawData.t) :
  In r (_get_raw_data_to_process session None)
  <-> exists oc,
        In (r, oc) (left_outer_join (raw_data_table session)
                      (clean_data_table session))
        /\ unprocessed_or_newer (r, oc) = true.
Proof.
  cbn [_get_raw_data_to_process]. rewrite in_map_iff. split.
  - intros [[r0 oc] [Hfst Hin]]. cbn [fst] in Hfst. subst r0.
    apply (Permutation_in _ (order_by_raw_data_id_perm _)) in Hin.
    apply filter_In in Hin. exists oc. exact Hin.
  - intros [oc Hin]. exists (r, oc). split; [reflexivity |].
    apply (Permutation_in _ (Permutation_sym (order_by_raw_data_id_perm _))).
    apply filter_In. exact Hin.
Qed.

End SelectionFacts.

(** ** Properties of the transformation loop *)

Section TransformerFacts.

Lemma CleanData_new_Ok (e : string) (d : Date) (c x y r : string) (v : float)
    (id : Z) (row : CleanData.t) :
  CleanData.new e d c x y r v id = Ok row ->
  row = CleanData.mk None e d c x y r v id /\ PrimFloat.ltb 0 v = true.
Proof.
  unfold CleanData.new.
  destruct (String.length e <=? 200)%nat; [| discriminate].
  destruct (String.length c <=? 10)%nat; [| discriminate].
  destruct (String.length x <=? 10)%nat; [| discriminate].
  destruct (String.length y <=? 10)%nat; [| discriminate].
  destruct (String.length r <=? 20)%nat; [| discriminate].
  destruct (PrimFloat.ltb 0 v); [| discriminate].
  destruct (_ && _); [| discriminate].
  intros [= <-]. split; reflexivity.
Qed.

Lemma transform_raw_record_Ok (r : RawData.t) (c : CleanData.t) :
  transform_raw_record r = Ok c -> candidate_from r c.
Proof.
  unfold transform_raw_record.
  destruct (_parse_expression (RawData.expression r)) as [[[[cur x] y] rate]|]
    eqn:Hp; [| discriminate].
  cbn [mbind PyResult_bind].
  destruct (RawData.raw_data_id r) as [id|] eqn:Hid; [| discriminate].
  intros H. apply CleanData_new_Ok in H as [-> Hv].
  unfold candidate_from. cbn. repeat split; assumption || reflexivity.
Qed.

Lemma transform_raw_records_spec (raw_records : list RawData.t) :
  forall (clean_records : list CleanData.t) (metrics : TransformMetrics),
    let result := transform_raw_records raw_records clean_records metrics in
    fst result = (clean_records ++ candidates_of raw_records)%list
    /\ rows_processed (snd result)
       = rows_processed metrics + Z.of_nat (length raw_records)
    /\ rows_transformed (snd result)
       = rows_transformed metrics + Z.of_nat (length (candidates_of raw_records))
    /\ (rows_rejected (snd result) - rows_rejected metrics)
       + (validation_errors (snd result) - validation_errors metrics)
       = Z.of_nat (length raw_records)
         - Z.of_nat (length (candidates_of raw_records))
    /\ rows_rejected metrics <= rows_rejected (snd result)
    /\ validation_errors metrics <= validation_errors (snd result).
Proof.
  induction raw_records as [|r rest IH]; intros clean_records metrics; cbv zeta;
    cbn [transform_raw_records candidates_of flat_map length].
  - rewrite app_nil_r. cbn. repeat split; lia.
  - fold (candidates_of rest).
    destruct (transform_raw_record r) as [c | e].
    + destruct (IH (clean_records ++ [c])%list
                  (mkTransformMetrics (rows_processed metrics + 1)
                     (rows_transformed metrics + 1) (rows_rejected metrics)
                     (validation_errors metrics))) as (H1 & H2 & H3 & H4 & H5 & H6).
      cbn [rows_processed rows_transformed rows_rejected validation_errors]
        in H2, H3, H4, H5, H6.
      rewrite H1, <- app_assoc. cbn [app length].
      repeat split; try reflexivity; lia.
    + assert (Hcase :
        forall m : TransformMetrics,
          rows_processed m = rows_processed metrics + 1 ->
          rows_transformed m = rows_transformed metrics ->
          (rows_rejected m - rows_rejected metrics)
          + (validation_errors m - validation_errors metrics) = 1 ->
          rows_rejected metrics <= rows_rejected m ->
          validation_errors metrics <= validation_errors m ->
          let result := transform_raw_records rest clean_records m in
          fst result = (clean_records ++ [] ++ candidates_of rest)%list
          /\ rows_processed (snd result)
             = rows_processed metrics + Z.of_nat (S (length rest))
          /\ rows_transformed (snd result)
             = rows_transformed metrics
               + Z.of_nat (length ([] ++ candidates_of rest))
          /\ (rows_rejected (snd result) - rows_rejected metrics)
             + (validation_errors (snd result) - validation_errors metrics)
             = Z.of_nat (S (length rest))
               - Z.of_nat (length ([] ++ candidates_of rest))
          /\ rows_rejected metrics <= rows_rejected (snd result)
          /\ validation_errors metrics <= validation_errors (snd result)).
      { intros m M1 M2 M3 M4 M5. cbv zeta.
        destruct (IH clean_records m) as (H1 & H2 & H3 & H4 & H5 & H6).
        cbn [app]. rewrite H1. repeat split; try reflexivity; lia. }
      destruct e; apply Hcase; cbn; lia.
Qed.

Lemma in_candidates_of (raw_records : list RawData.t) (c : CleanData.t) :
  In c (candidates_of raw_records)
  <-> exists r, In r raw_records /\ transform_raw_record r = Ok c.
Proof.
  unfold candidates_of. rewrite in_flat_map. split.
  - intros [r [Hr Hc]]. exists r. split; [exact Hr |].
    destruct (transform_raw_record r) as [c' | e]; [| destruct Hc].
    destruct Hc as [-> | []]. reflexivity.
  - intros [r [Hr Hc]]. exists r. split; [exact Hr |]. rewrite Hc. now left.
Qed.

Lemma selection_in_raw_table (session : Database) (raw_data_ids : option (list Z))
    (r : RawData.t) :
  In r (_get_raw_data_to_process session raw_data_ids) ->
  In r (raw_data_table session).
Proof.
  destruct raw_data_ids as [[|id ids]|].
  - change (_get_raw_data_to_process session (Some []))
      with (_get_raw_data_to_process session None).
    intros H. apply in_default_selection in H as [oc [H _]].
    now apply in_left_outer_join in H as [H _].
  - cbn [_get_raw_data_to_process]. intros H. now apply filter_In in H as [H _].
  - intros H. apply in_default_selection in H as [oc [H _]].
    now apply in_left_outer_join in H as [H _].
Qed.

End TransformerFacts.


Lemma clean_key_matches_iff (expression : string) (date : Date) (c : CleanData.t) :
  clean_key_matches expression date c = true
  <-> CleanData.expression c = expression /\ CleanData.date c = date.
Proof.
  unfold clean_key_matches. rewrite andb_true_iff, String.eqb_eq, Z.eqb_eq.
  reflexivity.
Qed.

(** The rows that the query of an (expression, date) on the clean table
    returns, and when it returns none. *)
Lemma in_select_clean (cleans : list CleanData.t) (expression : string)
    (date : Date) (c : CleanData.t) :
  In c (select_clean cleans expression date)
  <-> In c cleans /\ CleanData.expression c = expression /\ CleanData.date c = date.
Proof.
  unfold select_clean. rewrite filter_In, clean_key_matches_iff. reflexivity.
Qed.

Lemma select_clean_nil (cleans : list CleanData.t) (expression : string)
    (date : Date) :
  select_clean cleans expression date = []
  <-> forall c,
        In c cleans ->
        ~ (CleanData.expression c = expression /\ CleanData.date c = date).
Proof.
  split.
  - intros Hnil c Hc Hk.
    assert (Hin : In c (select_clean cleans expression date))
      by (apply in_select_clean; tauto).
    rewrite Hnil in Hin. destruct Hin.
  - intros Hnone.
    destruct (select_clean cleans expression date) as [|c cs] eqn:E;
      [reflexivity |].
    assert (Hin : In c (select_clean cleans expression date))
      by (rewrite E; now left).
    apply in_select_clean in Hin as (Hc & He & Hd).
    exfalso. apply (Hnone c Hc). tauto.
Qed.

Lemma raw_id_le_ascending (a b : RawData.t) :
  raw_id_le a b = true -> raw_id_ascending a b.
Proof.
  unfold raw_id_le, raw_id_ascending.
  destruct (RawData.raw_data_id a), (RawData.raw_data_id b); try tauto;
    try discriminate.
  apply Z.leb_le.
Qed.

Lemma StronglySorted_impl {A} (R1 R2 : A -> A -> Prop) (l : list A) :
  (forall a b, R1 a b -> R2 a b) -> StronglySorted R1 l -> StronglySorted R2 l.
Proof.
  intros HR. induction 1 as [|a l Hs IH Ha]; constructor; [exact IH |].
  eapply Forall_impl; [exact Ha |]. intros b. apply HR.
Qed.

(** C10. A transformation called with an empty list of raw ids is the
    transformation called without the argument, and it does not process zero
    records: it processes the default selection, every row of it once, and
    returns the clean records of its rows.  Where a raw row has no clean row
    for its (expression, date), at least one row is processed.  The
    selection is in ascending order of raw id, and with every clean row
    keyed it holds exactly the raw rows that have no clean row for their
    (expression, date), or a raw id greater than the raw reference of such a
    clean row. *)
Theorem C10_empty_id_list_selects_default (session : Database) :
  let selected := _get_raw_data_to_process session (Some []) in
  let result := transform_raw_data session (Some []) in
  selected = _get_raw_data_to_process session None
  /\ result = transform_raw_data session None
  /\ rows_processed (snd result) = Z.of_nat (length selected)
  /\ fst result = candidates_of selected
  /\ (forall r,
        In r (raw_data_table session) ->
        (forall c,
            In c (clean_data_table session) ->
            ~ (CleanData.expression c = RawData.expression r
               /\ CleanData.date c = RawData.date r)) ->
        In r selected /\ 0 < rows_processed (snd result))
  /\ StronglySorted raw_id_ascending selected
  /\ (Forall (fun c => CleanData.clean_data_id c <> None) (clean_data_table session) ->
      forall r,
        In r selected
        <-> In r (raw_data_table session)
            /\ ((forall c,
                    In c (clean_data_table session) ->
                    ~ (CleanData.expression c = RawData.expression r
                       /\ CleanData.date c = RawData.date r))
                \/ exists c i,
                     In c (clean_data_table session)
                     /\ CleanData.expression c = RawData.expression r
                     /\ CleanData.date c = RawData.date r
                     /\ RawData.raw_data_id r = Some i
                     /\ CleanData.raw_data_id c < i)).
Proof.
  cbv zeta.
  change (_get_raw_data_to_process session (Some []))
    with (_get_raw_data_to_process session None).
  change (transform_raw_data session (Some []))
    with (transform_raw_data session None).
  destruct (transform_raw_records_spec (_get_raw_data_to_process session None) []
              (mkTransformMetrics 0 0 0 0)) as (Hrec & Hproc & _).
  fold (transform_raw_data session None) in Hrec, Hproc.
  cbn [rows_processed app] in Hrec, Hproc.
  assert (Hunprocessed :
    forall r,
      In r (raw_data_table session) ->
      (forall c,
          In c (clean_data_table session) ->
          ~ (CleanData.expression c = RawData.expression r
             /\ CleanData.date c = RawData.date r)) ->
      In r (_get_raw_data_to_process session None)).
  { intros r Hr Hnone. apply in_default_selection. exists None.
    split; [| reflexivity]. apply in_left_outer_join. split; [exact Hr |].
    now apply select_clean_nil. }
  split; [reflexivity |]. split; [reflexivity |].
  split; [lia |]. split; [exact Hrec |]. split; [| split].
  - intros r Hr Hnone. pose proof (Hunprocessed r Hr Hnone) as Hin.
    split; [exact Hin |].
    destruct (_get_raw_data_to_process session None); [destruct Hin |].
    cbn [length] in Hproc. lia.
  - cbn [_get_raw_data_to_process].
    eapply StronglySorted_impl;
      [| apply StronglySorted_map_fst, order_by_raw_data_id_sorted].
    intros a b. apply raw_id_le_ascending.
  - intros Hids r. split.
    + intros Hin. apply in_default_selection in Hin as [oc [Hin Hw]].
      apply in_left_outer_join in Hin as [Hr Hoc].
      split; [exact Hr |]. destruct oc as [c|];
        [right | left; now apply select_clean_nil].
      apply in_select_clean in Hoc as (Hc & He & Hd).
      unfold unprocessed_or_newer in Hw. cbn [fst snd] in Hw.
      rewrite Forall_forall in Hids.
      pose proof (Hids c (proj2 (list_elem_of_In _ _) Hc)) as Hid.
      destruct (CleanData.clean_data_id c); [| congruence].
      cbn [orb] in Hw. unfold sql_gt in Hw.
      destruct (RawData.raw_data_id r) as [i|]; [| discriminate].
      exists c, i. repeat split; try assumption. now apply Z.ltb_lt.
    + intros [Hr [Hnone | (c & i & Hc & He & Hd & Hi & Hlt)]].
      * now apply Hunprocessed.
      * apply in_default_selection. exists (Some c).
        split; [apply in_left_outer_join; split; [exact Hr |];
                now apply in_select_clean |].
        unfold unprocessed_or_newer. cbn [fst snd]. rewrite Hi. cbn [sql_gt].
        apply orb_true_iff. right. now apply Z.ltb_lt.
Qed.

(** Two expressions and two dates.  The first expression is processed up to
    its first version and has a second one; the second expression is up to
    date; the next day is unprocessed.  The empty list selects the second
    version and the row of the next day, and two rows are processed. *)
Lemma C10_empty_id_list_selects_default_witness :
  let e1 := "DB(COV,VOLSWAPTION,EUR,2y,1y,PAYER,VOLBPVOL)" in
  let e2 := "DB(COV,VOLSWAPTION,GBP,SONIA,5y,1y,PAYER,VOLBPVOL)" in
  let r1 := RawData.mk (Some 1) e1 738000 80 10 1 "default" "blob://market-data/a" in
  let r2 := RawData.mk (Some 2) e1 738000 81 20 2 "default" "blob://market-data/b" in
  let r3 := RawData.mk (Some 3) e1 738001 82 20 1 "default" "blob://market-data/b" in
  let r4 := RawData.mk (Some 4) e2 738000 83 20 1 "default" "blob://market-data/c" in
  let c1 := CleanData.mk (Some 1) e1 738000 "EUR" "1y" "2y" "Euribor" 80 1 in
  let c2 := CleanData.mk (Some 2) e2 738000 "GBP" "1y" "5y" "SONIA" 83 4 in
  let session := mkDatabase [r4; r3; r1; r2] [c1; c2] in
  _get_raw_data_to_process session (Some []) = [r2; r3]
  /\ rows_processed (snd (transform_raw_data session (Some []))) = 2
  /\ fst (transform_raw_data session (Some []))
     = [CleanData.mk None e1 738000 "EUR" "1y" "2y" "Euribor" 81 2;
        CleanData.mk None e1 738001 "EUR" "1y" "2y" "Euribor" 82 3]
  /\ In r3 (_get_raw_data_to_process session (Some []))
  /\ In r2 (_get_raw_data_to_process session (Some []))
  /\ ~ In r1 (_get_raw_data_to_process session (Some []))
  /\ ~ In r4 (_get_raw_data_to_process session (Some [])).
Proof.
  cbv zeta.
  match goal with
  | |- _get_raw_data_to_process ?s _ = _ /\ _ =>
      pose proof (C10_empty_id_list_selects_default s)
        as (_ & _ & Hproc & Hrec & Hnew & _ & Hiff)
  end.
  cbv zeta in Hproc, Hrec, Hnew, Hiff.
  split; [vm_compute; reflexivity |].
  split; [rewrite Hproc; vm_compute; reflexivity |].
  split; [rewrite Hrec; vm_compute; reflexivity |].
  assert (Hids : Forall (fun c => CleanData.clean_data_id c <> None)
                   (clean_data_table
                      (mkDatabase
                         [RawData.mk (Some 4)
                            "DB(COV,VOLSWAPTION,GBP,SONIA,5y,1y,PAYER,VOLBPVOL)"
                            738000 83 20 1 "default" "blob://market-data/c";
                          RawData.mk (Some 3)
                            "DB(COV,VOLSWAPTION,EUR,2y,1y,PAYER,VOLBPVOL)"
                            738001 82 20 1 "default" "blob://market-data/b";
                          RawData.mk (Some 1)
                            "DB(COV,VOLSWAPTION,EUR,2y,1y,PAYER,VOLBPVOL)"
                            738000 80 10 1 "default" "blob://market-data/a";
                          RawData.mk (Some 2)
                            "DB(COV,VOLSWAPTION,EUR,2y,1y,PAYER,VOLBPVOL)"
                            738000 81 20 2 "default" "blob://market-data/b"]
                         [CleanData.mk (Some 1)
                            "DB(COV,VOLSWAPTION,EUR,2y,1y,PAYER,VOLBPVOL)" 738000
                            "EUR" "1y" "2y" "Euribor" 80 1;
                          CleanData.mk (Some 2)
                            "DB(COV,VOLSWAPTION,GBP,SONIA,5y,1y,PAYER,VOLBPVOL)"
                            738000 "GBP" "1y" "5y" "SONIA" 83 4]))).
  { cbn [clean_data_table]. repeat constructor; discriminate. }
  specialize (Hiff Hids).
  split; [| split; [| split]].
  - apply Hnew.
    + cbn [raw_data_table]. right. left. reflexivity.
    + cbn [clean_data_table RawData.expression RawData.date].
      intros c [<- | [<- | []]] [He Hd]; cbn in He, Hd; discriminate.
  - apply Hiff. split; [cbn [raw_data_table]; right; right; right; left; reflexivity |].
    right. eexists _, 2. split; [left; reflexivity |].
    cbn. repeat split; lia.
  - intros Hin. apply Hiff in Hin as [_ [Hnone | (c & i & Hc & He & Hd & Hi & Hlt)]].
    + apply (Hnone _ (or_introl eq_refl)). cbn. split; reflexivity.
    + cbn [RawData.raw_data_id] in Hi. injection Hi as <-.
      cbn [clean_data_table] in Hc.
      destruct Hc as [<- | [<- | []]]; cbn in He, Hlt; [lia | discriminate].
  - intros Hin. apply Hiff in Hin as [_ [Hnone | (c & i & Hc & He & Hd & Hi & Hlt)]].
    + apply (Hnone _ (or_intror (or_introl eq_refl))). cbn. split; reflexivity.
    + cbn [RawData.raw_data_id] in Hi. injection Hi as <-.
      cbn [clean_data_table] in Hc.
      destruct Hc as [<- | [<- | []]]; cbn in He, Hlt; [discriminate | lia].
Defined.

(** ** Properties of the loader *)

Section LoaderFacts.

Lemma select_clean_first_None (session : list CleanData.t) (expression : string)
    (date : Date) :
  select_clean_first session expression date = None
  <-> select_clean session expression date = [].
Proof.
  unfold select_clean_first, select_clean. rewrite list_find_None. split.
  - intros H. induction session as [|c session IH]; [reflexivity |].
    apply Forall_cons in H as [Hc H]. cbn [List.filter].
    destruct (clean_key_matches expression date c) eqn:E.
    + apply clean_key_matches_iff in E. contradiction.
    + now apply IH.
  - intros H. apply Forall_forall. intros c Hc Hm.
    apply list_elem_of_In in Hc.
    assert (Hin : In c (List.filter (clean_key_matches expression date) session)).
    { apply filter_In. split; [exact Hc |]. now apply clean_key_matches_iff. }
    rewrite H in Hin. destruct Hin.
Qed.


(** The effect of an upsert on a table that has a row for the key. *)
Lemma upsert_row_existing (session : list CleanData.t)
    (c : CleanData.t) (i : nat) (existing : CleanData.t) :
  select_clean_first session (CleanData.expression c) (CleanData.date c)
  = Some (i, existing) ->
  let row :=
    CleanData.mk (CleanData.clean_data_id existing) (CleanData.expression existing)
      (CleanData.date existing) (CleanData.currency c) (CleanData.x c)
      (CleanData.y c) (CleanData.ref c) (CleanData.value c)
      (CleanData.raw_data_id c) in
  upsert_row session c = ("updated", <[i := row]> session)
  /\ <[i := row]> session !! i = Some row
  /\ select_clean_first (<[i := row]> session) (CleanData.expression c)
       (CleanData.date c) = Some (i, row)
  /\ <[i := row]> (<[i := row]> session) = <[i := row]> session.
Proof.
  intros Hfind row. unfold upsert_row. rewrite Hfind.
  split; [reflexivity |].
  unfold select_clean_first in Hfind. apply list_find_Some in Hfind
    as (Hi & [He Hd] & Hleast).
  assert (Hlt : (i < length session)%nat) by (eapply lookup_lt_Some; exact Hi).
  assert (Hrow : <[i := row]> session !! i = Some row)
    by (now apply list_lookup_insert_eq).
  split; [exact Hrow |]. split.
  - unfold select_clean_first. apply list_find_Some.
    split; [exact Hrow |]. split; [split; assumption |].
    intros j y Hj Hji. rewrite list_lookup_insert_ne in Hj by lia.
    eapply Hleast; eassumption.
  - apply list_insert_id. exact Hrow.
Qed.

(** The effect of an upsert on a table that has no row for the key. *)
Lemma upsert_row_absent (session : list CleanData.t) (c : CleanData.t) :
  select_clean session (CleanData.expression c) (CleanData.date c) = [] ->
  let row :=
    CleanData.mk (Some (next_clean_id session)) (CleanData.expression c)
      (CleanData.date c) (CleanData.currency c) (CleanData.x c) (CleanData.y c)
      (CleanData.ref c) (CleanData.value c) (CleanData.raw_data_id c) in
  upsert_row session c = ("inserted", (session ++ [row])%list)
  /\ select_clean_first (session ++ [row])%list (CleanData.expression c)
       (CleanData.date c) = Some (length session, row)
  /\ select_clean (session ++ [row])%list (CleanData.expression c)
       (CleanData.date c) = [row].
Proof.
  intros Habs row.
  assert (Hnone : select_clean_first session (CleanData.expression c)
                    (CleanData.date c) = None)
    by (now apply select_clean_first_None).
  split; [| split].
  - unfold upsert_row. rewrite Hnone. reflexivity.
  - unfold select_clean_first in *. rewrite list_find_app_r by exact Hnone.
    cbn. rewrite decide_True by (split; reflexivity). reflexivity.
  - unfold select_clean in *. rewrite List.filter_app, Habs. cbn [List.filter app].
    unfold clean_key_matches. cbn [CleanData.expression CleanData.date].
    now rewrite String.eqb_refl, Z.eqb_refl.
Qed.

(** Under the uniqueness constraint a key has at most one row. *)
Lemma clean_unique_select_le_1 (session : list CleanData.t) (expression : string)
    (date : Date) :
  clean_unique session ->
  (length (select_clean session expression date) <= 1)%nat.
Proof.
  unfold clean_unique, select_clean.
  induction session as [|c session IH]; cbn [map List.filter length]; [lia |].
  rewrite NoDup_cons. intros [Hc Hnd]. specialize (IH Hnd).
  destruct (clean_key_matches expression date c) eqn:E; [| exact IH].
  apply clean_key_matches_iff in E as [He Hd].
  destruct (List.filter (clean_key_matches expression date) session)
    as [|c' cs] eqn:F; [cbn; lia |].
  exfalso. apply Hc.
  assert (Hin : In c' (List.filter (clean_key_matches expression date) session))
    by (rewrite F; now left).
  apply filter_In in Hin as [Hin Hk].
  apply clean_key_matches_iff in Hk as [He' Hd'].
  apply list_elem_of_In, in_map_iff. exists c'. split; [| exact Hin].
  unfold clean_key. congruence.
Qed.

Lemma map_clean_key_insert (session : list CleanData.t) (i : nat)
    (old new : CleanData.t) :
  session !! i = Some old ->
  clean_key new = clean_key old ->
  map clean_key (<[i := new]> session) = map clean_key session.
Proof.
  revert i. induction session as [|c session IH]; intros [|i] Hi Hk;
    try discriminate.
  - injection Hi as ->.
    change (<[0%nat := new]> (old :: session)) with (new :: session).
    cbn [map]. now rewrite Hk.
  - change (<[S i := new]> (c :: session)) with (c :: <[i := new]> session).
    cbn [map]. f_equal. now apply IH.
Qed.

(** The upsert keeps the uniqueness constraint. *)
Lemma upsert_row_unique (session : list CleanData.t) (c : CleanData.t) :
  clean_unique session ->
  clean_unique (snd (upsert_row session c)).
Proof.
  intros Hu. unfold upsert_row.
  destruct (select_clean_first session (CleanData.expression c) (CleanData.date c))
    as [[i existing]|] eqn:Hfind; cbn [snd].
  - unfold select_clean_first in Hfind.
    apply list_find_Some in Hfind as (Hi & [He Hd] & _).
    unfold clean_unique.
    rewrite (map_clean_key_insert session i existing); [exact Hu | exact Hi |].
    reflexivity.
  - apply select_clean_first_None in Hfind.
    unfold clean_unique, session_add_clean.
    rewrite map_app. cbn [map]. apply NoDup_app.
    split; [exact Hu |]. split; [| apply NoDup_singleton].
    intros k Hk Hin. apply list_elem_of_In in Hin. cbn in Hin.
    destruct Hin as [<- | []].
    apply list_elem_of_In, in_map_iff in Hk as [c' [Hkey Hc']].
    assert (Hin : In c' (select_clean session (CleanData.expression c)
                           (CleanData.date c))).
    { unfold select_clean. apply filter_In. split; [exact Hc' |].
      apply clean_key_matches_iff. unfold clean_key in Hkey.
      cbn [CleanData.expression CleanData.date] in Hkey.
      injection Hkey as He Hd. auto. }
    rewrite Hfind in Hin. destruct Hin.
Qed.

End LoaderFacts.

(** ** Further facts about the upserts on the columns *)

Section LoaderFurther.

Lemma filter_insert_unmatched {A} (f : A -> bool) (l : list A) (i : nat)
    (old new : A) :
  l !! i = Some old -> f old = false -> f new = false ->
  List.filter f (<[i := new]> l) = List.filter f l.
Proof.
  revert i. induction l as [|a l IH]; intros [|i] Hi Ho Hn; try discriminate.
  - injection Hi as ->.
    change (<[0%nat := new]> (old :: l)) with (new :: l).
    cbn [List.filter]. now rewrite Ho, Hn.
  - change (<[S i := new]> (a :: l)) with (a :: <[i := new]> l).
    cbn [List.filter]. rewrite (IH i Hi Ho Hn). reflexivity.
Qed.

Lemma clean_key_matches_key (c : CleanData.t) (expression : string) (date : Date) :
  clean_key_matches expression date c = true <-> clean_key c = (expression, date).
Proof.
  rewrite clean_key_matches_iff. unfold clean_key. split.
  - intros [-> ->]. reflexivity.
  - intros [= -> ->]. auto.
Qed.

(** The table after one upsert. *)
Lemma upsert_row_cases (session : list CleanData.t) (c : CleanData.t) :
  (select_clean session (CleanData.expression c) (CleanData.date c) = []
   /\ exists row,
        upsert_row session c = ("inserted", (session ++ [row])%list)
        /\ carries row c /\ CleanData.clean_data_id row <> None)
  \/ (exists i existing row,
        session !! i = Some existing
        /\ clean_key existing = clean_key c
        /\ upsert_row session c = ("updated", <[i := row]> session)
        /\ carries row c
        /\ CleanData.clean_data_id row = CleanData.clean_data_id existing).
Proof.
  destruct (select_clean_first session (CleanData.expression c) (CleanData.date c))
    as [[i existing]|] eqn:Hfind.
  - right.
    destruct (upsert_row_existing session c i existing Hfind)
      as (Hup & _).
    unfold select_clean_first in Hfind.
    apply list_find_Some in Hfind as (Hi & [He Hd] & _).
    exists i, existing. eexists. split; [exact Hi |].
    split; [unfold clean_key; congruence |].
    split; [exact Hup |]. split; [| reflexivity].
    unfold carries. cbn. repeat split; assumption || reflexivity.
  - left. apply select_clean_first_None in Hfind. split; [exact Hfind |].
    destruct (upsert_row_absent session c Hfind) as (Hup & _).
    eexists. split; [exact Hup |].
    split; [unfold carries; cbn; repeat split; reflexivity | discriminate].
Qed.

Lemma upsert_row_frame (session : list CleanData.t) (c : CleanData.t)
    (expression : string) (date : Date) :
  clean_key c <> (expression, date) ->
  select_clean (snd (upsert_row session c)) expression date
  = select_clean session expression date.
Proof.
  intros Hne.
  assert (Hno : forall row, clean_key row = clean_key c ->
                            clean_key_matches expression date row = false).
  { intros row Hrow. destruct (clean_key_matches expression date row) eqn:E;
      [| reflexivity].
    apply clean_key_matches_key in E. congruence. }
  destruct (upsert_row_cases session c)
    as [[_ (row & -> & Hrow & _)] | (i & existing & row & Hi & Hk & -> & Hrow & _)];
    cbn [snd]; unfold select_clean.
  - rewrite List.filter_app. cbn [List.filter].
    rewrite (Hno row); [apply app_nil_r |].
    destruct Hrow as (He & Hd & _). unfold clean_key. congruence.
  - apply (filter_insert_unmatched _ _ _ existing); [exact Hi | now apply Hno |].
    apply Hno. destruct Hrow as (He & Hd & _). unfold clean_key. congruence.
Qed.

Lemma upsert_row_own_key (session : list CleanData.t) (c : CleanData.t) :
  clean_unique session ->
  exists row,
    select_clean (snd (upsert_row session c)) (CleanData.expression c)
      (CleanData.date c) = [row]
    /\ carries row c.
Proof.
  intros Hu.
  pose proof (upsert_row_unique session c Hu) as Hu'.
  destruct (upsert_row_cases session c)
    as [[Habs (row & Hup & Hrow & _)]
       | (i & existing & row & Hi & Hk & Hup & Hrow & _)];
    rewrite Hup in Hu' |- *; cbn [snd] in *; exists row.
  - split; [| exact Hrow].
    unfold select_clean in *. rewrite List.filter_app, Habs. cbn [List.filter app].
    destruct Hrow as (He & Hd & _).
    unfold clean_key_matches. rewrite He, Hd.
    now rewrite String.eqb_refl, Z.eqb_refl.
  - split; [| exact Hrow].
    pose proof (clean_unique_select_le_1 _ (CleanData.expression c)
                  (CleanData.date c) Hu') as Hle.
    assert (Hin : In row (select_clean (<[i := row]> session)
                            (CleanData.expression c) (CleanData.date c))).
    { unfold select_clean. apply filter_In. split.
      - apply list_elem_of_In. eapply list_elem_of_lookup_2.
        apply list_lookup_insert_eq. eapply lookup_lt_Some. exact Hi.
      - apply clean_key_matches_iff. destruct Hrow as (He & Hd & _). auto. }
    destruct (select_clean (<[i := row]> session) (CleanData.expression c)
                (CleanData.date c)) as [|a [|b l]]; cbn [length] in Hle.
    + destruct Hin.
    + destruct Hin as [-> | []]. reflexivity.
    + lia.
Qed.

Lemma upsert_row_ids (session : list CleanData.t) (c : CleanData.t) :
  Forall (fun row => CleanData.clean_data_id row <> None) session ->
  Forall (fun row => CleanData.clean_data_id row <> None)
    (snd (upsert_row session c)).
Proof.
  intros Hall.
  destruct (upsert_row_cases session c)
    as [[_ (row & -> & _ & Hid)] | (i & existing & row & Hi & _ & -> & _ & Hid)];
    cbn [snd].
  - apply Forall_app. split; [exact Hall |]. now constructor.
  - apply Forall_insert; [exact Hall |]. rewrite Hid.
    rewrite Forall_forall in Hall. apply Hall.
    eapply list_elem_of_lookup_2. exact Hi.
Qed.

Lemma upsert_row_keys (session : list CleanData.t) (c : CleanData.t) :
  clean_keys (snd (upsert_row session c))
  = clean_keys session ∪ {[clean_key c]}.
Proof.
  unfold clean_keys.
  destruct (upsert_row_cases session c)
    as [[_ (row & -> & Hrow & _)] | (i & existing & row & Hi & Hk & -> & Hrow & _)];
    cbn [snd].
  - assert (Hkey : clean_key row = clean_key c)
      by (destruct Hrow as (He & Hd & _); unfold clean_key; congruence).
    rewrite map_app. cbn [map]. rewrite Hkey.
    apply set_eq. intros k.
    rewrite elem_of_union, !elem_of_list_to_set, elem_of_singleton.
    rewrite !list_elem_of_In, in_app_iff. cbn. intuition.
  - assert (Hkey : clean_key row = clean_key existing)
      by (destruct Hrow as (He & Hd & _); unfold clean_key in *; congruence).
    rewrite (map_clean_key_insert session i existing row Hi Hkey).
    apply set_eq. intros k.
    rewrite elem_of_union, !elem_of_list_to_set, elem_of_singleton.
    split; [auto |]. intros [H | ->]; [exact H |].
    rewrite <- Hk. apply list_elem_of_In, in_map.
    apply list_elem_of_In. eapply list_elem_of_lookup_2. exact Hi.
Qed.

Lemma upsert_rows_app (cs1 cs2 : list CleanData.t) :
  forall (session : list CleanData.t) (metrics : LoadMetrics),
    upsert_rows session (cs1 ++ cs2) metrics
    = upsert_rows (snd (upsert_rows session cs1 metrics)) cs2
        (fst (upsert_rows session cs1 metrics)).
Proof.
  induction cs1 as [|c cs1 IH]; intros session metrics;
    cbn [app upsert_rows]; [reflexivity |].
  destruct (upsert_row session c) as [result session'].
  apply IH.
Qed.

Lemma upsert_rows_spec (clean_records : list CleanData.t) :
  forall (session : list CleanData.t) (metrics : LoadMetrics),
    let m' := fst (upsert_rows session clean_records metrics) in
    let session' := snd (upsert_rows session clean_records metrics) in
    records_processed m'
    = records_processed metrics + Z.of_nat (length clean_records)
    /\ records_failed m' = records_failed metrics
    /\ (records_inserted m' - records_inserted metrics)
       + (records_updated m' - records_updated metrics)
       = Z.of_nat (length clean_records)
    /\ 0 <= records_updated m' - records_updated metrics
    /\ 0 <= records_inserted m' - records_inserted metrics
    /\ Z.of_nat (length session')
       = Z.of_nat (length session)
         + (records_inserted m' - records_inserted metrics)
    /\ (clean_unique session -> clean_unique session')
    /\ (Forall (fun row => CleanData.clean_data_id row <> None) session ->
        Forall (fun row => CleanData.clean_data_id row <> None) session')
    /\ clean_keys session' = clean_keys session ∪ clean_keys clean_records.
Proof.
  induction clean_records as [|c rest IH]; intros session metrics; cbv zeta;
    cbn [upsert_rows fst snd length].
  - repeat split; try lia; auto.
    unfold clean_keys at 3. cbn. now rewrite (right_id_L ∅ (∪)).
  - pose proof (upsert_row_unique session c) as Hu.
    pose proof (upsert_row_ids session c) as Hids.
    pose proof (upsert_row_keys session c) as Hkeys.
    assert (Hlen :
      (fst (upsert_row session c) = "inserted"
       /\ length (snd (upsert_row session c)) = S (length session))
      \/ (fst (upsert_row session c) = "updated"
          /\ length (snd (upsert_row session c)) = length session)).
    { destruct (upsert_row_cases session c)
        as [[_ (row & -> & _)] | (i & existing & row & _ & _ & -> & _)];
        cbn [fst snd].
      - left. split; [reflexivity |]. rewrite length_app. cbn. lia.
      - right. split; [reflexivity | apply length_insert]. }
    destruct (upsert_row session c) as [result session1].
    cbn [fst snd] in Hu, Hids, Hkeys, Hlen.
    assert (Hkeys' : clean_keys session ∪ clean_keys (c :: rest)
                     = clean_keys session1 ∪ clean_keys rest).
    { rewrite Hkeys. unfold clean_keys. cbn [map]. rewrite list_to_set_cons.
      now rewrite (assoc_L (∪)). }
    rewrite Hkeys'.
    destruct Hlen as [[-> Hl] | [-> Hl]]; cbn [String.eqb Ascii.eqb Bool.eqb];
      match goal with
      | |- context [upsert_rows session1 rest ?m] =>
          destruct (IH session1 m) as (H1 & H2 & H3 & H4 & H4' & H5 & H6 & H7 & H8)
      end;
      cbn [records_processed records_inserted records_updated records_failed]
        in H1, H2, H3, H4, H4', H5;
      repeat split; try lia; auto.
Qed.

(** The row of a key after a load: that of the last candidate with the key,
    and what it was when there is none. *)
Lemma upsert_rows_latest (clean_records : list CleanData.t) :
  forall (session : list CleanData.t) (metrics : LoadMetrics)
         (expression : string) (date : Date),
    clean_unique session ->
    let session' := snd (upsert_rows session clean_records metrics) in
    match latest_candidate expression date clean_records with
    | None => select_clean session' expression date
              = select_clean session expression date
    | Some c => exists row,
                  select_clean session' expression date = [row] /\ carries row c
    end.
Proof.
  induction clean_records as [|c rest IH] using rev_ind;
    intros session metrics expression date Hu; cbv zeta.
  - reflexivity.
  - rewrite upsert_rows_app. cbn [upsert_rows].
    pose proof (upsert_rows_spec rest session metrics) as Hspec.
    cbv zeta in Hspec. destruct Hspec as (_ & _ & _ & _ & _ & _ & Hu1 & _).
    specialize (Hu1 Hu).
    specialize (IH session metrics expression date Hu). cbv zeta in IH.
    set (session1 := snd (upsert_rows session rest metrics)) in *.
    set (m1 := fst (upsert_rows session rest metrics)).
    pose proof (upsert_row_frame session1 c expression date) as Hframe.
    pose proof (upsert_row_own_key session1 c Hu1) as Hown.
    destruct (upsert_row session1 c) as [result session2].
    cbn [snd] in Hframe, Hown |- *.
    unfold latest_candidate in *. rewrite List.filter_app. cbn [List.filter].
    destruct (clean_key_matches expression date c) eqn:Hk.
    + rewrite last_snoc. apply clean_key_matches_iff in Hk as [<- <-].
      exact Hown.
    + rewrite app_nil_r.
      assert (Hne : clean_key c <> (expression, date)).
      { intros E. apply clean_key_matches_key in E. congruence. }
      rewrite (Hframe Hne). exact IH.
Qed.

End LoaderFurther.

Lemma upsert_table_snd (session : Database) (clean_records : list CleanData.t) :
  snd (upsert_table session clean_records)
  = mkDatabase (raw_data_table session)
      (snd (upsert_rows (clean_data_table session) clean_records
              (mkLoadMetrics 0 0 0 0))).
Proof.
  unfold upsert_table.
  now destruct (upsert_rows (clean_data_table session) clean_records
                  (mkLoadMetrics 0 0 0 0)).
Qed.


(** ** The loader and its session *)

Section LoaderSession.

Variable objects : Objects.

Lemma list_find_snd {A B} (P : B -> Prop) `{forall b, Decision (P b)}
    (rows : list (A * B)) :
  list_find P (map snd rows)
  = match list_find (fun row => P (snd row)) rows with
    | Some (i, row) => Some (i, snd row)
    | None => None
    end.
Proof.
  induction rows as [|row rows IH]; [reflexivity |].
  cbn [map list_find]. destruct (decide (P (snd row))); [reflexivity |].
  rewrite IH. cbn [fmap option_fmap option_map].
  destruct (list_find (fun row => P (snd row)) rows) as [[i r]|]; reflexivity.
Qed.

Lemma flat_map_ext_in' {A B} (f g : A -> list B) (l : list A) :
  (forall a, In a l -> f a = g a) -> flat_map f l = flat_map g l.
Proof.
  induction l as [|a l IH]; intros H; [reflexivity |].
  cbn [flat_map]. rewrite (H a (or_introl eq_refl)), IH; [reflexivity |].
  intros b Hb. apply H. now right.
Qed.

Lemma list_find_fst_None {A B} `{EqDecision A} (a : A) (rows : list (A * B)) :
  ~ In a (map fst rows) -> list_find (fun row => fst row = a) rows = None.
Proof.
  intros Hnot. apply list_find_None, Forall_forall. intros row Hrow Heq.
  apply Hnot. rewrite <- Heq. apply in_map. now apply list_elem_of_In.
Qed.

Lemma getattr_not_held (session : Session) (r : nat) :
  ~ In (Some r) (held session) ->
  getattr objects session r
  = match objects r with
    | Transient c => Ok c
    | Detached => Raise DetachedInstanceError
    end.
Proof.
  intros Hnot. unfold getattr.
  now rewrite (list_find_fst_None (Some r) (clean_data session) Hnot).
Qed.

Lemma flush_healthy (session : Session) :
  healthy session -> flush session = (Ok tt, session).
Proof.
  intros [Hv Hr]. unfold flush. now rewrite Hr, Hv.
Qed.

(** An upsert of a transient candidate without a key of its own, in a
    healthy session that does not hold it: the upsert on the columns. *)
Lemma _upsert_clean_record_transient (session : Session) (r : nat)
    (c : CleanData.t) :
  healthy session ->
  ~ In (Some r) (held session) ->
  objects r = Transient c ->
  CleanData.clean_data_id c = None ->
  exists session',
    _upsert_clean_record objects session r
    = (Ok (fst (upsert_row (columns session) c)), session')
    /\ columns session' = snd (upsert_row (columns session) c)
    /\ held session'
       = (held session
          ++ (if String.eqb (fst (upsert_row (columns session) c)) "inserted"
              then [Some r] else []))%list
    /\ needs_rollback session' = false
    /\ pending_violation session'
       = negb (reasonable_value_range (CleanData.value c)).
Proof.
  intros Hh Hnot Hobj Hid. unfold _upsert_clean_record.
  rewrite (getattr_not_held session r Hnot), Hobj, (flush_healthy session Hh).
  unfold upsert_row, select_clean_first, columns.
  rewrite (list_find_snd
             (fun row => CleanData.expression row = CleanData.expression c
                         /\ CleanData.date row = CleanData.date c)).
  destruct Hh as [_ Hr].
  destruct (list_find _ (clean_data session)) as [[i [object existing]]|] eqn:Hfind.
  - eexists. split; [reflexivity |]. cbn [fst snd clean_data needs_rollback
                                         pending_violation held columns].
    split; [| split; [| split; [exact Hr | reflexivity]]].
    + unfold columns. cbn [clean_data].
      rewrite list_fmap_insert. reflexivity.
    + unfold held. cbn [clean_data]. rewrite app_nil_r.
      apply list_find_Some in Hfind as (Hi & _).
      rewrite list_fmap_insert. cbn [fst].
      apply list_insert_id. rewrite list_lookup_fmap, Hi. reflexivity.
  - eexists. split; [reflexivity |].
    unfold session_add, session_add_clean, held, columns.
    cbn [fst snd clean_data needs_rollback pending_violation String.eqb
         Ascii.eqb Bool.eqb].
    rewrite Hid, !map_app. cbn [map fst snd].
    rewrite orb_false_r. repeat split; try reflexivity. exact Hr.
Qed.

(** Once a change is pending that the engine refuses, or a flush has
    failed, every upsert raises and the session stays so. *)
Lemma _upsert_clean_record_unhealthy (session : Session) (r : nat) :
  ~ healthy session ->
  exists e session',
    _upsert_clean_record objects session r = (Raise e, session')
    /\ ~ healthy session'.
Proof.
  intros Hbad. unfold _upsert_clean_record.
  destruct (getattr objects session r) as [attributes | e];
    [| exists e, session; split; [reflexivity | exact Hbad]].
  unfold flush.
  destruct (needs_rollback session) eqn:Hr;
    [eexists _, session; split; [reflexivity | exact Hbad] |].
  destruct (pending_violation session) eqn:Hv.
  - eexists _, _. split; [reflexivity |]. unfold healthy. cbn. intros [_ H].
    discriminate.
  - exfalso. apply Hbad. split; assumption.
Qed.

Lemma load_clean_records_unhealthy (clean_records : list nat) :
  forall (session : Session) (metrics : LoadMetrics),
    ~ healthy session ->
    ~ healthy (snd (load_clean_records objects session clean_records metrics)).
Proof.
  induction clean_records as [|r rest IH]; intros session metrics Hbad;
    cbn [load_clean_records snd]; [exact Hbad |].
  destruct (_upsert_clean_record_unhealthy session r Hbad)
    as (e & session' & -> & Hbad').
  now apply IH.
Qed.

Lemma _upsert_clean_record_detached (session : Session) (r : nat) :
  ~ In (Some r) (held session) ->
  objects r = Detached ->
  _upsert_clean_record objects session r = (Raise DetachedInstanceError, session).
Proof.
  intros Hnot Hobj. unfold _upsert_clean_record.
  now rewrite (getattr_not_held session r Hnot), Hobj.
Qed.

(** The loop on fresh candidates in a healthy session that holds none of
    them.  When the values of the readable ones are all in the range of the
    table, it is the loop of upserts on the columns, a detached candidate
    being counted as failed; otherwise the session is not healthy at the
    end. *)
Lemma load_clean_records_fresh (clean_records : list nat) :
  forall (session : Session) (metrics mv : LoadMetrics),
    healthy session ->
    fresh_candidates objects clean_records ->
    (forall r, In r clean_records -> ~ In (Some r) (held session)) ->
    records_inserted mv = records_inserted metrics ->
    records_updated mv = records_updated metrics ->
    let cs := readable objects clean_records in
    let out := load_clean_records objects session clean_records metrics in
    let ref := upsert_rows (columns session) cs mv in
    if forallb (fun c => reasonable_value_range (CleanData.value c)) cs then
      healthy (snd out)
      /\ columns (snd out) = snd ref
      /\ records_inserted (fst out) = records_inserted (fst ref)
      /\ records_updated (fst out) = records_updated (fst ref)
      /\ records_processed (fst out)
         = records_processed metrics + Z.of_nat (length clean_records)
      /\ records_failed (fst out)
         = records_failed metrics + Z.of_nat (length clean_records)
           - Z.of_nat (length cs)
      /\ exists inserted,
           held (snd out) = (held session ++ map Some inserted)%list
           /\ (forall r, In r inserted -> In r clean_records)
           /\ Z.of_nat (length inserted)
              = records_inserted (fst out) - records_inserted metrics
           /\ readable_without objects inserted clean_records
              = updated_of (columns session) cs
    else ~ healthy (snd out).
Proof.
  induction clean_records as [|r rest IH];
    intros session metrics mv Hh [Hnd Hid] Hnot Hins Hupd; cbv zeta.
  - cbn [readable flat_map forallb load_clean_records upsert_rows fst snd length].
    split; [exact Hh |]. split; [reflexivity |].
    split; [lia |]. split; [lia |]. split; [lia |]. split; [lia |].
    exists []. cbn [map length]. rewrite app_nil_r.
    split; [reflexivity |]. split; [intros r [] |]. split; [lia | reflexivity].
  - apply NoDup_cons in Hnd as [Hr Hnd].
    assert (Hfresh : fresh_candidates objects rest).
    { split; [exact Hnd |]. intros r' c Hr'. apply Hid. now right. }
    cbn [load_clean_records readable flat_map].
    fold (readable objects rest).
    destruct (objects r) as [c|] eqn:Hobj.
    + destruct (_upsert_clean_record_transient session r c Hh
                  (Hnot r (or_introl eq_refl)) Hobj
                  (Hid r c (or_introl eq_refl) Hobj))
        as (session' & -> & Hcols & Hheld & Hroll & Hviol).
      cbn [app forallb upsert_rows].
      destruct (upsert_row (columns session) c) as [result table'] eqn:Hup.
      cbn [fst snd] in Hcols, Hheld |- *.
      destruct (reasonable_value_range (CleanData.value c)) eqn:Hrange;
        cbn [andb negb] in *.
      * assert (Hh' : healthy session') by (split; assumption).
        assert (Hnot' : forall r', In r' rest -> ~ In (Some r') (held session')).
        { intros r' Hr' Hin. rewrite Hheld in Hin.
          apply in_app_iff in Hin as [Hin | Hin].
          - apply (Hnot r'); [now right | exact Hin].
          - destruct (String.eqb result "inserted"); [| destruct Hin].
            destruct Hin as [[= ->] | []]. apply Hr. now apply list_elem_of_In. }
        match goal with
        | |- context [load_clean_records objects session' rest ?m] =>
            match goal with
            | |- context [upsert_rows table' (readable objects rest) ?m'] =>
                pose proof (IH session' m m' Hh' Hfresh Hnot') as Hrec
            end
        end.
        cbv zeta in Hrec. rewrite Hcols in Hrec.
        destruct (forallb _ (readable objects rest)).
        -- destruct Hrec as (H1 & H2 & H3 & H4 & H5 & H6 & H7).
           { destruct (String.eqb result "inserted");
               [| destruct (String.eqb result "updated")]; cbn; lia. }
           { destruct (String.eqb result "inserted");
               [| destruct (String.eqb result "updated")]; cbn; lia. }
           split; [exact H1 |]. split; [exact H2 |].
           split; [exact H3 |]. split; [exact H4 |].
           split; [rewrite H5; destruct (String.eqb result "inserted");
                   [| destruct (String.eqb result "updated")]; cbn [length];
                   cbn [records_processed]; lia |].
           split; [rewrite H6; destruct (String.eqb result "inserted");
                   [| destruct (String.eqb result "updated")]; cbn [length];
                   cbn [records_failed]; lia |].
           destruct H7 as (inserted & Hheld' & Hsub & Hlen & Hrest).
           rewrite Hheld, <- app_assoc in Hheld'.
           assert (Hr_out : r ∉ inserted).
           { intros Hin. apply Hr, list_elem_of_In, Hsub.
             now apply list_elem_of_In. }
           cbn [updated_of]. rewrite Hup.
           destruct (String.eqb result "inserted") eqn:Hres.
           ++ exists (r :: inserted). split; [exact Hheld' |].
              split; [intros r' [<- | Hr']; [now left | right; now apply Hsub] |].
              split; [cbn [length records_inserted] in Hlen |- *; lia |].
              unfold readable_without. cbn [flat_map app].
              rewrite bool_decide_eq_true_2 by (now left). cbn [app].
              rewrite <- Hrest. unfold readable_without.
              apply flat_map_ext_in'. intros r' Hr'.
              destruct (decide (r' ∈ inserted)) as [Hin | Hout].
              ** rewrite !bool_decide_eq_true_2; [reflexivity | exact Hin |].
                 now right.
              ** rewrite !bool_decide_eq_false_2; [reflexivity | exact Hout |].
                 intros Hin. apply elem_of_cons in Hin as [-> | Hin];
                   [| contradiction].
                 apply Hr. now apply list_elem_of_In.
           ++ exists inserted. split; [exact Hheld' |].
              split; [intros r' Hr'; right; now apply Hsub |].
              split; [destruct (String.eqb result "updated");
                      cbn [records_inserted] in Hlen; lia |].
              unfold readable_without. cbn [flat_map app].
              rewrite bool_decide_eq_false_2 by exact Hr_out. rewrite Hobj.
              cbn [app]. f_equal. exact Hrest.
        -- apply Hrec;
             destruct (String.eqb result "inserted");
             [| destruct (String.eqb result "updated") | |
              destruct (String.eqb result "updated")]; cbn; lia.
      * apply load_clean_records_unhealthy. intros [Hv _]. congruence.
    + rewrite (_upsert_clean_record_detached session r
                 (Hnot r (or_introl eq_refl)) Hobj).
      cbn [app].
      match goal with
      | |- context [load_clean_records objects session rest ?m] =>
          pose proof (IH session m mv Hh Hfresh
                        (fun r' Hr' => Hnot r' (or_intror Hr'))) as Hrec
      end.
      cbv zeta in Hrec.
      destruct (forallb _ (readable objects rest)).
      * destruct Hrec as (H1 & H2 & H3 & H4 & H5 & H6 & H7);
          [cbn; lia | cbn; lia |].
        cbn [records_processed records_failed records_inserted records_updated]
          in H3, H4, H5, H6.
        split; [exact H1 |]. split; [exact H2 |].
        split; [exact H3 |]. split; [exact H4 |].
        split; [rewrite H5; cbn [length]; lia |].
        split; [rewrite H6; cbn [length]; lia |].
        destruct H7 as (inserted & Hheld' & Hsub & Hlen & Hrest).
        exists inserted. split; [exact Hheld' |].
        split; [intros r' Hr'; right; now apply Hsub |].
        split; [cbn [records_inserted] in Hlen; exact Hlen |].
        unfold readable_without. cbn [flat_map]. rewrite Hobj.
        destruct (bool_decide (r ∈ inserted)); exact Hrest.
      * apply Hrec; cbn; lia.
Qed.

End LoaderSession.

Section LoaderCalls.

Lemma Session_new_columns (engine : Database) :
  columns (Session_new engine) = clean_data_table engine.
Proof.
  unfold columns, Session_new. cbn [clean_data].
  rewrite map_map. cbn [snd]. apply map_id.
Qed.

Lemma Session_new_held (engine : Database) (r : nat) :
  ~ In (Some r) (held (Session_new engine)).
Proof.
  unfold held, Session_new. cbn [clean_data]. rewrite map_map. cbn [fst].
  intros Hin. apply in_map_iff in Hin as (row & Heq & _). discriminate.
Qed.

Lemma Session_new_healthy (engine : Database) : healthy (Session_new engine).
Proof. split; reflexivity. Qed.

Lemma flush_unhealthy (session : Session) :
  ~ healthy session ->
  exists e session',
    flush session = (Raise e, session')
    /\ (e = IntegrityError \/ e = PendingRollbackError).
Proof.
  intros Hbad. unfold flush.
  destruct (needs_rollback session) eqn:Hr; [eexists _, _; split; eauto |].
  destruct (pending_violation session) eqn:Hv; [eexists _, _; split; eauto |].
  exfalso. apply Hbad. split; assumption.
Qed.

(** A load of fresh candidates.  When the values of the readable ones are
    all in the range of the table it returns, and the table is that of the
    upserts on the columns; the candidates it inserted are detached, and
    the other objects are what they were.  Otherwise it raises and leaves the
    database as it was. *)
Lemma load_clean_data_fresh (engine : Database) (objects : Objects)
    (clean_records : list nat) :
  fresh_candidates objects clean_records ->
  let cs := readable objects clean_records in
  let ref := upsert_table engine cs in
  if forallb (fun c => reasonable_value_range (CleanData.value c)) cs then
    exists metrics objects' inserted,
      load_clean_data engine objects clean_records
      = (Ok (metrics, objects'), snd ref)
      /\ records_processed metrics = Z.of_nat (length clean_records)
      /\ records_inserted metrics = records_inserted (fst ref)
      /\ records_updated metrics = records_updated (fst ref)
      /\ records_failed metrics
         = Z.of_nat (length clean_records) - Z.of_nat (length cs)
      /\ Z.of_nat (length inserted) = records_inserted metrics
      /\ (forall r, In r inserted -> In r clean_records /\ objects' r = Detached)
      /\ (forall r, ~ In r inserted -> objects' r = objects r)
      /\ readable objects' clean_records = updated_of (clean_data_table engine) cs
  else
    exists e,
      load_clean_data engine objects clean_records = (Raise e, engine)
      /\ (e = IntegrityError \/ e = PendingRollbackError).
Proof.
  intros Hfresh. cbv zeta. unfold load_clean_data, upsert_table.
  pose proof (load_clean_records_fresh objects clean_records (Session_new engine)
                (mkLoadMetrics 0 0 0 0) (mkLoadMetrics 0 0 0 0)
                (Session_new_healthy engine) Hfresh
                (fun r _ => Session_new_held engine r) eq_refl eq_refl) as Hloop.
  cbv zeta in Hloop. rewrite Session_new_columns in Hloop.
  destruct (load_clean_records objects (Session_new engine) clean_records
              (mkLoadMetrics 0 0 0 0)) as [metrics session].
  destruct (upsert_rows (clean_data_table engine) (readable objects clean_records)
              (mkLoadMetrics 0 0 0 0)) as [mv table].
  cbn [fst snd] in Hloop |- *.
  destruct (forallb _ (readable objects clean_records)).
  - destruct Hloop as (Hh & Hcols & Hins & Hupd & Hproc & Hfail & inserted
                       & Hheld & Hsub & Hlen & Hrest).
    rewrite (flush_healthy session Hh).
    cbn [records_processed records_inserted records_updated records_failed]
      in Hproc, Hfail, Hlen.
    eexists metrics, _, inserted.
    unfold columns in Hcols. rewrite Hcols.
    split; [reflexivity |].
    split; [lia |]. split; [exact Hins |]. split; [exact Hupd |].
    split; [lia |]. split; [lia |].
    assert (Hfind : forall r,
              list_find (fun row : option nat * CleanData.t => fst row = Some r)
                (clean_data session) = None
              <-> ~ In r inserted).
    { intros r. rewrite list_find_None, Forall_forall. split.
      - intros Hall Hin.
        assert (Hh' : In (Some r) (held session))
          by (rewrite Hheld; apply in_or_app; right; now apply in_map).
        unfold held in Hh'. apply in_map_iff in Hh' as (row & Hrow & Hin').
        apply (Hall row); [now apply list_elem_of_In | exact Hrow].
      - intros Hnot row Hrow Heq.
        assert (Hh' : In (Some r) (held session)).
        { unfold held. rewrite <- Heq. apply in_map. now apply list_elem_of_In. }
        rewrite Hheld in Hh'. apply in_app_iff in Hh' as [Hh' | Hh'].
        + now apply (Session_new_held engine r).
        + apply in_map_iff in Hh' as (r' & [= ->] & Hr'). contradiction. }
    split; [| split].
    + intros r Hr. split; [now apply Hsub |].
      destruct (list_find (fun row : option nat * CleanData.t => fst row = Some r)
                  (clean_data session)) eqn:E; [reflexivity |].
      apply Hfind in E. contradiction.
    + intros r Hr. apply Hfind in Hr. now rewrite Hr.
    + rewrite <- Hrest. unfold readable, readable_without.
      apply flat_map_ext_in'. intros r _.
      destruct (decide (r ∈ inserted)) as [Hin | Hout].
      * rewrite bool_decide_eq_true_2 by exact Hin.
        apply list_elem_of_In in Hin.
        destruct (list_find (fun row : option nat * CleanData.t => fst row = Some r)
                    (clean_data session)) eqn:E; [reflexivity |].
        apply Hfind in E. contradiction.
      * rewrite bool_decide_eq_false_2 by exact Hout.
        assert (Hnone : ~ In r inserted)
          by (intros Hin; apply Hout; now apply list_elem_of_In).
        apply Hfind in Hnone. now rewrite Hnone.
  - destruct (flush_unhealthy session Hloop) as (e & session' & -> & He).
    exists e. split; [reflexivity | exact He].
Qed.

End LoaderCalls.

Section FreshObjects.

Lemma readable_new_objects_seq (clean_records prefix : list CleanData.t) :
  readable (new_objects (prefix ++ clean_records))
    (seq (length prefix) (length clean_records))
  = clean_records.
Proof.
  revert prefix. induction clean_records as [|c rest IH]; intros prefix;
    [reflexivity |].
  cbn [length seq readable flat_map]. unfold new_objects at 1.
  rewrite list_lookup_middle by reflexivity. cbn [app]. f_equal.
  specialize (IH (prefix ++ [c])%list).
  rewrite <- app_assoc, length_app in IH. cbn [app length] in IH.
  rewrite Nat.add_1_r in IH. exact IH.
Qed.

(** The candidates that can be read from the objects of a transformation
    are its records. *)
Lemma readable_new_objects (clean_records : list CleanData.t) :
  readable (new_objects clean_records) (references clean_records) = clean_records.
Proof. exact (readable_new_objects_seq clean_records []). Qed.

Lemma fresh_new_objects (clean_records : list CleanData.t) :
  Forall (fun c => CleanData.clean_data_id c = None) clean_records ->
  fresh_candidates (new_objects clean_records) (references clean_records).
Proof.
  intros Hids. split; [apply NoDup_ListNoDup, seq_NoDup |].
  intros r c _ Hobj. unfold new_objects in Hobj.
  destruct (clean_records !! r) as [c'|] eqn:E; [| discriminate].
  injection Hobj as ->. rewrite Forall_forall in Hids. apply Hids.
  eapply list_elem_of_lookup_2. exact E.
Qed.

(** The records of a transformation have no key of their own. *)
Lemma candidates_of_no_id (raw_records : list RawData.t) :
  Forall (fun c => CleanData.clean_data_id c = None) (candidates_of raw_records).
Proof.
  apply Forall_forall. intros c Hc.
  apply list_elem_of_In, in_candidates_of in Hc as (r & _ & Hc).
  now apply transform_raw_record_Ok in Hc as (_ & _ & _ & Hid & _).
Qed.

Lemma forallb_range_iff (clean_records : list CleanData.t) :
  forallb (fun c => reasonable_value_range (CleanData.value c)) clean_records = true
  <-> Forall (fun c => reasonable_value_range (CleanData.value c) = true)
        clean_records.
Proof.
  rewrite forallb_forall, Forall_forall. split; intros H c Hc; apply H.
  - now apply list_elem_of_In.
  - now apply list_elem_of_In.
Qed.

End FreshObjects.

Section LoaderTwice.

Lemma LoadMetrics_eq (m : LoadMetrics) (p i u f : Z) :
  records_processed m = p -> records_inserted m = i ->
  records_updated m = u -> records_failed m = f ->
  m = mkLoadMetrics p i u f.
Proof. destruct m. cbn. congruence. Qed.



End LoaderTwice.




(** ** Properties of the integrity check *)

Section IntegrityFacts.

Implicit Types (records : list CleanData.t) (seen : gset (string * Date)).

Lemma count_duplicates_ge records :
  forall seen (duplicates : Z),
    duplicates <= count_duplicates records seen duplicates.
Proof.
  induction records as [|record rest IH]; intros seen duplicates;
    cbn [count_duplicates]; [lia |].
  case_bool_decide.
  - specialize (IH seen (duplicates + 1)). lia.
  - apply IH.
Qed.

(** The counter ends at the number of records less the number of distinct
    pairs that were not in the set at the start. *)
Lemma count_duplicates_spec records :
  forall seen (duplicates : Z),
    count_duplicates records seen duplicates
    = duplicates + Z.of_nat (length records)
      - (Z.of_nat (size (seen ∪ list_to_set (map clean_key records)))
         - Z.of_nat (size seen)).
Proof.
  induction records as [|record rest IH]; intros seen duplicates;
    cbn [count_duplicates map length].
  - rewrite list_to_set_nil, (right_id_L ∅ (∪)). lia.
  - fold (clean_key record). rewrite list_to_set_cons. case_bool_decide as Hin.
    + rewrite IH.
      replace (seen ∪ ({[clean_key record]} ∪ list_to_set (map clean_key rest)))
        with (seen ∪ list_to_set (map clean_key rest)) by set_solver.
      lia.
    + rewrite IH.
      replace (seen ∪ ({[clean_key record]} ∪ list_to_set (map clean_key rest)))
        with ({[clean_key record]} ∪ seen ∪ list_to_set (map clean_key rest))
        by set_solver.
      rewrite (size_union {[clean_key record]} seen) by set_solver.
      rewrite size_singleton. lia.
Qed.

(** The counter stays where it was exactly when no pair repeats and none
    was in the set at the start. *)
Lemma count_duplicates_unchanged_iff records :
  forall seen (duplicates : Z),
    count_duplicates records seen duplicates = duplicates
    <-> NoDup (map clean_key records)
        /\ (forall k, In k (map clean_key records) -> k ∉ seen).
Proof.
  induction records as [|record rest IH]; intros seen duplicates;
    cbn [count_duplicates map].
  - split; [intros _; split; [constructor | intros k []] | reflexivity].
  - fold (clean_key record). case_bool_decide as Hin.
    + pose proof (count_duplicates_ge rest seen (duplicates + 1)). split; [lia |].
      intros [_ H']. exfalso. apply (H' (clean_key record)); [now left | exact Hin].
    + rewrite IH. rewrite NoDup_cons, list_elem_of_In. split.
      * intros [Hnd Hk]. split; [split; [| exact Hnd] |].
        -- intros Hmem. apply (Hk _ Hmem). set_solver.
        -- intros k [<- | Hmem]; [exact Hin |].
           specialize (Hk _ Hmem). set_solver.
      * intros [[Hnk Hnd] Hk]. split; [exact Hnd |].
        intros k Hmem. specialize (Hk k (or_intror Hmem)).
        assert (k <> clean_key record) by congruence. set_solver.
Qed.

Lemma count_duplicates_positive_iff records :
  0 < count_duplicates records ∅ 0 <-> ~ NoDup (map clean_key records).
Proof.
  pose proof (count_duplicates_ge records ∅ 0) as Hge.
  pose proof (count_duplicates_unchanged_iff records ∅ 0) as Hiff.
  split.
  - intros Hpos Hnd.
    assert (count_duplicates records ∅ 0 = 0); [| lia].
    apply Hiff. split; [exact Hnd | intros k _; set_solver].
  - intros Hnd.
    destruct (Z.eq_dec (count_duplicates records ∅ 0) 0) as [E | E]; [| lia].
    apply Hiff in E as [E _]. contradiction.
Qed.

(** Some pair appears more than once exactly when the keys repeat. *)
Lemma pairs_appearing_more_than_once_positive_iff records :
  0 < pairs_appearing_more_than_once records <-> ~ NoDup (map clean_key records).
Proof.
  unfold pairs_appearing_more_than_once. fold clean_key.
  set (keys := map clean_key records).
  split.
  - intros Hpos Hnd.
    destruct (List.filter (fun k => (1 <? count_occ key_eq_dec keys k)%nat)
                (nodup key_eq_dec keys)) as [|k ks] eqn:E; [cbn in Hpos; lia |].
    assert (Hk : In k (k :: ks)) by now left.
    rewrite <- E in Hk. apply filter_In in Hk as [_ Hk].
    apply Nat.ltb_lt in Hk.
    apply NoDup_ListNoDup in Hnd.
    pose proof (proj1 (List.NoDup_count_occ key_eq_dec keys) Hnd k). lia.
  - intros Hnd.
    assert (Hex : Exists (fun k => count_occ key_eq_dec keys k <> 1%nat) keys).
    { apply (not_Forall_Exists (fun k => count_occ key_eq_dec keys k = 1%nat)).
      intros Hall. apply Hnd. apply NoDup_ListNoDup.
      apply (List.NoDup_count_occ' key_eq_dec). intros k Hk.
      rewrite Forall_forall in Hall. apply Hall. now apply list_elem_of_In. }
    apply Exists_exists in Hex as [k [Hk Hc]]. apply list_elem_of_In in Hk.
    assert (Hge : (count_occ key_eq_dec keys k > 0)%nat)
      by (now apply count_occ_In).
    assert (Hin : In k (List.filter
                          (fun k => (1 <? count_occ key_eq_dec keys k)%nat)
                          (nodup key_eq_dec keys))).
    { apply filter_In. split; [now apply nodup_In |]. apply Nat.ltb_lt. lia. }
    destruct (List.filter _ _); [destruct Hin | cbn [length]; lia].
Qed.

End IntegrityFacts.

(** C7 as stated fails: with one (expression, date) pair appearing three
    times in the joined result, one pair appears more than once but the
    reported count is 2.  The first store has one clean row and three raw
    versions of it fetched at the latest time stamp, the second has three
    clean rows with the same pair. *)
Lemma C7_counterexample :
  let e := "DB(COV,VOLSWAPTION,EUR,2y,1y,PAYER,VOLBPVOL)" in
  let raw v := RawData.mk (Some v) e 738000 80 20 v "historical" "blob://market-data/a" in
  let clean i := CleanData.mk (Some i) e 738000 "EUR" "1y" "2y" "Euribor" 80 1 in
  let store1 := mkDatabase [raw 1; raw 2; raw 3] [clean 1] in
  let store2 := mkDatabase [raw 1] [clean 1; clean 2; clean 3] in
  pairs_appearing_more_than_once (latest_clean_data_stmt store1 20) = 1
  /\ duplicate_combinations (validate_clean_data_integrity store1) = 2
  /\ pairs_appearing_more_than_once (latest_clean_data_stmt store2 20) = 1
  /\ duplicate_combinations (validate_clean_data_integrity store2) = 2.
Proof. cbv zeta. repeat split; vm_compute; reflexivity. Qed.

(** C7 (amended). With a latest fetch time stamp, the check joins the clean
    rows to the raw rows of that time stamp on (expression, date) and counts
    the joined rows whose pair occurred earlier among them, that is the rows
    less the distinct pairs.  The count is positive exactly when some pair
    appears more than once; then the report is invalid and carries the count
    and one issue with it, otherwise it is valid.  Two clean rows with the
    same pair and one raw row of it at the latest time stamp give an invalid
    report with count 1. *)
Theorem C7_integrity_check (session : Database) (latest : Timestamp) :
  latest_fetch (raw_data_table session) = Some latest ->
  let records := latest_clean_data_stmt session latest in
  let duplicates :=
    Z.of_nat (length records)
    - Z.of_nat (size (list_to_set (map clean_key records) : gset (string * Date))) in
  (In latest (map RawData.fetch_timestamp (raw_data_table session))
   /\ Forall (fun r => RawData.fetch_timestamp r <= latest) (raw_data_table session))
  /\ (forall c,
        In c records
        <-> In c (clean_data_table session)
            /\ exists r,
                 In r (raw_data_table session)
                 /\ RawData.expression r = CleanData.expression c
                 /\ RawData.date r = CleanData.date c
                 /\ RawData.fetch_timestamp r = latest)
  /\ (0 < duplicates <-> 0 < pairs_appearing_more_than_once records)
  /\ validate_clean_data_integrity session
     = (if 0 <? duplicates
        then mkIntegrityReport false
               [FoundDuplicateCombinations duplicates latest] duplicates
               (Some latest) (Z.of_nat (length records))
        else mkIntegrityReport true [] 0 (Some latest)
               (Z.of_nat (length records)))
  /\ (forall c1 c2,
        clean_data_table session = [c1; c2] ->
        clean_key c1 = clean_key c2 ->
        length (List.filter
                  (fun r =>
                     raw_key_matches (CleanData.expression c1) (CleanData.date c1) r
                     && (RawData.fetch_timestamp r =? latest))
                  (raw_data_table session)) = 1%nat ->
        validate_clean_data_integrity session
        = mkIntegrityReport false [FoundDuplicateCombinations 1 latest] 1
            (Some latest) 2).
Proof.
  intros Hlatest records duplicates.
  assert (Hcount : count_duplicates records ∅ 0 = duplicates).
  { rewrite count_duplicates_spec.
    rewrite (left_id_L ∅ (∪)), size_empty. subst duplicates. lia. }
  split; [| split; [| split; [| split]]].
  - unfold latest_fetch in Hlatest. split; [now apply sql_max_In |].
    apply sql_max_ge in Hlatest. apply Forall_forall. intros r Hr.
    rewrite Forall_forall in Hlatest. apply Hlatest.
    apply list_elem_of_In, in_map, list_elem_of_In. exact Hr.
  - intros c. subst records. unfold latest_clean_data_stmt.
    rewrite in_flat_map. split.
    + intros [c0 [Hc0 Hin]]. apply in_map_iff in Hin as [r [<- Hr]].
      apply filter_In in Hr as [Hr Hk]. apply andb_true_iff in Hk as [Hk Ht].
      apply raw_key_matches_iff in Hk as [He Hd]. apply Z.eqb_eq in Ht.
      split; [exact Hc0 |]. exists r. auto.
    + intros [Hc [r [Hr [He [Hd Ht]]]]]. exists c. split; [exact Hc |].
      apply in_map_iff. exists r. split; [reflexivity |].
      apply filter_In. split; [exact Hr |]. apply andb_true_iff. split.
      * now apply raw_key_matches_iff.
      * now apply Z.eqb_eq.
  - rewrite <- Hcount, count_duplicates_positive_iff.
    now rewrite pairs_appearing_more_than_once_positive_iff.
  - unfold validate_clean_data_integrity. rewrite Hlatest.
    fold records. rewrite Hcount. reflexivity.
  - intros c1 c2 Hclean Hkey Hone.
    assert (Hrec : records = [c1; c2]).
    { subst records. unfold latest_clean_data_stmt. rewrite Hclean.
      cbn [flat_map]. injection Hkey as He Hd. rewrite <- He, <- Hd.
      destruct (List.filter _ (raw_data_table session)) as [|r [|r' rs]];
        try discriminate.
      reflexivity. }
    unfold validate_clean_data_integrity. rewrite Hlatest. fold records.
    rewrite Hrec. cbn [count_duplicates length].
    rewrite bool_decide_eq_false_2 by set_solver.
    fold (clean_key c1). fold (clean_key c2). rewrite <- Hkey.
    rewrite bool_decide_eq_true_2 by set_solver.
    reflexivity.
Qed.

Lemma C7_integrity_check_witness :
  let e := "DB(COV,VOLSWAPTION,EUR,2y,1y,PAYER,VOLBPVOL)" in
  let o := "DB(COV,VOLSWAPTION,USD,2y,1y,PAYER,VOLBPVOL)" in
  let session :=
    mkDatabase
      [RawData.mk (Some 1) e 738000 80 10 1 "default" "blob://market-data/a";
       RawData.mk (Some 2) o 738000 81 20 1 "default" "blob://market-data/b";
       RawData.mk (Some 3) e 738000 82 20 2 "default" "blob://market-data/c"]
      [CleanData.mk (Some 1) e 738000 "EUR" "1y" "2y" "Euribor" 80 1;
       CleanData.mk (Some 2) e 738000 "EUR" "1y" "2y" "Euribor" 82 3] in
  validate_clean_data_integrity session
  = mkIntegrityReport false [FoundDuplicateCombinations 1 20] 1 (Some 20) 2.
Proof.
  cbv zeta.
  match goal with
  | |- validate_clean_data_integrity ?s = _ =>
      eapply (proj2 (proj2 (proj2 (proj2 (C7_integrity_check s 20 eq_refl)))))
  end.
  - reflexivity.
  - reflexivity.
  - reflexivity.
Defined.

(** * Further properties of the code *)

(** ** The parser on arbitrary input *)

Section ParserInversion.

Lemma str_in_true_iff (x : string) (l : list string) :
  Py.str_in x l = true <-> In x l.
Proof.
  unfold Py.str_in. rewrite existsb_exists. split.
  - intros [y [Hy E]]. apply String.eqb_eq in E. now subst.
  - intros H. exists x. split; [exact H | apply String.eqb_refl].
Qed.

Lemma getitem_Ok {A} (l : list A) (i : nat) (a : A) :
  Py.getitem l i = Ok a <-> nth_error l i = Some a.
Proof.
  unfold Py.getitem. destruct (nth_error l i); split; congruence.
Qed.

(** What the resolver answers for the five currencies of the table. *)
Lemma _map_reference_rate_table (currency : string) (parts : list string) :
  In currency ["USD"; "USDD"; "EUR"; "GBP"; "CHF"] ->
  _map_reference_rate currency parts
  = match currency with
    | "USD" => Ok (Some "Libor")
    | "USDD" => Ok (Some "SOFR")
    | "EUR" => Ok (Some "Euribor")
    | "GBP" =>
        if (length parts =? 8)%nat then
          ref_indicator ← Py.getitem parts 3;
          rate ← Py.dict_getitem
                   ({[ "default" := "Libor"; "SONIA" := "SOFR" ]} : gmap string string)
                   ref_indicator;
          Ok (Some rate)
        else Ok (Some "Libor")
    | _ =>
        if (length parts =? 8)%nat then
          ref_indicator ← Py.getitem parts 3;
          rate ← Py.dict_getitem
                   ({[ "default" := "Libor"; "SARON" := "SARON" ]} : gmap string string)
                   ref_indicator;
          Ok (Some rate)
        else Ok (Some "Libor")
    end.
Proof.
  intros H. cbn in H.
  destruct H as [<-|[<-|[<-|[<-|[<-|[]]]]]]; try reflexivity;
    unfold _map_reference_rate;
    destruct (length parts =? 8)%nat; reflexivity.
Qed.

(** The shape of every expression that the parser accepts. *)
Lemma _parse_expression_Ok_inv (expression c x y r : string) :
  _parse_expression expression = Ok (c, x, y, r) ->
  let parts := Py.split "," (Py.slice_3_m1 expression) in
  Py.startswith expression "DB(" = true
  /\ Py.endswith expression ")" = true
  /\ nth_error parts 0 = Some "COV"
  /\ nth_error parts 1 = Some "VOLSWAPTION"
  /\ exists currency,
       nth_error parts 2 = Some currency
       /\ c = (if String.eqb currency "USDD" then "USD" else currency)
       /\ ((length parts = 7%nat
            /\ nth_error parts 3 = Some y /\ nth_error parts 4 = Some x)
           \/ (length parts = 8%nat
               /\ nth_error parts 4 = Some y /\ nth_error parts 5 = Some x
               /\ exists ref_indicator,
                    nth_error parts 3 = Some ref_indicator
                    /\ (In currency ["GBP"; "CHF"] ->
                        In ref_indicator ["SONIA"; "SARON"])))
       /\ In x OptionExpiryEnum_values
       /\ In y SwapTenorEnum_values
       /\ _map_reference_rate currency parts = Ok (Some r).
Proof.
  intros H. cbv zeta. unfold _parse_expression in H.
  set (parts := Py.split "," (Py.slice_3_m1 expression)) in *.
  destruct (Py.startswith expression "DB(") eqn:Hs; [| discriminate].
  destruct (Py.endswith expression ")") eqn:He; [| discriminate].
  cbn [negb orb] in H.
  split; [reflexivity |]. split; [reflexivity |].
  destruct (Py.getitem parts 0) as [p0|] eqn:H0; [| discriminate].
  cbn [mbind PyResult_bind] in H.
  destruct (String.eqb_spec p0 "COV") as [-> | Hp0]; [| discriminate].
  cbn [negb] in H.
  destruct (Py.getitem parts 1) as [p1|] eqn:H1; [| discriminate].
  cbn [mbind PyResult_bind] in H.
  destruct (String.eqb_spec p1 "VOLSWAPTION") as [-> | Hp1]; [| discriminate].
  cbn [negb] in H.
  apply getitem_Ok in H0, H1.
  split; [exact H0 |]. split; [exact H1 |].
  assert (Hfields :
    exists currency y' x',
      nth_error parts 2 = Some currency
      /\ ((length parts = 7%nat
           /\ nth_error parts 3 = Some y' /\ nth_error parts 4 = Some x')
          \/ (length parts = 8%nat
              /\ nth_error parts 4 = Some y' /\ nth_error parts 5 = Some x'
              /\ exists ref_indicator,
                   nth_error parts 3 = Some ref_indicator
                   /\ (In currency ["GBP"; "CHF"] ->
                       In ref_indicator ["SONIA"; "SARON"])))
      /\ (if negb (Py.str_in x' OptionExpiryEnum_values)
          then Raise (ValueError (InvalidXTenor x'))
          else if negb (Py.str_in y' SwapTenorEnum_values)
          then Raise (ValueError (InvalidYTenor y'))
          else
            ref_rate ← _map_reference_rate currency parts;
            match ref_rate with
            | None => Raise (ValueError (CouldNotMapReferenceRate currency))
            | Some ref_rate =>
                if negb (Py.truthy ref_rate)
                then Raise (ValueError (CouldNotMapReferenceRate currency))
                else
                  let normalized_currency :=
                    if String.eqb currency "USDD" then "USD" else currency in
                  if negb (forallb Py.truthy
                             [normalized_currency; x'; y'; ref_rate])
                  then Raise (ValueError MissingRequiredFields)
                  else Ok (normalized_currency, x', y', ref_rate)
            end) = Ok (c, x, y, r)).
  { destruct (Nat.eqb_spec (length parts) 7) as [L7 | L7].
    - destruct (Py.getitem parts 2) as [cur|] eqn:H2; [| discriminate].
      destruct (Py.getitem parts 3) as [y'|] eqn:H3; [| discriminate].
      destruct (Py.getitem parts 4) as [x'|] eqn:H4; [| discriminate].
      cbn [mbind PyResult_bind] in H.
      apply getitem_Ok in H2, H3, H4.
      exists cur, y', x'. split; [exact H2 |]. split; [left; auto | exact H].
    - destruct (Nat.eqb_spec (length parts) 8) as [L8 | L8]; [| discriminate].
      destruct (Py.getitem parts 2) as [cur|] eqn:H2; [| discriminate].
      destruct (Py.getitem parts 3) as [ind|] eqn:H3; [| discriminate].
      destruct (Py.getitem parts 4) as [y'|] eqn:H4; [| discriminate].
      destruct (Py.getitem parts 5) as [x'|] eqn:H5; [| discriminate].
      cbn [mbind PyResult_bind] in H.
      apply getitem_Ok in H2, H3, H4, H5.
      destruct (Py.str_in cur ["GBP"; "CHF"]
                && negb (Py.str_in ind ["SONIA"; "SARON"])) eqn:G;
        [discriminate |].
      cbn [mbind PyResult_bind] in H.
      exists cur, y', x'. split; [exact H2 |]. split; [| exact H].
      right. split; [exact L8 |]. split; [exact H4 |]. split; [exact H5 |].
      exists ind. split; [exact H3 |]. intros Hc.
      apply str_in_true_iff in Hc. rewrite Hc in G. cbn [andb] in G.
      apply negb_false_iff in G. now apply str_in_true_iff. }
  destruct Hfields as (currency & y' & x' & H2 & Hshape & Hrest).
  destruct (Py.str_in x' OptionExpiryEnum_values) eqn:Hx; [| discriminate].
  destruct (Py.str_in y' SwapTenorEnum_values) eqn:Hy; [| discriminate].
  cbn [negb] in Hrest.
  destruct (_map_reference_rate currency parts) as [[rate|]|] eqn:Hm;
    try discriminate.
  cbn [mbind PyResult_bind] in Hrest.
  destruct (negb (Py.truthy rate)); [discriminate |].
  cbv zeta in Hrest.
  destruct (negb (forallb Py.truthy _)); [discriminate |].
  injection Hrest as <- <- <- <-.
  exists currency. split; [exact H2 |]. split; [reflexivity |].
  split; [exact Hshape |].
  split; [now apply str_in_true_iff |]. split; [now apply str_in_true_iff |].
  exact Hm.
Qed.

End ParserInversion.

Section ParserFurther.

Lemma _map_reference_rate_Some_inv (currency r : string) (parts : list string) :
  _map_reference_rate currency parts = Ok (Some r) ->
  In currency ["USD"; "USDD"; "EUR"; "GBP"; "CHF"]
  /\ In r ["Libor"; "SOFR"; "Euribor"; "SARON"]
  /\ (r = "SOFR" -> currency = "USDD" \/ currency = "GBP").
Proof.
  intros H.
  assert (Hdone : forall c0 r0 : string,
             In r0 ["Libor"; "SOFR"; "Euribor"; "SARON"] ->
             (r0 = "SOFR" -> c0 = "USDD" \/ c0 = "GBP") ->
             In r0 ["Libor"; "SOFR"; "Euribor"; "SARON"]
             /\ (r0 = "SOFR" -> c0 = "USDD" \/ c0 = "GBP")) by auto.
  destruct (Py.str_in currency ["USD"; "USDD"; "EUR"; "GBP"; "CHF"]) eqn:E.
  - apply str_in_true_iff in E. split; [exact E |].
    rewrite (_map_reference_rate_table currency parts E) in H.
    cbn in E.
    destruct E as [<-|[<-|[<-|[<-|[<-|[]]]]]].
    + injection H as <-. apply Hdone; [cbn; tauto | discriminate].
    + injection H as <-. apply Hdone; [cbn; tauto | auto].
    + injection H as <-. apply Hdone; [cbn; tauto | discriminate].
    + destruct (length parts =? 8)%nat;
        [| injection H as <-; apply Hdone; [cbn; tauto | auto]].
      destruct (Py.getitem parts 3) as [ind|]; [| discriminate].
      cbn [mbind PyResult_bind] in H. unfold Py.dict_getitem in H.
      destruct (_ !! ind) as [rate|] eqn:L; [| discriminate].
      injection H as <-.
      apply lookup_insert_Some in L as [[_ <-] | [_ L]];
        [apply Hdone; [cbn; tauto | auto] |].
      apply lookup_singleton_Some in L as [_ <-].
      apply Hdone; [cbn; tauto | auto].
    + destruct (length parts =? 8)%nat;
        [| injection H as <-; apply Hdone; [cbn; tauto | discriminate]].
      destruct (Py.getitem parts 3) as [ind|]; [| discriminate].
      cbn [mbind PyResult_bind] in H. unfold Py.dict_getitem in H.
      destruct (_ !! ind) as [rate|] eqn:L; [| discriminate].
      injection H as <-.
      apply lookup_insert_Some in L as [[_ <-] | [_ L]];
        [apply Hdone; [cbn; tauto | discriminate] |].
      apply lookup_singleton_Some in L as [_ <-].
      apply Hdone; [cbn; tauto | discriminate].
  - rewrite _map_reference_rate_unknown in H by exact E. discriminate.
Qed.

(** With 7 or 8 tokens the resolver answers or raises [KeyError]. *)
Lemma _map_reference_rate_result (currency : string) (parts : list string) :
  (3 < length parts)%nat ->
  match _map_reference_rate currency parts with
  | Ok _ | Raise (KeyError _) => True
  | Raise _ => False
  end.
Proof.
  intros Hlen.
  destruct (Py.str_in currency ["USD"; "USDD"; "EUR"; "GBP"; "CHF"]) eqn:E.
  - apply str_in_true_iff in E.
    rewrite (_map_reference_rate_table currency parts E).
    assert (Hget : exists ind, Py.getitem parts 3 = Ok ind).
    { unfold Py.getitem. destruct (nth_error parts 3) as [ind|] eqn:N; [eauto |].
      apply nth_error_None in N. lia. }
    destruct Hget as [ind Hget].
    cbn in E.
    destruct E as [<-|[<-|[<-|[<-|[<-|[]]]]]]; try exact I;
      (destruct (length parts =? 8)%nat; [| exact I]);
      rewrite Hget; cbn [mbind PyResult_bind]; unfold Py.dict_getitem;
      destruct (_ !! ind); exact I.
  - rewrite _map_reference_rate_unknown by exact E. exact I.
Qed.

End ParserFurther.

(** X1. Whatever the parser accepts has a currency, an option expiry and a
    swap tenor of the enumerations and a rate of the table, and is accepted
    by the validator of API requests; the clean record built from it passes
    its validation whenever the value is positive and the expression has at
    most 200 characters. *)
Theorem parse_result_is_valid (expression c x y r : string) :
  _parse_expression expression = Ok (c, x, y, r) ->
  In c CurrencyEnum_values
  /\ In x OptionExpiryEnum_values
  /\ In y SwapTenorEnum_values
  /\ In r ["Libor"; "SOFR"; "Euribor"; "SARON"]
  /\ validate_expression_format expression = true
  /\ (forall (d : Date) (v : float) (id : Z),
        PrimFloat.ltb 0 v = true ->
        (String.length expression <= 200)%nat ->
        CleanData.new expression d c x y r v id
        = Ok (CleanData.mk None expression d c x y r v id)).
Proof.
  intros H. apply _parse_expression_Ok_inv in H. cbv zeta in H.
  set (parts := Py.split "," (Py.slice_3_m1 expression)) in *.
  destruct H as (Hs & He & H0 & H1 & currency & H2 & -> & Hshape & Hx & Hy & Hm).
  apply _map_reference_rate_Some_inv in Hm as (Hc & Hr & _).
  assert (Hnorm : In (if String.eqb currency "USDD" then "USD" else currency)
                    CurrencyEnum_values).
  { cbn in Hc |- *. destruct Hc as [<-|[<-|[<-|[<-|[<-|[]]]]]]; cbn; tauto. }
  split; [exact Hnorm |]. split; [exact Hx |]. split; [exact Hy |].
  split; [exact Hr |]. split.
  - unfold validate_expression_format. rewrite Hs, He. cbn [negb orb].
    fold parts.
    assert (Hlen : (length parts =? 7)%nat || (length parts =? 8)%nat = true).
    { destruct Hshape as [[L _] | [L _]]; rewrite L; reflexivity. }
    rewrite Hlen. cbn [negb].
    destruct parts as [|p0 [|p1 rest]]; try discriminate.
    cbn in H0, H1. injection H0 as ->. injection H1 as ->. reflexivity.
  - intros d v id Hv Hlen. unfold CleanData.new.
    apply Nat.leb_le in Hlen. rewrite Hlen, Hv.
    cbn in Hc, Hx, Hy, Hr.
    destruct Hc as [<-|[<-|[<-|[<-|[<-|[]]]]]];
      destruct Hx as [<-|[<-|[]]];
      destruct Hy as [<-|[<-|[<-|[]]]];
      destruct Hr as [<-|[<-|[<-|[<-|[]]]]];
      reflexivity.
Qed.

Lemma parse_result_is_valid_witness :
  In "GBP" CurrencyEnum_values
  /\ validate_expression_format "DB(COV,VOLSWAPTION,GBP,SONIA,10y,5y,X,Y)" = true.
Proof.
  destruct (parse_result_is_valid "DB(COV,VOLSWAPTION,GBP,SONIA,10y,5y,X,Y)"
              "GBP" "5y" "10y" "SOFR") as (Hc & _ & _ & _ & Hv & _).
  - vm_compute. reflexivity.
  - split; assumption.
Defined.

(** X2. A parsed expression is in the adjusted pair (USD, SOFR) exactly when
    its currency token is USDD, so the value of a parsed expression is
    multiplied by sqrt(252) for the USDD token and passed through for every
    other. *)
Theorem adjusted_iff_usdd_token (expression c x y r : string) :
  _parse_expression expression = Ok (c, x, y, r) ->
  ((c, r) = ("USD", "SOFR")
   <-> nth_error (Py.split "," (Py.slice_3_m1 expression)) 2 = Some "USDD")
  /\ (forall v : float,
        _apply_value_transformations v c r
        = match nth_error (Py.split "," (Py.slice_3_m1 expression)) 2 with
          | Some "USDD" => PrimFloat.mul v (PrimFloat.sqrt 252)
          | _ => v
          end).
Proof.
  intros H. apply _parse_expression_Ok_inv in H. cbv zeta in H.
  set (parts := Py.split "," (Py.slice_3_m1 expression)) in *.
  destruct H as (_ & _ & _ & _ & currency & H2 & -> & _ & _ & _ & Hm).
  pose proof (_map_reference_rate_Some_inv _ _ _ Hm) as (Hc & Hr & Hsofr).
  rewrite H2. rewrite (_map_reference_rate_table currency parts Hc) in Hm.
  cbn in Hc.
  destruct Hc as [<-|[<-|[<-|[<-|[<-|[]]]]]]; cbn [String.eqb Ascii.eqb Bool.eqb];
    try (injection Hm as <-; split;
         [split; [discriminate || reflexivity | discriminate || reflexivity]
         | reflexivity]).
  - split; [split; discriminate |]. intros v.
    unfold _apply_value_transformations. reflexivity.
  - split; [split; discriminate |]. intros v.
    unfold _apply_value_transformations. reflexivity.
Qed.

Lemma adjusted_iff_usdd_token_witness :
  _apply_value_transformations 100 "GBP" "SOFR" = 100%float.
Proof.
  exact (proj2 (adjusted_iff_usdd_token
                  "DB(COV,VOLSWAPTION,GBP,SONIA,10y,5y,PAYER,VOLBPVOL)"
                  "GBP" "5y" "10y" "SOFR" eq_refl) 100%float).
Defined.

(** Settles a leaf of the comparison of the request validator with the
    parser. *)
Ltac settle_shape :=
  split;
  [ first [ discriminate
          | intros _; eexists; split; [reflexivity | exact I] ]
  | first [ reflexivity
          | let e := fresh "e" in
            let Heq := fresh "Heq" in
            let Hs := fresh "Hs" in
            intros [e [Heq Hs]];
            first [ discriminate Heq | injection Heq as <-; destruct Hs ] ] ].

(** X3. The validator of API requests rejects exactly the expressions on
    which the parser fails with a wrapper, prefix or token-count error or
    with the [IndexError] of a body that is the single token COV: an accepted
    expression is parsed, or fails on its indicator, a tenor or the rate
    mapping. *)
Theorem request_validator_rejects_shape_errors (expression : string) :
  validate_expression_format expression = false
  <-> exists e, _parse_expression expression = Raise e /\ shape_error e.
Proof.
  unfold validate_expression_format, _parse_expression.
  destruct (Py.startswith expression "DB("); [| settle_shape].
  destruct (Py.endswith expression ")"); [| settle_shape].
  cbn [negb orb].
  set (parts := Py.split "," (Py.slice_3_m1 expression)).
  assert (Htail : forall currency x y,
    (3 < length parts)%nat ->
    forall e,
      (if negb (Py.str_in x OptionExpiryEnum_values)
       then Raise (ValueError (InvalidXTenor x))
       else if negb (Py.str_in y SwapTenorEnum_values)
       then Raise (ValueError (InvalidYTenor y))
       else
         ref_rate ← _map_reference_rate currency parts;
         match ref_rate with
         | None => Raise (ValueError (CouldNotMapReferenceRate currency))
         | Some ref_rate =>
             if negb (Py.truthy ref_rate)
             then Raise (ValueError (CouldNotMapReferenceRate currency))
             else
               let normalized_currency :=
                 if String.eqb currency "USDD" then "USD" else currency in
               if negb (forallb Py.truthy [normalized_currency; x; y; ref_rate])
               then Raise (ValueError MissingRequiredFields)
               else Ok (normalized_currency, x, y, ref_rate)
         end) = Raise e -> ~ shape_error e).
  { intros currency x y Hlen e.
    destruct (negb (Py.str_in x OptionExpiryEnum_values));
      [intros [= <-] []|].
    destruct (negb (Py.str_in y SwapTenorEnum_values));
      [intros [= <-] []|].
    pose proof (_map_reference_rate_result currency parts Hlen) as Hres.
    destruct (_map_reference_rate currency parts) as [[rate|]|err];
      cbn [mbind PyResult_bind].
    - destruct (negb (Py.truthy rate)); [intros [= <-] []|]. cbv zeta.
      destruct (negb (forallb Py.truthy _)); [intros [= <-] [] | discriminate].
    - intros [= <-] [].
    - destruct err; try destruct Hres. intros [= <-] []. }
  clearbody parts.
  destruct parts as [|p0 [|p1 rest]].
  - settle_shape.
  - cbn [Py.getitem nth_error mbind PyResult_bind length Nat.eqb orb negb].
    destruct (String.eqb p0 "COV"); cbn [negb mbind PyResult_bind];
      settle_shape.
  - cbn [Py.getitem nth_error mbind PyResult_bind].
    destruct (String.eqb p0 "COV"); cbn [negb andb mbind PyResult_bind];
      [| destruct (negb _); settle_shape].
    destruct (String.eqb p1 "VOLSWAPTION"); cbn [negb andb mbind PyResult_bind];
      [| destruct (negb _); settle_shape].
    destruct (Nat.eqb_spec (length (p0 :: p1 :: rest)) 7) as [L7 | L7].
    + cbn [orb negb].
      destruct rest as [|p2 [|p3 [|p4 rest]]]; try discriminate L7.
      cbn [Py.getitem nth_error mbind PyResult_bind].
      split; [discriminate |]. intros [e [Heq Hs]]. exfalso.
      eapply (Htail p2 p4 p3); [cbn [length]; lia | exact Heq | exact Hs].
    + destruct (Nat.eqb_spec (length (p0 :: p1 :: rest)) 8) as [L8 | L8].
      * cbn [orb negb].
        destruct rest as [|p2 [|p3 [|p4 [|p5 rest]]]]; try discriminate L8.
        cbn [Py.getitem nth_error mbind PyResult_bind].
        split; [discriminate |]. intros [e [Heq Hs]]. exfalso.
        destruct (Py.str_in p2 ["GBP"; "CHF"]
                  && negb (Py.str_in p3 ["SONIA"; "SARON"]));
          cbn [mbind PyResult_bind] in Heq.
        -- injection Heq as <-. destruct Hs.
        -- eapply (Htail p2 p5 p4); [cbn [length]; lia | exact Heq | exact Hs].
      * cbn [orb negb mbind PyResult_bind]. settle_shape.
Qed.

(** X4. The sample expressions: 24 new codes and 18 old codes, all
    different, the third list being the new codes followed by the old ones;
    the mode default works on the new codes, old_codes on all and historical
    on the old ones.  Every sample expression is accepted by the request
    validator and by the parser; the old codes all resolve to Libor and no
    new code does. *)
Theorem sample_expressions_are_well_formed :
  exists new_codes old_codes,
    create_sample_expressions !! "new_codes" = Some new_codes
    /\ create_sample_expressions !! "old_codes" = Some old_codes
    /\ create_sample_expressions !! "all_codes" = Some (new_codes ++ old_codes)%list
    /\ get_expressions_for_mode DEFAULT = Ok new_codes
    /\ get_expressions_for_mode OLD_CODES = Ok (new_codes ++ old_codes)%list
    /\ get_expressions_for_mode HISTORICAL = Ok old_codes
    /\ length new_codes = 24%nat
    /\ length old_codes = 18%nat
    /\ NoDup (new_codes ++ old_codes)
    /\ Forall
         (fun e =>
            validate_expression_format e = true
            /\ exists c x y r,
                 _parse_expression e = Ok (c, x, y, r) /\ r <> "Libor")
         new_codes
    /\ Forall
         (fun e =>
            validate_expression_format e = true
            /\ exists c x y, _parse_expression e = Ok (c, x, y, "Libor"))
         old_codes.
Proof.
  eexists. eexists.
  split; [vm_compute; reflexivity |].
  split; [vm_compute; reflexivity |].
  split; [vm_compute; reflexivity |].
  split; [vm_compute; reflexivity |].
  split; [vm_compute; reflexivity |].
  split; [vm_compute; reflexivity |].
  split; [reflexivity |]. split; [reflexivity |].
  split.
  - apply (bool_decide_unpack _). vm_compute. exact I.
  - split.
    + repeat (apply Forall_cons; split;
              [split; [vm_compute; reflexivity |];
               do 4 eexists; split; [vm_compute; reflexivity | discriminate] |]).
      apply Forall_nil. exact I.
    + repeat (apply Forall_cons; split;
              [split; [vm_compute; reflexivity |];
               do 3 eexists; vm_compute; reflexivity |]).
      apply Forall_nil. exact I.
Qed.

(** ** Further properties of the extractor *)

Section ExtractorFurther.

Variable utcnow : nat -> Timestamp.
Variable random_uniform : string -> Date -> Date -> nat -> float.
Variable blob_filename : string -> Date -> Date -> Timestamp -> string.
Variable open_fails : string -> bool.

Local Abbreviation extract := (extract_data utcnow random_uniform blob_filename open_fails).
Local Abbreviation extract_all :=
  (extract_expressions utcnow random_uniform blob_filename open_fails).
Local Abbreviation extract_one :=
  (extract_expression utcnow random_uniform blob_filename open_fails).
Local Abbreviation insert_frame := (_insert_raw_data utcnow).
Local Abbreviation fetch := (get_historical_data random_uniform).

(** *** The mock API *)

Lemma bdate_range_In (start_date end_date d : Date) :
  In d (bdate_range start_date end_date)
  <-> start_date <= d <= end_date /\ weekday d < 5.
Proof.
  unfold bdate_range. rewrite filter_In, in_map_iff, Z.ltb_lt. split.
  - intros [[i [<- Hi]] Hw]. apply in_seq in Hi. split; [lia | exact Hw].
  - intros [Hd Hw]. split; [| exact Hw].
    exists (Z.to_nat (d - start_date)). split; [lia |].
    apply in_seq. lia.
Qed.

Lemma range_from_sorted (start_date : Date) (n : nat) :
  forall k : nat,
    StronglySorted Z.lt (map (fun i => start_date + Z.of_nat i) (seq k n)).
Proof.
  induction n as [|n IH]; intros k; cbn [seq map]; constructor.
  - apply IH.
  - apply Forall_forall. intros d Hd.
    apply list_elem_of_In, in_map_iff in Hd as [i [<- Hi]].
    apply in_seq in Hi. lia.
Qed.

Lemma StronglySorted_filter_lt (f : Z -> bool) (l : list Z) :
  StronglySorted Z.lt l -> StronglySorted Z.lt (List.filter f l).
Proof.
  induction 1 as [|a l Hs IH Ha]; cbn [List.filter]; [constructor |].
  destruct (f a); [| exact IH].
  constructor; [exact IH |].
  apply Forall_forall. intros d Hd. apply list_elem_of_In, filter_In in Hd as [Hd _].
  rewrite Forall_forall in Ha. apply Ha. now apply list_elem_of_In.
Qed.

Lemma map_fst_combine {A B} (l : list A) (k : list B) :
  (length l <= length k)%nat -> map fst (combine l k) = l.
Proof.
  revert k. induction l as [|a l IH]; intros [|b k] Hlen; cbn in *;
    try reflexivity; try lia.
  f_equal. apply IH. lia.
Qed.

Lemma get_historical_data_dates (expression : string) (start_date end_date : Date) :
  map fst (fetch expression start_date end_date) = bdate_range start_date end_date.
Proof.
  unfold get_historical_data. apply map_fst_combine.
  rewrite length_map, length_seq. lia.
Qed.

End ExtractorFurther.

(** X5. The mock API returns one row for each Monday to Friday of the closed
    date range and for no other day, in strictly ascending order of date;
    in particular it returns nothing when the end date is before the start
    date. *)
Theorem get_historical_data_business_days
    (random_uniform : string -> Date -> Date -> nat -> float)
    (expression : string) (start_date end_date : Date) :
  let df := get_historical_data random_uniform expression start_date end_date in
  (forall d, In d (map fst df)
             <-> start_date <= d <= end_date /\ weekday d < 5)
  /\ StronglySorted Z.lt (map fst df)
  /\ (end_date < start_date -> df = []).
Proof.
  cbv zeta. rewrite get_historical_data_dates. split; [| split].
  - intros d. apply bdate_range_In.
  - unfold bdate_range. apply StronglySorted_filter_lt, range_from_sorted.
  - intros Hlt. unfold get_historical_data, bdate_range.
    replace (Z.to_nat (end_date - start_date + 1)) with 0%nat by lia.
    reflexivity.
Qed.

Lemma get_historical_data_business_days_witness :
  get_historical_data (fun _ _ _ _ => 0%float) "DB(COV)" 738003 738000 = [].
Proof.
  apply (proj2 (proj2 (get_historical_data_business_days
                         (fun _ _ _ _ => 0%float) "DB(COV)" 738003 738000))).
  lia.
Defined.

Section ExtractorEffects.

Variable utcnow : nat -> Timestamp.
Variable random_uniform : string -> Date -> Date -> nat -> float.
Variable blob_filename : string -> Date -> Date -> Timestamp -> string.
Variable open_fails : string -> bool.

Local Abbreviation extract := (extract_data utcnow random_uniform blob_filename open_fails).
Local Abbreviation extract_all :=
  (extract_expressions utcnow random_uniform blob_filename open_fails).
Local Abbreviation extract_one :=
  (extract_expression utcnow random_uniform blob_filename open_fails).
Local Abbreviation insert_frame := (_insert_raw_data utcnow).
Local Abbreviation fetch := (get_historical_data random_uniform).

(** A version below 1 is computed only over a stored row of the key with a
    negative version. *)
Lemma select_next_version_lt_1 (session : list RawData.t) (expression : string)
    (date : Date) :
  select_next_version session expression date < 1 ->
  exists r,
    In r session /\ RawData.expression r = expression /\ RawData.date r = date
    /\ RawData.version r < 0.
Proof.
  intros Hlt.
  pose proof (select_next_version_spec session expression date) as Hspec.
  destruct (sql_max (versions_of session expression date)) as [m|] eqn:E.
  - destruct Hspec as (Hin & _ & _).
    unfold versions_of in Hin. apply in_map_iff in Hin as (r & Hv & Hr).
    unfold select_raw in Hr. apply filter_In in Hr as [Hr Hk].
    apply raw_key_matches_iff in Hk as [He Hd].
    exists r. repeat split; try assumption.
    unfold select_next_version in Hlt. fold (versions_of session expression date) in Hlt.
    rewrite E in Hlt. cbn [coalesce] in Hlt.
    destruct (Z.eqb_spec (m + 1) 0); lia.
  - destruct Hspec as [_ H1]. lia.
Qed.

(** One row of the frame: a validation error and no change, for a row that
    is refused, or the row appended with the fields of the call. *)
Lemma insert_raw_row_cases (session : list RawData.t) (row : Date * float)
    (expression blob_uri : string) (mode : RunModeEnum) (ts : Timestamp) :
  ((exists model,
       insert_raw_row session row expression blob_uri mode ts
       = (Raise (ValidationError model), session))
   /\ row_refused session expression blob_uri row)
  \/ (insert_raw_row session row expression blob_uri mode ts
      = (Ok tt,
         (session
          ++ [RawData.mk (Some (next_raw_id session)) expression (fst row)
                (snd row) ts (select_next_version session expression (fst row))
                (RunModeEnum_value mode) blob_uri])%list)
      /\ PrimFloat.ltb 0 (snd row) = true
      /\ 1 <= select_next_version session expression (fst row)
      /\ (String.length expression <= 200)%nat
      /\ (String.length blob_uri <= 500)%nat).
Proof.
  unfold insert_raw_row, APIResponse_new, row_refused.
  destruct row as [d v]. cbn [fst snd].
  destruct (PrimFloat.ltb 0 v) eqn:Hv;
    [| left; split; [eexists; reflexivity | now left]].
  unfold RawData.new. rewrite Hv.
  destruct (Nat.leb_spec (String.length expression) 200) as [Hl | Hl];
    [| left; split; [eexists; reflexivity | right; left; lia]].
  destruct (Z.leb_spec 1 (select_next_version session expression d)) as [Hver | Hver];
    [| left; split; [eexists; reflexivity |];
       right; right; right; apply select_next_version_lt_1; lia].
  cbn [andb].
  assert (Hmode : Py.str_in (RunModeEnum_value mode) RunModeEnum_values = true)
    by (now destruct mode).
  rewrite Hmode. cbn [andb].
  destruct (Nat.leb_spec (String.length blob_uri) 500) as [Hu | Hu];
    [| left; split; [eexists; reflexivity | right; right; left; lia]].
  right. repeat split; assumption.
Qed.

(** The rows of a frame: appended in order up to the first row that is
    refused, and all of them when none is. *)
Lemma insert_raw_rows_spec (df : list (Date * float)) :
  forall (session : list RawData.t) (expression blob_uri : string)
         (mode : RunModeEnum) (ts : Timestamp) (n : Z),
  exists added,
    snd (insert_raw_rows session df expression blob_uri mode ts n)
    = (session ++ added)%list
    /\ map (fun r => (RawData.date r, RawData.value r)) added
       = firstn (length added) df
    /\ Forall (fun r =>
                 RawData.expression r = expression
                 /\ RawData.fetch_timestamp r = ts
                 /\ RawData.source_file_uri r = blob_uri
                 /\ RawData.ingestion_mode r = RunModeEnum_value mode
                 /\ PrimFloat.ltb 0 (RawData.value r) = true
                 /\ 1 <= RawData.version r
                 /\ (String.length (RawData.expression r) <= 200)%nat
                 /\ RawData.raw_data_id r <> None) added
    /\ match fst (insert_raw_rows session df expression blob_uri mode ts n) with
       | Ok inserted =>
           inserted = n + Z.of_nat (length df) /\ length added = length df
       | Raise e =>
           (length added < length df)%nat
           /\ exists model row,
                e = ValidationError model
                /\ df !! length added = Some row
                /\ row_refused (session ++ added) expression blob_uri row
       end.
Proof.
  induction df as [|row df IH]; intros session expression blob_uri mode ts n;
    cbn [insert_raw_rows].
  - exists []. cbn. rewrite app_nil_r. repeat split; [constructor | lia].
  - destruct (insert_raw_row_cases session row expression blob_uri mode ts)
      as [[[model ->] Href] | [-> (Hv & Hver & Hlen & _)]].
    + exists []. cbn [fst snd length map firstn]. rewrite app_nil_r.
      split; [reflexivity |]. split; [reflexivity |]. split; [constructor |].
      split; [lia |]. exists model, row. repeat split. exact Href.
    + destruct (IH (session
                    ++ [RawData.mk (Some (next_raw_id session)) expression
                          (fst row) (snd row) ts
                          (select_next_version session expression (fst row))
                          (RunModeEnum_value mode) blob_uri])%list
                  expression blob_uri mode ts (n + 1))
        as (added & Hsnd & Hmap & Hall & Hres).
      eexists (_ :: added). split; [rewrite Hsnd, <- app_assoc; reflexivity |].
      split; [cbn [map length firstn RawData.date RawData.value];
              rewrite Hmap; destruct row; reflexivity |].
      split.
      * constructor; [| exact Hall]. cbn. repeat split; auto; discriminate.
      * destruct (fst (insert_raw_rows _ df expression blob_uri mode ts (n + 1)))
          as [inserted | e]; cbn [length].
        -- destruct Hres as [-> ->]. split; [lia | reflexivity].
        -- destruct Hres as (Hlt & model & row' & He & Hrow & Href).
           split; [lia |]. exists model, row'. split; [exact He |].
           split; [exact Hrow |]. rewrite <- app_assoc in Href. exact Href.
Qed.

End ExtractorEffects.

(** X6. A call of [_insert_raw_data] appends rows for a prefix of the frame,
    in the order of the frame: for the whole frame when it returns, and then
    it returns the number of rows of the frame; when it raises, for exactly
    the rows before the first one that is refused, and these stay in the
    session: the row of the frame at the position after them has a value
    that is not positive, or the expression is longer than 200 characters or
    the blob URI longer than 500, or the table holds a negative version for
    its key.  All added rows carry the expression, the mode and the blob URI
    of the call and one fetch time stamp, a positive value and a version of
    at least 1; blobs and logged API calls are untouched and the clock is
    read once. *)
Theorem _insert_raw_data_appends_prefix
    (utcnow : nat -> Timestamp) (w : World) (df : list (Date * float))
    (expression blob_uri : string) (mode : RunModeEnum) :
  let result := fst (_insert_raw_data utcnow w df expression blob_uri mode) in
  let w' := snd (_insert_raw_data utcnow w df expression blob_uri mode) in
  exists added,
    raw_data w' = (raw_data w ++ added)%list
    /\ blob_storage w' = blob_storage w
    /\ api_calls w' = api_calls w
    /\ clock w' = S (clock w)
    /\ map (fun r => (RawData.date r, RawData.value r)) added
       = firstn (length added) df
    /\ Forall (fun r =>
                 RawData.expression r = expression
                 /\ RawData.fetch_timestamp r = utcnow (clock w)
                 /\ RawData.source_file_uri r = blob_uri
                 /\ RawData.ingestion_mode r = RunModeEnum_value mode
                 /\ PrimFloat.ltb 0 (RawData.value r) = true
                 /\ 1 <= RawData.version r
                 /\ (String.length (RawData.expression r) <= 200)%nat
                 /\ RawData.raw_data_id r <> None) added
    /\ match result with
       | Ok inserted =>
           inserted = Z.of_nat (length df) /\ length added = length df
       | Raise e =>
           (length added < length df)%nat
           /\ exists model row,
                e = ValidationError model
                /\ df !! length added = Some row
                /\ row_refused (raw_data w') expression blob_uri row
       end.
Proof.
  cbv zeta. unfold _insert_raw_data.
  destruct (insert_raw_rows_spec df (raw_data w) expression blob_uri mode
              (utcnow (clock w)) 0) as (added & Hsnd & Hmap & Hall & Hres).
  destruct (insert_raw_rows (raw_data w) df expression blob_uri mode
              (utcnow (clock w)) 0) as [res session].
  cbn [fst snd raw_data blob_storage api_calls clock] in *.
  exists added. subst session.
  repeat (split; [first [assumption | reflexivity] |]).
  exact Hres.
Qed.

(** The frame [(d, 80); (d + 1, 0); (d + 2, 81)]: the first row is stored,
    the second is refused, and the call raises with the first row kept. *)
Lemma insert_frame_refused_row_example :
  let df := [(738000, 80%float); (738001, 0%float); (738002, 81%float)] in
  let out :=
    _insert_raw_data (fun n => Z.of_nat n) (mkWorld [] ∅ [] 0) df
      "DB(COV,VOLSWAPTION,EUR,2y,1y,PAYER,VOLBPVOL)" "blob://market-data/f"
      DEFAULT in
  fst out = Raise (ValidationError "APIResponse")
  /\ map (fun r => (RawData.date r, RawData.value r)) (raw_data (snd out))
     = [(738000, 80%float)].
Proof.
  vm_compute. split; reflexivity.
Qed.

Section ExtractorSteps.

Variable utcnow : nat -> Timestamp.
Variable random_uniform : string -> Date -> Date -> nat -> float.
Variable blob_filename : string -> Date -> Date -> Timestamp -> string.
Variable open_fails : string -> bool.

Local Abbreviation extract := (extract_data utcnow random_uniform blob_filename open_fails).
Local Abbreviation extract_all :=
  (extract_expressions utcnow random_uniform blob_filename open_fails).
Local Abbreviation extract_one :=
  (extract_expression utcnow random_uniform blob_filename open_fails).
Local Abbreviation insert_frame := (_insert_raw_data utcnow).
Local Abbreviation fetch := (get_historical_data random_uniform).

Lemma In_firstn {A} (n : nat) (l : list A) (a : A) : In a (firstn n l) -> In a l.
Proof.
  revert l. induction n as [|n IH]; intros [|b l]; cbn; try tauto.
  intros [-> | H]; [now left | right; now apply IH].
Qed.

Lemma inserted_row_ok_blobs (expressions : list string) (start_date end_date : Date)
    (mode : RunModeEnum) (blobs blobs' : gmap string Blob) (r : RawData.t) :
  (forall filename, is_Some (blobs !! filename) -> is_Some (blobs' !! filename)) ->
  inserted_row_ok expressions start_date end_date mode blobs r ->
  inserted_row_ok expressions start_date end_date mode blobs' r.
Proof.
  unfold inserted_row_ok.
  intros Hsub (H1 & H2 & H3 & H4 & H5 & H6 & H7 & H8 & filename & Hf & Hu).
  repeat (split; [assumption |]).
  exists filename. split; [now apply Hsub | exact Hu].
Qed.

Lemma extraction_step_refl (expressions : list string) (start_date end_date : Date)
    (mode : RunModeEnum) (w : World) :
  extraction_step expressions start_date end_date mode w w.
Proof.
  exists [], []. rewrite !app_nil_r. cbn [length].
  split; [reflexivity |]. split; [reflexivity |]. split; [lia |].
  split; [intros filename; now left |]. split; [lia |].
  split; constructor.
Qed.

Lemma extraction_step_trans (expressions : list string) (start_date end_date : Date)
    (mode : RunModeEnum) (w1 w2 w3 : World) :
  extraction_step expressions start_date end_date mode w1 w2 ->
  extraction_step expressions start_date end_date mode w2 w3 ->
  extraction_step expressions start_date end_date mode w1 w3.
Proof.
  intros (a1 & c1 & Ha1 & Hc1 & Hk1 & Hb1 & Hs1 & Hr1 & Hl1)
         (a2 & c2 & Ha2 & Hc2 & Hk2 & Hb2 & Hs2 & Hr2 & Hl2).
  exists (a1 ++ a2)%list, (c1 ++ c2)%list.
  rewrite Ha2, Ha1, Hc2, Hc1, <- !app_assoc.
  split; [reflexivity |]. split; [reflexivity |]. split; [lia |].
  split; [| split; [| split]].
  - intros filename.
    destruct (Hb2 filename) as [Heq | Hnew]; [| now right].
    rewrite Heq. apply Hb1.
  - rewrite length_app. lia.
  - apply Forall_app. split; [| exact Hr2].
    eapply Forall_impl; [exact Hr1 |]. intros r Hr.
    eapply inserted_row_ok_blobs; [| exact Hr].
    intros filename Hsome.
    destruct (Hb2 filename) as [Heq | (blob & Hblob & _)].
    + now rewrite Heq.
    + rewrite Hblob. now eexists.
  - apply Forall_app. split; assumption.
Qed.

Lemma extract_expression_effect (w : World) (metrics : Metrics)
    (expressions : list string) (expression : string) (start_date end_date : Date)
    (mode : RunModeEnum) :
  In expression expressions ->
  let m' := fst (extract_one w metrics expression start_date end_date mode) in
  let w' := snd (extract_one w metrics expression start_date end_date mode) in
  extraction_step expressions start_date end_date mode w w'
  /\ iteration_accounts metrics m' w w'
  /\ (expressions_processed m' - expressions_processed metrics)
     + (errors m' - errors metrics) <= 1.
Proof.
  intros Hin. cbv zeta. unfold extract_expression.
  unfold APIRequest_new.
  destruct (validate_expression_format expression) eqn:Hfmt; cbn [andb];
    [| cbn [fst snd errors expressions_processed]; split;
       [apply extraction_step_refl |];
       split; [unfold iteration_accounts; cbn; repeat split; lia | lia]].
  destruct (validate_date_range start_date end_date);
    [| cbn [fst snd errors expressions_processed]; split;
       [apply extraction_step_refl |];
       split; [unfold iteration_accounts; cbn; repeat split; lia | lia]].
  destruct (_should_fetch_data (raw_data w) expression start_date end_date mode)
    as [[|]|];
    [| cbn [fst snd]; split; [apply extraction_step_refl |];
       split; [unfold iteration_accounts; repeat split; lia | lia]
     | cbn [fst snd errors expressions_processed]; split;
       [apply extraction_step_refl |];
       split; [unfold iteration_accounts; cbn; repeat split; lia | lia]].
  pose proof (get_historical_data_dates random_uniform expression start_date
                end_date) as Hdates.
  assert (Hcall : Forall (fun c : string * Date * Date =>
                            In (fst (fst c)) expressions
                            /\ snd (fst c) = start_date /\ snd c = end_date)
                    [(expression, start_date, end_date)])
    by (constructor; [cbn; auto | constructor]).
  destruct (fetch expression start_date end_date) as [|row df] eqn:Hdf.
  - cbn [fst snd]. split.
    + exists [], [(expression, start_date, end_date)].
      cbn [raw_data blob_storage api_calls clock length]. rewrite !app_nil_r.
      split; [reflexivity |]. split; [reflexivity |]. split; [lia |].
      split; [intros filename; now left |]. split; [lia |].
      split; [constructor | exact Hcall].
    + split; [unfold iteration_accounts; cbn; repeat split; lia | lia].
  - unfold _store_blob. cbn [raw_data blob_storage api_calls clock].
    set (filename := blob_filename expression start_date end_date
                       (utcnow (clock w))).
    set (blob := mkBlob expression start_date end_date (utcnow (1 + clock w))
                   (row :: df)).
    destruct (open_fails filename).
    { cbn [fst snd errors expressions_processed]. split.
      - exists [], [(expression, start_date, end_date)].
        cbn [raw_data blob_storage api_calls clock length]. rewrite !app_nil_r.
        split; [reflexivity |]. split; [reflexivity |]. split; [lia |].
        split; [intros f; now left |]. split; [lia |].
        split; [constructor | exact Hcall].
      - split; [unfold iteration_accounts; cbn; repeat split; lia | lia]. }
    set (w2 := mkWorld (raw_data w) (<[filename := blob]> (blob_storage w))
                 (api_calls w ++ [(expression, start_date, end_date)])
                 (2 + clock w)).
    unfold _insert_raw_data.
    destruct (insert_raw_rows_spec (row :: df) (raw_data w2) expression
                ("blob://market-data/" +:+ filename) mode (utcnow (clock w2)) 0)
      as (added & Hsnd & Hmap & Hall & Hres).
    destruct (insert_raw_rows (raw_data w2) (row :: df) expression
                ("blob://market-data/" +:+ filename) mode (utcnow (clock w2)) 0)
      as [res session].
    cbn [fst snd] in Hsnd, Hres. subst session.
    assert (Hstep : extraction_step expressions start_date end_date mode w
                      (mkWorld (raw_data w2 ++ added) (blob_storage w2)
                         (api_calls w2) (1 + clock w2))).
    { exists added, [(expression, start_date, end_date)].
      cbn [raw_data blob_storage api_calls clock w2 length].
      split; [reflexivity |]. split; [reflexivity |]. split; [lia |].
      split; [| split; [| split; [| exact Hcall]]].
      - intros f. destruct (decide (f = filename)) as [-> | Hne].
        + right. exists blob. split; [apply lookup_insert_eq |].
          unfold blob_of_call. cbn. auto.
        + left. now apply lookup_insert_ne.
      - pose proof (map_size_insert filename blob (blob_storage w)) as Hsize.
        destruct (blob_storage w !! filename); cbn in Hsize; lia.
      - apply Forall_forall. intros r Hr.
        rewrite Forall_forall in Hall.
        destruct (Hall r Hr) as (He & _ & Hu & Hm & Hv & Hver & _ & Hid).
        assert (Hd : In (RawData.date r) (map fst (row :: df))).
        { apply list_elem_of_In in Hr.
          apply (in_map (fun r => (RawData.date r, RawData.value r))) in Hr.
          rewrite Hmap in Hr. apply In_firstn in Hr.
          apply (in_map fst) in Hr. exact Hr. }
        rewrite Hdates in Hd. apply bdate_range_In in Hd as [Hrange Hwd].
        unfold inserted_row_ok. rewrite He.
        repeat (split; [assumption |]).
        exists filename. split; [| exact Hu].
        rewrite lookup_insert_eq. now eexists. }
    destruct res as [inserted | e]; cbn [fst snd].
    + destruct Hres as [-> Hlen]. split; [exact Hstep |].
      split; [| cbn; lia].
      unfold iteration_accounts.
      cbn [raw_data rows_fetched rows_inserted duplicates_detected errors
           expressions_processed w2].
      rewrite length_app, Hlen. repeat split; lia.
    + destruct Hres as [Hlt _]. split; [exact Hstep |].
      split; [| cbn; lia].
      unfold iteration_accounts.
      cbn [raw_data rows_fetched rows_inserted duplicates_detected errors
           expressions_processed w2].
      rewrite length_app. repeat split; lia.
Qed.

Lemma iteration_accounts_trans (m1 m2 m3 : Metrics) (w1 w2 w3 : World) :
  iteration_accounts m1 m2 w1 w2 ->
  iteration_accounts m2 m3 w2 w3 ->
  iteration_accounts m1 m3 w1 w3.
Proof.
  unfold iteration_accounts.
  intros (A1 & A2 & A3 & A4 & A5 & A6) (B1 & B2 & B3 & B4 & B5 & B6).
  repeat split; lia.
Qed.

Lemma extract_expressions_effect (todo : list string) :
  forall (w : World) (metrics : Metrics) (expressions : list string)
         (start_date end_date : Date) (mode : RunModeEnum),
    (forall e, In e todo -> In e expressions) ->
    let m' := fst (extract_all w metrics todo start_date end_date mode) in
    let w' := snd (extract_all w metrics todo start_date end_date mode) in
    extraction_step expressions start_date end_date mode w w'
    /\ iteration_accounts metrics m' w w'
    /\ (expressions_processed m' - expressions_processed metrics)
       + (errors m' - errors metrics) <= Z.of_nat (length todo).
Proof.
  induction todo as [|expression rest IH];
    intros w metrics expressions start_date end_date mode Hsub; cbv zeta;
    cbn [extract_expressions fst snd length].
  - split; [apply extraction_step_refl |].
    split; [unfold iteration_accounts; repeat split; lia | lia].
  - destruct (extract_expression_effect w metrics expressions expression
                start_date end_date mode (Hsub _ (or_introl eq_refl)))
      as (S1 & A1 & C1).
    destruct (extract_one w metrics expression start_date end_date mode)
      as [m1 w1].
    cbn [fst snd] in S1, A1, C1.
    destruct (IH w1 m1 expressions start_date end_date mode
                (fun e He => Hsub e (or_intror He))) as (S2 & A2 & C2).
    split; [eapply extraction_step_trans; eassumption |].
    split; [eapply iteration_accounts_trans; eassumption | lia].
Qed.

(** A request that fails its validation is counted as an error and changes
    nothing. *)
Lemma extract_expressions_all_invalid (todo : list string) :
  forall (w : World) (metrics : Metrics) (start_date end_date : Date)
         (mode : RunModeEnum),
    (end_date < start_date
     \/ Forall (fun e => validate_expression_format e = false) todo) ->
    extract_all w metrics todo start_date end_date mode
    = (mkMetrics (expressions_processed metrics) (rows_fetched metrics)
         (rows_inserted metrics) (duplicates_detected metrics)
         (errors metrics + Z.of_nat (length todo)), w).
Proof.
  induction todo as [|expression rest IH];
    intros w metrics start_date end_date mode H; cbn [extract_expressions length].
  - destruct metrics. cbn. f_equal. f_equal. lia.
  - assert (Hreq : APIRequest_new expression start_date end_date
                   = Raise (ValidationError "APIRequest")).
    { unfold APIRequest_new, validate_date_range.
      destruct H as [Hlt | Hall].
      - apply Z.ltb_lt in Hlt. rewrite Hlt. now rewrite andb_false_r.
      - apply Forall_cons in Hall as [-> _]. reflexivity. }
    unfold extract_expression. rewrite Hreq.
    rewrite IH.
    + cbn [expressions_processed rows_fetched rows_inserted duplicates_detected
           errors]. f_equal. f_equal. lia.
    + destruct H as [Hlt | Hall]; [now left | right].
      now apply Forall_cons in Hall as [_ Hall].
Qed.

End ExtractorSteps.

(** X7. What an extraction call may change.  The rows and the logged API
    calls it found are still there, in place and unchanged, with new ones
    after them, and the clock has not gone back.  A file of the blob
    directory is what it was, or it holds a blob written by this call, for
    one of the given expressions and the requested range (a file of the same
    name is overwritten); no file disappears, and the directory grows by no
    more files than API calls were made.  Every row added is for one of the
    given expressions, which the request validator accepts, has a date on a
    Monday to Friday of the requested range, a positive value, a version of
    at least 1, the mode of the call, a key, and the URI of a blob file that
    is in the directory; every API call made is for one of the expressions
    and the requested range.  This holds whether the call returns or raises,
    and whether or not a blob file could be opened. *)
Theorem extract_data_only_appends
    (utcnow : nat -> Timestamp)
    (random_uniform : string -> Date -> Date -> nat -> float)
    (blob_filename : string -> Date -> Date -> Timestamp -> string)
    (open_fails : string -> bool)
    (w : World) (expressions : list string) (start_date end_date : Date)
    (mode : RunModeEnum) :
  extraction_step expressions start_date end_date mode w
    (snd (extract_data utcnow random_uniform blob_filename open_fails w expressions
            start_date end_date mode)).
Proof.
  unfold extract_data.
  destruct (_ && _); [apply extraction_step_refl |].
  destruct (extract_expressions_effect utcnow random_uniform blob_filename open_fails
              expressions w (mkMetrics 0 0 0 0 0) expressions start_date end_date
              mode (fun e He => He)) as (Hstep & _).
  destruct (extract_expressions utcnow random_uniform blob_filename open_fails w
              (mkMetrics 0 0 0 0 0) expressions start_date end_date mode)
    as [metrics w'].
  exact Hstep.
Qed.

(** X8. The metrics of an extraction call that returns: the counter of
    duplicates is 0, rows inserted equals rows fetched, expressions processed
    and errors are not negative and together at most the number of
    expressions, and rows inserted is at most the number of rows added to the
    table, and equal to it when no error was counted (the rows added before a
    validation error inside a frame are stored but not counted). *)
Theorem extract_data_metrics
    (utcnow : nat -> Timestamp)
    (random_uniform : string -> Date -> Date -> nat -> float)
    (blob_filename : string -> Date -> Date -> Timestamp -> string)
    (open_fails : string -> bool)
    (w w' : World) (expressions : list string) (start_date end_date : Date)
    (mode : RunModeEnum) (metrics : Metrics) :
  extract_data utcnow random_uniform blob_filename open_fails w expressions start_date
    end_date mode = (Ok metrics, w') ->
  duplicates_detected metrics = 0
  /\ rows_inserted metrics = rows_fetched metrics
  /\ 0 <= rows_inserted metrics
     <= Z.of_nat (length (raw_data w')) - Z.of_nat (length (raw_data w))
  /\ 0 <= expressions_processed metrics
  /\ 0 <= errors metrics
  /\ expressions_processed metrics + errors metrics
     <= Z.of_nat (length expressions)
  /\ (errors metrics = 0 ->
      rows_inserted metrics
      = Z.of_nat (length (raw_data w')) - Z.of_nat (length (raw_data w))).
Proof.
  unfold extract_data.
  destruct (_ && _); [discriminate |].
  destruct (extract_expressions_effect utcnow random_uniform blob_filename open_fails
              expressions w (mkMetrics 0 0 0 0 0) expressions start_date end_date
              mode (fun e He => He)) as (_ & Hacc & Hcount).
  destruct (extract_expressions utcnow random_uniform blob_filename open_fails w
              (mkMetrics 0 0 0 0 0) expressions start_date end_date mode)
    as [m1 w1].
  intros [= <- <-]. cbn [fst snd] in Hacc, Hcount.
  unfold iteration_accounts in Hacc.
  cbn [duplicates_detected rows_fetched rows_inserted expressions_processed
       errors] in Hacc, Hcount.
  destruct Hacc as (A1 & A2 & A3 & A4 & A5 & A6).
  repeat split; lia.
Qed.

Lemma extract_data_metrics_witness :
  let e := "DB(COV,VOLSWAPTION,EUR,2y,1y,PAYER,VOLBPVOL)" in
  let run :=
    extract_data (fun n => Z.of_nat n) (fun _ _ _ _ => 0%float)
      (fun x _ _ _ => x) (fun _ => false) (mkWorld [] ∅ [] 0) [e; "DB(COV)"; e] 738000 738004
      HISTORICAL in
  fst run = Ok (mkMetrics 2 6 6 0 1)
  /\ Z.of_nat (length (raw_data (snd run))) = 6.
Proof.
  cbv zeta. split; [vm_compute; reflexivity |].
  pose proof (extract_data_metrics (fun n => Z.of_nat n) (fun _ _ _ _ => 0%float)
                (fun x _ _ _ => x) (fun _ => false) (mkWorld [] ∅ [] 0)
                (snd (extract_data (fun n => Z.of_nat n) (fun _ _ _ _ => 0%float)
                        (fun x _ _ _ => x) (fun _ => false) (mkWorld [] ∅ [] 0)
                        ["DB(COV,VOLSWAPTION,EUR,2y,1y,PAYER,VOLBPVOL)"; "DB(COV)";
                         "DB(COV,VOLSWAPTION,EUR,2y,1y,PAYER,VOLBPVOL)"]
                        738000 738004 HISTORICAL))
                ["DB(COV,VOLSWAPTION,EUR,2y,1y,PAYER,VOLBPVOL)"; "DB(COV)";
                 "DB(COV,VOLSWAPTION,EUR,2y,1y,PAYER,VOLBPVOL)"]
                738000 738004 HISTORICAL (mkMetrics 2 6 6 0 1)
                ltac:(vm_compute; reflexivity)) as (_ & _ & H & _).
  vm_compute. reflexivity.
Defined.

(** X9. When the end date is before the start date, or when the request
    validator rejects every expression, a call that passes the date check of
    its mode counts one error for each expression and changes nothing: no API
    call, no blob, no row. *)
Theorem extract_data_invalid_requests
    (utcnow : nat -> Timestamp)
    (random_uniform : string -> Date -> Date -> nat -> float)
    (blob_filename : string -> Date -> Date -> Timestamp -> string)
    (open_fails : string -> bool)
    (w : World) (expressions : list string) (start_date end_date : Date)
    (mode : RunModeEnum) :
  mode = HISTORICAL \/ start_date = end_date ->
  end_date < start_date
  \/ Forall (fun e => validate_expression_format e = false) expressions ->
  extract_data utcnow random_uniform blob_filename open_fails w expressions start_date
    end_date mode
  = (Ok (mkMetrics 0 0 0 0 (Z.of_nat (length expressions))), w).
Proof.
  intros Hmode Hbad. unfold extract_data.
  assert (Hcheck :
    match mode with DEFAULT | OLD_CODES => true | HISTORICAL => false end
    && negb (start_date =? end_date) = false).
  { destruct Hmode as [-> | ->]; [reflexivity |].
    rewrite Z.eqb_refl. apply andb_false_r. }
  rewrite Hcheck.
  rewrite (extract_expressions_all_invalid utcnow random_uniform blob_filename open_fails
             expressions w (mkMetrics 0 0 0 0 0) start_date end_date mode Hbad).
  reflexivity.
Qed.

Lemma extract_data_invalid_requests_witness :
  extract_data (fun n => Z.of_nat n) (fun _ _ _ _ => 0%float) (fun x _ _ _ => x) (fun _ => false)
    (mkWorld [] ∅ [] 0)
    ["DB(COV,VOLSWAPTION,EUR,2y,1y,PAYER,VOLBPVOL)";
     "DB(COV,VOLSWAPTION,USD,2y,1y,PAYER,VOLBPVOL)"] 738004 738000 HISTORICAL
  = (Ok (mkMetrics 0 0 0 0 2), mkWorld [] ∅ [] 0).
Proof.
  apply (extract_data_invalid_requests (fun n => Z.of_nat n)
           (fun _ _ _ _ => 0%float) (fun x _ _ _ => x) (fun _ => false) (mkWorld [] ∅ [] 0)
           ["DB(COV,VOLSWAPTION,EUR,2y,1y,PAYER,VOLBPVOL)";
            "DB(COV,VOLSWAPTION,USD,2y,1y,PAYER,VOLBPVOL)"] 738004 738000
           HISTORICAL).
  - now left.
  - left. lia.
Defined.

(** ** Further properties of the transformer *)

(** X10. The transformation returns the clean records of the selected raw
    rows whose transformation succeeds, in the order of the selection.  Its
    metrics count every selected row once: rows processed is the number of
    selected rows, rows transformed the number of returned records, and rows
    rejected and validation errors together the rest. *)
Theorem transform_raw_data_accounts (session : Database)
    (raw_data_ids : option (list Z)) :
  let selected := _get_raw_data_to_process session raw_data_ids in
  let clean_records := fst (transform_raw_data session raw_data_ids) in
  let metrics := snd (transform_raw_data session raw_data_ids) in
  clean_records = candidates_of selected
  /\ rows_processed metrics = Z.of_nat (length selected)
  /\ rows_transformed metrics = Z.of_nat (length clean_records)
  /\ rows_processed metrics
     = rows_transformed metrics + rows_rejected metrics + validation_errors metrics
  /\ 0 <= rows_rejected metrics
  /\ 0 <= validation_errors metrics.
Proof.
  cbv zeta. unfold transform_raw_data.
  destruct (transform_raw_records_spec
              (_get_raw_data_to_process session raw_data_ids) []
              (mkTransformMetrics 0 0 0 0)) as (H1 & H2 & H3 & H4 & H5 & H6).
  cbn [rows_processed rows_transformed rows_rejected validation_errors app]
    in H1, H2, H3, H4, H5, H6.
  rewrite H1. repeat split; lia.
Qed.

(** X11. Every clean record returned by the transformation comes from a raw
    row of the table: it has the expression and the date of that row, refers
    to its id, has no key of its own, carries the fields that the parser
    reads from the expression, and its value is positive and is the value of
    the row, multiplied by sqrt(252) when the currency token is USDD. *)
Theorem transform_raw_data_provenance (session : Database)
    (raw_data_ids : option (list Z)) (c : CleanData.t) :
  In c (fst (transform_raw_data session raw_data_ids)) ->
  exists r,
    In r (raw_data_table session)
    /\ In r (_get_raw_data_to_process session raw_data_ids)
    /\ candidate_from r c
    /\ In (CleanData.currency c) CurrencyEnum_values
    /\ CleanData.value c
       = match nth_error (Py.split "," (Py.slice_3_m1 (RawData.expression r))) 2 with
         | Some "USDD" => PrimFloat.mul (RawData.value r) (PrimFloat.sqrt 252)
         | _ => RawData.value r
         end.
Proof.
  intros Hc. unfold transform_raw_data in Hc.
  destruct (transform_raw_records_spec
              (_get_raw_data_to_process session raw_data_ids) []
              (mkTransformMetrics 0 0 0 0)) as (H1 & _).
  rewrite H1 in Hc. cbn [app] in Hc.
  apply in_candidates_of in Hc as [r [Hr Ht]].
  exists r. split; [eapply selection_in_raw_table; exact Hr |].
  split; [exact Hr |].
  pose proof (transform_raw_record_Ok r c Ht) as Hfrom.
  split; [exact Hfrom |].
  destruct Hfrom as (_ & _ & _ & _ & Hp & Hv & _).
  pose proof (_parse_expression_Ok_inv _ _ _ _ _ Hp) as Hinv. cbv zeta in Hinv.
  destruct Hinv as (_ & _ & _ & _ & currency & H2 & Hc & _ & _ & _ & Hm).
  pose proof (_map_reference_rate_Some_inv _ _ _ Hm) as (Hcur & _ & _).
  rewrite (_map_reference_rate_table _ _ Hcur) in Hm.
  rewrite Hv, Hc, H2. clear Hv Hp.
  cbn in Hcur.
  destruct Hcur as [<-|[<-|[<-|[<-|[<-|[]]]]]]; cbn [String.eqb Ascii.eqb Bool.eqb];
    try (injection Hm as <-; split; [cbn; tauto | reflexivity]);
    (split; [cbn; tauto | unfold _apply_value_transformations; reflexivity]).
Qed.

Lemma transform_raw_data_provenance_witness :
  let e := "DB(COV,VOLSWAPTION,USDD,2y,1y,PAYER,VOLBPVOL)" in
  let r := RawData.mk (Some 7) e 738000 80 10 1 "default" "blob://market-data/a" in
  let c := CleanData.mk None e 738000 "USD" "1y" "2y" "SOFR"
             (PrimFloat.mul 80 (PrimFloat.sqrt 252)) 7 in
  exists r',
    In r' [r] /\ candidate_from r' c.
Proof.
  cbv zeta.
  destruct (transform_raw_data_provenance
              (mkDatabase
                 [RawData.mk (Some 7) "DB(COV,VOLSWAPTION,USDD,2y,1y,PAYER,VOLBPVOL)"
                    738000 80 10 1 "default" "blob://market-data/a"] [])
              None
              (CleanData.mk None "DB(COV,VOLSWAPTION,USDD,2y,1y,PAYER,VOLBPVOL)"
                 738000 "USD" "1y" "2y" "SOFR"
                 (PrimFloat.mul 80 (PrimFloat.sqrt 252)) 7))
    as (r' & Hr' & _ & Hfrom & _).
  - vm_compute. left. reflexivity.
  - exists r'. split; assumption.
Defined.

(** ** Further properties of the loader *)

Section LoaderOutcome.

Lemma upsert_table_fst (session : Database) (clean_records : list CleanData.t) :
  fst (upsert_table session clean_records)
  = fst (upsert_rows (clean_data_table session) clean_records
           (mkLoadMetrics 0 0 0 0)).
Proof.
  unfold upsert_table.
  now destruct (upsert_rows (clean_data_table session) clean_records
                  (mkLoadMetrics 0 0 0 0)).
Qed.

(** A load of fresh candidates with a value outside the range of the table
    among the readable ones raises and leaves the database as it was. *)
Lemma load_clean_data_refused (engine : Database) (objects : Objects)
    (clean_records : list nat) :
  fresh_candidates objects clean_records ->
  Exists (fun c => reasonable_value_range (CleanData.value c) = false)
    (readable objects clean_records) ->
  exists e,
    load_clean_data engine objects clean_records = (Raise e, engine)
    /\ (e = IntegrityError \/ e = PendingRollbackError).
Proof.
  intros Hfresh Hex.
  pose proof (load_clean_data_fresh engine objects clean_records Hfresh) as Hload.
  cbv zeta in Hload.
  destruct (forallb _ (readable objects clean_records)) eqn:Hall; [| exact Hload].
  exfalso. apply Exists_exists in Hex as (c & Hc & Hrange).
  rewrite forallb_forall in Hall.
  rewrite (Hall c (proj1 (list_elem_of_In _ _) Hc)) in Hrange. discriminate.
Qed.

(** A load of fresh candidates whose readable values are all in the range
    of the table returns, with the table of the upserts on the columns. *)
Lemma load_clean_data_accepted (engine : Database) (objects : Objects)
    (clean_records : list nat) :
  fresh_candidates objects clean_records ->
  Forall (fun c => reasonable_value_range (CleanData.value c) = true)
    (readable objects clean_records) ->
  exists metrics objects' inserted,
    load_clean_data engine objects clean_records
    = (Ok (metrics, objects'),
       mkDatabase (raw_data_table engine)
         (snd (upsert_rows (clean_data_table engine)
                 (readable objects clean_records) (mkLoadMetrics 0 0 0 0))))
    /\ records_processed metrics = Z.of_nat (length clean_records)
    /\ records_inserted metrics
       = records_inserted
           (fst (upsert_rows (clean_data_table engine)
                   (readable objects clean_records) (mkLoadMetrics 0 0 0 0)))
    /\ records_updated metrics
       = records_updated
           (fst (upsert_rows (clean_data_table engine)
                   (readable objects clean_records) (mkLoadMetrics 0 0 0 0)))
    /\ records_failed metrics
       = Z.of_nat (length clean_records)
         - Z.of_nat (length (readable objects clean_records))
    /\ Z.of_nat (length inserted) = records_inserted metrics
    /\ (forall r, In r inserted -> In r clean_records /\ objects' r = Detached)
    /\ (forall r, ~ In r inserted -> objects' r = objects r)
    /\ readable objects' clean_records
       = updated_of (clean_data_table engine) (readable objects clean_records).
Proof.
  intros Hfresh Hall.
  pose proof (load_clean_data_fresh engine objects clean_records Hfresh) as Hload.
  cbv zeta in Hload. apply forallb_range_iff in Hall. rewrite Hall in Hload.
  rewrite upsert_table_snd, upsert_table_fst in Hload. exact Hload.
Qed.

End LoaderOutcome.

(** X12. A load of fresh candidates, that is different objects of which the
    transient ones have no key of their own.  When the values of the
    candidates that can be read are all in the range [1, 2000] of the table,
    the load returns: every candidate is processed, the detached ones are
    counted as failed and the others as inserted or updated, the table grows
    by the number of insertions and the raw table is untouched; a table that
    satisfies its uniqueness constraint satisfies it afterwards, and then
    the number of insertions is the number of different (expression, date)
    pairs among the readable candidates that the table did not have.  When
    some value is outside the range, the load raises the integrity error of
    the commit, or the error of a session whose flush has failed, and the
    database is what it was. *)
Theorem load_clean_data_accounts (engine : Database) (objects : Objects)
    (clean_records : list nat) :
  fresh_candidates objects clean_records ->
  let candidates := readable objects clean_records in
  (Forall (fun c => reasonable_value_range (CleanData.value c) = true) candidates ->
   exists metrics objects' engine',
     load_clean_data engine objects clean_records = (Ok (metrics, objects'), engine')
     /\ records_processed metrics = Z.of_nat (length clean_records)
     /\ records_inserted metrics + records_updated metrics
        = Z.of_nat (length candidates)
     /\ records_failed metrics
        = Z.of_nat (length clean_records) - Z.of_nat (length candidates)
     /\ 0 <= records_inserted metrics
     /\ 0 <= records_updated metrics
     /\ Z.of_nat (length (clean_data_table engine'))
        = Z.of_nat (length (clean_data_table engine)) + records_inserted metrics
     /\ raw_data_table engine' = raw_data_table engine
     /\ (clean_unique (clean_data_table engine) ->
         clean_unique (clean_data_table engine')
         /\ records_inserted metrics
            = Z.of_nat (size (clean_keys candidates
                              ∖ clean_keys (clean_data_table engine)))))
  /\ (Exists (fun c => reasonable_value_range (CleanData.value c) = false)
        candidates ->
      exists e,
        load_clean_data engine objects clean_records = (Raise e, engine)
        /\ (e = IntegrityError \/ e = PendingRollbackError)).
Proof.
  intros Hfresh. cbv zeta. split; [| now apply load_clean_data_refused].
  intros Hall.
  destruct (load_clean_data_accepted engine objects clean_records Hfresh Hall)
    as (metrics & objects' & inserted & Hload & Hp & Hi & Hu & Hf & _).
  pose proof (upsert_rows_spec (readable objects clean_records)
                (clean_data_table engine) (mkLoadMetrics 0 0 0 0)) as Hspec.
  cbv zeta in Hspec.
  destruct (upsert_rows (clean_data_table engine) (readable objects clean_records)
              (mkLoadMetrics 0 0 0 0)) as [mv cleans'].
  cbn [fst snd records_processed records_inserted records_updated records_failed]
    in *.
  destruct Hspec as (H1 & H2 & H3 & H4 & Hins & H5 & H6 & _ & H8).
  exists metrics, objects', (mkDatabase (raw_data_table engine) cleans').
  cbn [clean_data_table raw_data_table].
  split; [exact Hload |]. split; [exact Hp |]. split; [lia |]. split; [exact Hf |].
  split; [lia |]. split; [lia |]. split; [lia |]. split; [reflexivity |].
  intros Hunique. split; [now apply H6 |].
  specialize (H6 Hunique). unfold clean_unique in Hunique, H6.
  assert (S1 : size (clean_keys (clean_data_table engine))
               = length (clean_data_table engine)).
  { unfold clean_keys. rewrite size_list_to_set by exact Hunique. apply length_map. }
  assert (S2 : size (clean_keys cleans') = length cleans').
  { unfold clean_keys. rewrite size_list_to_set by exact H6. apply length_map. }
  rewrite H8, size_union_alt in S2. lia.
Qed.

Lemma load_clean_data_accounts_witness :
  let e := "DB(COV,VOLSWAPTION,EUR,2y,1y,PAYER,VOLBPVOL)" in
  let c d v := CleanData.mk None e d "EUR" "1y" "2y" "Euribor" v 1 in
  let engine := mkDatabase [] [CleanData.mk (Some 1) e 738000 "EUR" "1y" "2y"
                                 "Euribor" 80%float 1] in
  let objects :=
    new_objects [c 738000 81%float; c 738001 82%float; c 738001 83%float] in
  let refused := new_objects [c 738000 81%float; c 738001 2500%float] in
  (exists objects' engine',
      load_clean_data engine objects [0; 1; 2]%nat
      = (Ok (mkLoadMetrics 3 1 2 0, objects'), engine')
      /\ length (clean_data_table engine') = 2%nat
      /\ clean_unique (clean_data_table engine'))
  /\ exists e,
       load_clean_data engine refused [0; 1]%nat = (Raise e, engine)
       /\ (e = IntegrityError \/ e = PendingRollbackError).
Proof.
  cbv zeta.
  match goal with
  | |- (exists objects' engine',
           load_clean_data ?db ?objs ?refs = _ /\ _)
       /\ (exists e, load_clean_data _ ?objs2 ?refs2 = _ /\ _) =>
      pose proof (load_clean_data_accounts db objs refs) as Hok;
      pose proof (load_clean_data_accounts db objs2 refs2) as Hbad
  end.
  cbv zeta in Hok, Hbad. split.
  - destruct Hok as [Hok _].
    { split; [apply NoDup_ListNoDup; repeat constructor; cbn; intuition lia |].
      intros r c' [<- | [<- | [<- | []]]] [= <-]; reflexivity. }
    destruct Hok as (metrics & objects' & engine' & Hload & _ & _ & _ & _ & _
                     & _ & _ & Hunique).
    { repeat constructor; vm_compute; reflexivity. }
    destruct Hunique as [Hunique _].
    { cbn [clean_data_table]. unfold clean_unique. cbn [map]. apply NoDup_singleton. }
    exists objects', engine'.
    pose proof Hload as Hc. vm_compute in Hc.
    injection Hc as Hm _ He. subst metrics.
    split; [exact Hload |]. split; [| exact Hunique].
    rewrite <- He. reflexivity.
  - destruct Hbad as [_ Hbad].
    { split; [apply NoDup_ListNoDup; repeat constructor; cbn; intuition lia |].
      intros r c' [<- | [<- | []]] [= <-]; reflexivity. }
    apply Hbad.
    apply Exists_cons_tl. apply Exists_cons_hd. vm_compute. reflexivity.
Defined.

(** X13. After a load of fresh candidates with values in the range of the
    table, into a table that satisfies its uniqueness constraint: an
    (expression, date) that some readable candidate has is held by exactly
    one row, which carries the six mutable fields of the last readable
    candidate with that (expression, date); the rows of an (expression,
    date) that no readable candidate has are what they were. *)
Theorem load_clean_data_last_candidate_wins (engine : Database) (objects : Objects)
    (clean_records : list nat) (expression : string) (date : Date) :
  clean_unique (clean_data_table engine) ->
  fresh_candidates objects clean_records ->
  Forall (fun c => reasonable_value_range (CleanData.value c) = true)
    (readable objects clean_records) ->
  exists metrics objects' engine',
    load_clean_data engine objects clean_records = (Ok (metrics, objects'), engine')
    /\ match latest_candidate expression date (readable objects clean_records) with
       | None =>
           select_clean (clean_data_table engine') expression date
           = select_clean (clean_data_table engine) expression date
       | Some c =>
           exists row,
             select_clean (clean_data_table engine') expression date = [row]
             /\ carries row c
       end.
Proof.
  intros Hu Hfresh Hall.
  destruct (load_clean_data_accepted engine objects clean_records Hfresh Hall)
    as (metrics & objects' & inserted & Hload & _).
  eexists metrics, objects', _. split; [exact Hload |].
  cbn [clean_data_table].
  exact (upsert_rows_latest (readable objects clean_records)
           (clean_data_table engine) (mkLoadMetrics 0 0 0 0) expression date Hu).
Qed.

Lemma load_clean_data_last_candidate_wins_witness :
  let e := "DB(COV,VOLSWAPTION,EUR,2y,1y,PAYER,VOLBPVOL)" in
  let c v id := CleanData.mk None e 738000 "EUR" "1y" "2y" "Euribor" v id in
  exists metrics objects' engine' row,
    load_clean_data (mkDatabase [] []) (new_objects [c 81%float 5; c 82%float 4])
      [0; 1]%nat
    = (Ok (metrics, objects'), engine')
    /\ select_clean (clean_data_table engine') e 738000 = [row]
    /\ carries row (c 82%float 4).
Proof.
  cbv zeta.
  destruct (load_clean_data_last_candidate_wins (mkDatabase [] [])
              (new_objects
                 [CleanData.mk None "DB(COV,VOLSWAPTION,EUR,2y,1y,PAYER,VOLBPVOL)"
                    738000 "EUR" "1y" "2y" "Euribor" 81%float 5;
                  CleanData.mk None "DB(COV,VOLSWAPTION,EUR,2y,1y,PAYER,VOLBPVOL)"
                    738000 "EUR" "1y" "2y" "Euribor" 82%float 4])
              [0; 1]%nat
              "DB(COV,VOLSWAPTION,EUR,2y,1y,PAYER,VOLBPVOL)" 738000)
    as (metrics & objects' & engine' & Hload & row & Hrow & Hcarries).
  - cbn [clean_data_table]. unfold clean_unique. cbn [map]. constructor.
  - split; [apply NoDup_ListNoDup; repeat constructor; cbn; intuition lia |].
    intros r c' [<- | [<- | []]] [= <-]; reflexivity.
  - repeat constructor; vm_compute; reflexivity.
  - exists metrics, objects', engine', row. auto.
Defined.

(** ** Transformation followed by load *)

Section Convergence.

Lemma StronglySorted_filter {A} (R : A -> A -> Prop) (f : A -> bool) (l : list A) :
  StronglySorted R l -> StronglySorted R (List.filter f l).
Proof.
  induction 1 as [|a l Hs IH Ha]; cbn [List.filter]; [constructor |].
  destruct (f a); [| exact IH].
  constructor; [exact IH |].
  apply Forall_forall. intros d Hd. apply list_elem_of_In, filter_In in Hd as [Hd _].
  rewrite Forall_forall in Ha. apply Ha. now apply list_elem_of_In.
Qed.

Lemma StronglySorted_last {A} (R : A -> A -> Prop) (l : list A) (z : A) :
  StronglySorted R l -> last l = Some z ->
  forall x, In x l -> x = z \/ R x z.
Proof.
  induction 1 as [|a l Hs IH Ha]; intros Hlast x Hx; [destruct Hx |].
  destruct l as [|b l].
  - cbn in Hlast. injection Hlast as <-. destruct Hx as [-> | []]. now left.
  - rewrite last_cons_cons in Hlast.
    assert (Hz : In z (b :: l))
      by (apply list_elem_of_In, last_Some_elem_of; exact Hlast).
    destruct Hx as [<- | Hx].
    + right. rewrite Forall_forall in Ha. apply Ha. now apply list_elem_of_In.
    + now apply IH.
Qed.

(** The candidates of rows in ascending order of raw id are in ascending
    order of their raw reference. *)
Lemma candidates_of_sorted (raw_records : list RawData.t) :
  StronglySorted (fun a b => raw_id_le a b = true) raw_records ->
  StronglySorted (fun a b => CleanData.raw_data_id a <= CleanData.raw_data_id b)
    (candidates_of raw_records).
Proof.
  induction 1 as [|r rest Hs IH Hr]; cbn [candidates_of flat_map]; [constructor |].
  fold (candidates_of rest).
  destruct (transform_raw_record r) as [c|e] eqn:Hc; cbn [app]; [| exact IH].
  constructor; [exact IH |].
  apply Forall_forall. intros c' Hc'.
  apply list_elem_of_In, in_candidates_of in Hc' as [r' [Hr' Hc'']].
  rewrite Forall_forall in Hr.
  apply list_elem_of_In, Hr in Hr'.
  apply transform_raw_record_Ok in Hc as (_ & _ & Hid & _).
  apply transform_raw_record_Ok in Hc'' as (_ & _ & Hid' & _).
  unfold raw_id_le in Hr'. rewrite Hid, Hid' in Hr'. now apply Z.leb_le.
Qed.

Lemma default_selection_sorted (session : Database) :
  StronglySorted (fun a b => raw_id_le a b = true)
    (_get_raw_data_to_process session None).
Proof.
  cbn [_get_raw_data_to_process].
  apply StronglySorted_map_fst, order_by_raw_data_id_sorted.
Qed.

(** The last candidate of an (expression, date) has the greatest raw
    reference among the candidates of the default selection with it. *)
Lemma latest_candidate_greatest (session : Database) (c : CleanData.t) :
  In c (candidates_of (_get_raw_data_to_process session None)) ->
  exists c_last,
    latest_candidate (CleanData.expression c) (CleanData.date c)
      (candidates_of (_get_raw_data_to_process session None)) = Some c_last
    /\ CleanData.raw_data_id c <= CleanData.raw_data_id c_last.
Proof.
  intros Hc. unfold latest_candidate.
  set (cands := candidates_of (_get_raw_data_to_process session None)) in *.
  assert (Hin : In c (List.filter
                        (clean_key_matches (CleanData.expression c)
                           (CleanData.date c)) cands)).
  { apply filter_In. split; [exact Hc |]. now apply clean_key_matches_iff. }
  destruct (last (List.filter
                    (clean_key_matches (CleanData.expression c) (CleanData.date c))
                    cands)) as [c_last|] eqn:Hlast.
  - exists c_last. split; [reflexivity |].
    pose proof (StronglySorted_last _ _ c_last
                  (StronglySorted_filter _ _ _
                     (candidates_of_sorted _ (default_selection_sorted session)))
                  Hlast c Hin) as [-> | Hle]; [lia | exact Hle].
  - apply last_None in Hlast. rewrite Hlast in Hin. destruct Hin.
Qed.

Lemma in_latest_candidate (expression : string) (date : Date)
    (clean_records : list CleanData.t) (c : CleanData.t) :
  latest_candidate expression date clean_records = Some c ->
  In c clean_records /\ clean_key c = (expression, date).
Proof.
  unfold latest_candidate. intros H.
  apply last_Some_elem_of, list_elem_of_In, filter_In in H as [Hin Hk].
  split; [exact Hin | now apply clean_key_matches_key].
Qed.

Lemma select_clean_In (session : list CleanData.t) (expression : string)
    (date : Date) (row : CleanData.t) :
  In row (select_clean session expression date) ->
  In row session /\ CleanData.expression row = expression
  /\ CleanData.date row = date.
Proof.
  unfold select_clean. intros H. apply filter_In in H as [Hin Hk].
  apply clean_key_matches_iff in Hk. tauto.
Qed.

(** A raw row is in the default selection, or has a clean row that refers
    to a raw id that is not smaller. *)
Lemma selected_or_processed (session : Database) (r : RawData.t) (i : Z) :
  clean_unique (clean_data_table session) ->
  In r (raw_data_table session) ->
  RawData.raw_data_id r = Some i ->
  In r (_get_raw_data_to_process session None)
  \/ exists c_old,
       select_clean (clean_data_table session) (RawData.expression r)
         (RawData.date r) = [c_old]
       /\ CleanData.clean_data_id c_old <> None
       /\ i <= CleanData.raw_data_id c_old.
Proof.
  intros Hu Hr Hi.
  pose proof (clean_unique_select_le_1 _ (RawData.expression r) (RawData.date r) Hu)
    as Hlen.
  destruct (select_clean (clean_data_table session) (RawData.expression r)
              (RawData.date r)) as [|c_old [|c2 cs]] eqn:Esel.
  - left. apply in_default_selection. exists None.
    split; [| reflexivity]. apply in_left_outer_join. auto.
  - destruct (unprocessed_or_newer (r, Some c_old)) eqn:Hw.
    + left. apply in_default_selection. exists (Some c_old).
      split; [| exact Hw]. apply in_left_outer_join. split; [exact Hr |].
      rewrite Esel. now left.
    + right. exists c_old. split; [reflexivity |].
      unfold unprocessed_or_newer in Hw. cbn [fst snd] in Hw.
      rewrite Hi in Hw. cbn [sql_gt] in Hw.
      apply orb_false_iff in Hw as [Hid Hlt].
      split; [destruct (CleanData.clean_data_id c_old); congruence |].
      apply Z.ltb_ge in Hlt. exact Hlt.
  - cbn [length] in Hlen. lia.
Qed.

(** A selected raw row, when a clean row of its (expression, date) exists,
    has a greater raw id than the one that row refers to. *)
Lemma selected_newer (session : Database) (r : RawData.t) (c_old : CleanData.t) :
  In r (_get_raw_data_to_process session None) ->
  select_clean (clean_data_table session) (RawData.expression r) (RawData.date r)
  = [c_old] ->
  CleanData.clean_data_id c_old <> None ->
  exists i, RawData.raw_data_id r = Some i /\ CleanData.raw_data_id c_old < i.
Proof.
  intros Hsel Hold Hid.
  apply in_default_selection in Hsel as [oc [Hjoin Hw]].
  apply in_left_outer_join in Hjoin as [_ Hoc]. rewrite Hold in Hoc.
  destruct oc as [c|]; [| discriminate].
  destruct Hoc as [<- | []].
  unfold unprocessed_or_newer in Hw. cbn [fst snd] in Hw.
  destruct (CleanData.clean_data_id c_old); [| congruence].
  cbn [orb] in Hw. unfold sql_gt in Hw.
  destruct (RawData.raw_data_id r) as [i|]; [| discriminate].
  exists i. split; [reflexivity |]. now apply Z.ltb_lt.
Qed.

(** After the load of the candidates of the default selection the clean
    table has caught up. *)
Lemma load_candidates_caught_up (session : Database) (metrics : LoadMetrics) :
  clean_unique (clean_data_table session) ->
  Forall (fun c => CleanData.clean_data_id c <> None) (clean_data_table session) ->
  caught_up
    (mkDatabase (raw_data_table session)
       (snd (upsert_rows (clean_data_table session)
               (candidates_of (_get_raw_data_to_process session None)) metrics))).
Proof.
  intros Hu Hids r c Hr Hc. cbn [raw_data_table clean_data_table] in *.
  set (cands := candidates_of (_get_raw_data_to_process session None)).
  pose proof (upsert_rows_spec cands (clean_data_table session) metrics)
    as Hspec.
  cbv zeta in Hspec. destruct Hspec as (_ & _ & _ & _ & _ & _ & _ & Hids' & _).
  specialize (Hids' Hids).
  pose proof (upsert_rows_latest cands (clean_data_table session) metrics
                (RawData.expression r) (RawData.date r) Hu) as Hlatest.
  cbv zeta in Hlatest.
  set (cleans' := snd (upsert_rows (clean_data_table session) cands metrics))
    in *.
  assert (Hrow_id : forall row,
            select_clean cleans' (RawData.expression r) (RawData.date r) = [row] ->
            CleanData.clean_data_id row <> None).
  { intros row Hrow. rewrite Forall_forall in Hids'. apply Hids'.
    apply list_elem_of_In.
    apply (select_clean_In cleans' (RawData.expression r) (RawData.date r)).
    rewrite Hrow. now left. }
  pose proof (transform_raw_record_Ok r c Hc) as (He & Hd & Hi & _).
  destruct (selected_or_processed session r _ Hu Hr Hi)
    as [Hsel | (c_old & Hold & Hold_id & Hold_le)].
  - (* selected: its candidate is among the loaded ones *)
    assert (Hcand : In c cands) by (apply in_candidates_of; eauto).
    destruct (latest_candidate_greatest session c Hcand) as (c_last & Hlast & Hle).
    fold cands in Hlast. rewrite He, Hd in Hlast. rewrite Hlast in Hlatest.
    destruct Hlatest as (row & Hrow & Hcarries).
    exists row. split; [exact Hrow |]. split; [now apply Hrow_id |].
    destruct Hcarries as (_ & _ & _ & _ & _ & _ & _ & Hraw). lia.
  - (* not selected: the clean row was there, and is not set back *)
    destruct (latest_candidate (RawData.expression r) (RawData.date r) cands)
      as [c_last|] eqn:Hlast.
    + destruct Hlatest as (row & Hrow & Hcarries).
      exists row. split; [exact Hrow |]. split; [now apply Hrow_id |].
      apply in_latest_candidate in Hlast as [Hin Hkey].
      apply in_candidates_of in Hin as (r' & Hr' & Hc').
      apply transform_raw_record_Ok in Hc' as (He' & Hd' & Hi' & _).
      injection Hkey as Hke Hkd.
      assert (Hold' : select_clean (clean_data_table session)
                        (RawData.expression r') (RawData.date r') = [c_old])
        by (rewrite <- He', <- Hd', Hke, Hkd; exact Hold).
      destruct (selected_newer session r' c_old Hr' Hold' Hold_id)
        as (i' & Hi'' & Hlt).
      destruct Hcarries as (_ & _ & _ & _ & _ & _ & _ & Hraw).
      rewrite Hi' in Hi''. injection Hi'' as <-. lia.
    + exists c_old. rewrite Hlatest. split; [exact Hold |].
      split; [exact Hold_id | exact Hold_le].
Qed.

(** When the clean table has caught up, the default selection holds no row
    whose transformation succeeds. *)
Lemma caught_up_no_candidates (session : Database) :
  caught_up session ->
  candidates_of (_get_raw_data_to_process session None) = [].
Proof.
  intros Hcu.
  destruct (candidates_of (_get_raw_data_to_process session None)) as [|c cs] eqn:E;
    [reflexivity |].
  exfalso.
  assert (Hc : In c (candidates_of (_get_raw_data_to_process session None)))
    by (rewrite E; now left).
  apply in_candidates_of in Hc as (r & Hsel & Hc).
  destruct (Hcu r c (selection_in_raw_table _ _ _ Hsel) Hc)
    as (row & Hrow & Hid & Hle).
  destruct (selected_newer session r row Hsel Hrow Hid) as (i & Hi & Hlt).
  apply transform_raw_record_Ok in Hc as (_ & _ & Hi' & _).
  rewrite Hi' in Hi. injection Hi as <-. lia.
Qed.

Lemma transform_raw_data_candidates (session : Database)
    (raw_data_ids : option (list Z)) :
  fst (transform_raw_data session raw_data_ids)
  = candidates_of (_get_raw_data_to_process session raw_data_ids).
Proof.
  unfold transform_raw_data.
  now destruct (transform_raw_records_spec
                  (_get_raw_data_to_process session raw_data_ids) []
                  (mkTransformMetrics 0 0 0 0)) as (-> & _).
Qed.

End Convergence.

Section TransformThenLoad.

Lemma range_cases (clean_records : list CleanData.t) :
  Forall (fun c => reasonable_value_range (CleanData.value c) = true) clean_records
  \/ Exists (fun c => reasonable_value_range (CleanData.value c) = false)
       clean_records.
Proof.
  induction clean_records as [|c rest IH]; [left; constructor |].
  destruct (reasonable_value_range (CleanData.value c)) eqn:Hc.
  - destruct IH as [IH | IH]; [left; now constructor | right; now apply Exists_cons_tl].
  - right. now apply Exists_cons_hd.
Qed.

(** The load of the records of a transformation, each a new object: the
    table of the upserts on the columns when all values are in the range of
    the table, and an exception with the database as it was otherwise. *)
Lemma load_new_objects (engine : Database) (clean_records : list CleanData.t) :
  Forall (fun c => CleanData.clean_data_id c = None) clean_records ->
  let loaded :=
    load_clean_data engine (new_objects clean_records) (references clean_records) in
  (Forall (fun c => reasonable_value_range (CleanData.value c) = true)
     clean_records ->
   exists metrics objects',
     loaded
     = (Ok (metrics, objects'),
        mkDatabase (raw_data_table engine)
          (snd (upsert_rows (clean_data_table engine) clean_records
                  (mkLoadMetrics 0 0 0 0))))
     /\ records_processed metrics = Z.of_nat (length clean_records)
     /\ records_inserted metrics
        = records_inserted
            (fst (upsert_rows (clean_data_table engine) clean_records
                    (mkLoadMetrics 0 0 0 0)))
     /\ records_updated metrics
        = records_updated
            (fst (upsert_rows (clean_data_table engine) clean_records
                    (mkLoadMetrics 0 0 0 0)))
     /\ records_failed metrics = 0)
  /\ (Exists (fun c => reasonable_value_range (CleanData.value c) = false)
        clean_records ->
      exists e, loaded = (Raise e, engine)).
Proof.
  intros Hids. cbv zeta.
  pose proof (fresh_new_objects clean_records Hids) as Hfresh.
  split.
  - intros Hall.
    destruct (load_clean_data_accepted engine (new_objects clean_records)
                (references clean_records) Hfresh)
      as (metrics & objects' & inserted & Hload & Hp & Hi & Hu & Hf & _).
    { now rewrite readable_new_objects. }
    rewrite readable_new_objects in Hload, Hi, Hu, Hf.
    unfold references in Hp, Hf. rewrite length_seq in Hp, Hf.
    exists metrics, objects'. repeat split; try assumption. lia.
  - intros Hex.
    destruct (load_clean_data_refused engine (new_objects clean_records)
                (references clean_records) Hfresh) as (e & Hload & _).
    { now rewrite readable_new_objects. }
    exists e. exact Hload.
Qed.

Lemma transform_raw_data_no_id (session : Database) (raw_data_ids : option (list Z)) :
  Forall (fun c => CleanData.clean_data_id c = None)
    (fst (transform_raw_data session raw_data_ids)).
Proof.
  rewrite transform_raw_data_candidates. apply candidates_of_no_id.
Qed.

(** A load of no candidate returns and changes nothing. *)
Lemma load_clean_data_nil (raws : list RawData.t) (cleans : list CleanData.t)
    (objects : Objects) :
  exists objects',
    load_clean_data (mkDatabase raws cleans) objects []
    = (Ok (mkLoadMetrics 0 0 0 0, objects'), mkDatabase raws cleans).
Proof.
  unfold load_clean_data. cbn [load_clean_records].
  rewrite (flush_healthy _ (Session_new_healthy _)).
  eexists. f_equal. fold (columns (Session_new (mkDatabase raws cleans))).
  now rewrite Session_new_columns.
Qed.

End TransformThenLoad.

(** X14. A transformation of the default selection followed by the load of
    its records, each a new object, on a clean table that satisfies its
    uniqueness constraint and whose rows have their primary key.  When the
    values of the records are all in the range [1, 2000] of the table, the
    load returns with no failure and the clean table is up to date: every
    raw row whose transformation succeeds then has exactly one clean row for
    its (expression, date), with a raw reference that is not smaller than
    its own raw id; a second transformation returns no record, and the load
    of no record changes nothing.  When some value is outside the range,
    the load raises, the database is what it was, and a second
    transformation returns what the first returned. *)
Theorem transform_load_converges (session : Database) :
  clean_unique (clean_data_table session) ->
  Forall (fun c => CleanData.clean_data_id c <> None) (clean_data_table session) ->
  let clean_records := fst (transform_raw_data session None) in
  let loaded :=
    load_clean_data session (new_objects clean_records) (references clean_records) in
  let session' := snd loaded in
  (Forall (fun c => reasonable_value_range (CleanData.value c) = true)
     clean_records ->
   (exists metrics objects',
       fst loaded = Ok (metrics, objects') /\ records_failed metrics = 0)
   /\ caught_up session'
   /\ fst (transform_raw_data session' None) = []
   /\ rows_transformed (snd (transform_raw_data session' None)) = 0
   /\ forall objects,
        exists objects',
          load_clean_data session' objects []
          = (Ok (mkLoadMetrics 0 0 0 0, objects'), session'))
  /\ (Exists (fun c => reasonable_value_range (CleanData.value c) = false)
        clean_records ->
      (exists e, fst loaded = Raise e)
      /\ session' = session
      /\ transform_raw_data session' None = transform_raw_data session None).
Proof.
  intros Hu Hids. cbv zeta.
  destruct (load_new_objects session (fst (transform_raw_data session None))
              (transform_raw_data_no_id session None)) as [Hok Hbad].
  cbv zeta in Hok, Hbad. split.
  - intros Hall. destruct (Hok Hall) as (metrics & objects' & -> & _ & _ & _ & Hf).
    clear Hok Hbad. cbn [fst snd]. split; [eauto |].
    rewrite (transform_raw_data_candidates session None).
    pose proof (load_candidates_caught_up session (mkLoadMetrics 0 0 0 0) Hu Hids)
      as Hcu.
    set (session' := mkDatabase _ _) in *.
    pose proof (caught_up_no_candidates _ Hcu) as Hnone.
    rewrite (transform_raw_data_candidates _ None), Hnone.
    split; [exact Hcu |]. split; [reflexivity |]. split.
    + unfold transform_raw_data.
      destruct (transform_raw_records_spec (_get_raw_data_to_process session' None)
                  [] (mkTransformMetrics 0 0 0 0)) as (_ & _ & -> & _).
      rewrite Hnone. reflexivity.
    + intros objects. apply load_clean_data_nil.
  - intros Hex. destruct (Hbad Hex) as (e & ->). cbn [fst snd].
    split; [eauto |]. split; reflexivity.
Qed.

Lemma transform_load_converges_witness :
  let e := "DB(COV,VOLSWAPTION,EUR,2y,1y,PAYER,VOLBPVOL)" in
  let bad := "DB(COV,VOLSWAPTION,JPY,2y,1y,PAYER,VOLBPVOL)" in
  let r1 := RawData.mk (Some 1) e 738000 80%float 10 1 "default" "blob://market-data/a" in
  let r2 := RawData.mk (Some 2) e 738000 81%float 20 2 "default" "blob://market-data/b" in
  let r3 := RawData.mk (Some 3) e 738001 82%float 20 1 "default" "blob://market-data/b" in
  let r4 := RawData.mk (Some 4) bad 738001 83%float 20 1 "default" "blob://market-data/c" in
  let r5 := RawData.mk (Some 5) e 738002 2500%float 20 1 "default" "blob://market-data/b" in
  let c1 := CleanData.mk (Some 1) e 738000 "EUR" "1y" "2y" "Euribor" 80%float 1 in
  let load session :=
    load_clean_data session (new_objects (fst (transform_raw_data session None)))
      (references (fst (transform_raw_data session None))) in
  let session := mkDatabase [r3; r4; r1; r2] [c1] in
  let high := mkDatabase [r3; r4; r1; r2; r5] [c1] in
  clean_data_table (snd (load session))
  = [CleanData.mk (Some 1) e 738000 "EUR" "1y" "2y" "Euribor" 81%float 2;
     CleanData.mk (Some 2) e 738001 "EUR" "1y" "2y" "Euribor" 82%float 3]
  /\ _get_raw_data_to_process (snd (load session)) None = [r4]
  /\ fst (transform_raw_data (snd (load session)) None) = []
  /\ snd (load high) = high.
Proof.
  cbv zeta. split; [vm_compute; reflexivity |].
  split; [vm_compute; reflexivity |].
  split.
  - match goal with
    | |- fst (transform_raw_data (snd (load_clean_data ?s _ _)) None) = [] =>
        refine (proj1 (proj2 (proj2 (proj1 (transform_load_converges s _ _) _))))
    end.
    + cbn [clean_data_table]. unfold clean_unique. cbn [map]. apply NoDup_singleton.
    + cbn [clean_data_table]. constructor; [discriminate | constructor].
    + vm_compute. repeat constructor.
  - match goal with
    | |- snd (load_clean_data ?s _ _) = _ =>
        refine (proj1 (proj2 (proj2 (transform_load_converges s _ _) _)))
    end.
    + cbn [clean_data_table]. unfold clean_unique. cbn [map]. apply NoDup_singleton.
    + cbn [clean_data_table]. constructor; [discriminate | constructor].
    + vm_compute. apply Exists_cons_tl, Exists_cons_tl, Exists_cons_hd. reflexivity.
Defined.

Section Provenance.

Lemma derived_from_carries (raws : list RawData.t) (row c : CleanData.t) :
  carries row c -> derived_from raws c -> derived_from raws row.
Proof.
  intros (He & Hd & Hc & Hx & Hy & Hr & Hv & Hid) (r & H).
  exists r. rewrite He, Hd, Hc, Hx, Hy, Hr, Hv, Hid. exact H.
Qed.

Lemma derived_from_app (raws added : list RawData.t) (row : CleanData.t) :
  derived_from raws row -> derived_from (raws ++ added) row.
Proof.
  intros (r & Hr & H). exists r. split; [| exact H].
  apply in_or_app. now left.
Qed.

Lemma candidate_derived_from (session : Database) (raw_data_ids : option (list Z))
    (c : CleanData.t) :
  In c (candidates_of (_get_raw_data_to_process session raw_data_ids)) ->
  derived_from (raw_data_table session) c.
Proof.
  intros Hc. apply in_candidates_of in Hc as (r & Hr & Hc).
  apply selection_in_raw_table in Hr.
  apply transform_raw_record_Ok in Hc as (He & Hd & Hi & _ & Hp & Hv & Hpos).
  exists r. rewrite He, Hd. repeat split; assumption.
Qed.

(** A property of the fields that an upsert writes, which the candidates
    have, holds of the table after the load when it held before. *)
Lemma upsert_rows_Forall (P : CleanData.t -> Prop) :
  (forall row c, carries row c -> P c -> P row) ->
  forall (clean_records session : list CleanData.t) (metrics : LoadMetrics),
    Forall P session -> Forall P clean_records ->
    Forall P (snd (upsert_rows session clean_records metrics)).
Proof.
  intros HP clean_records.
  induction clean_records as [|c rest IH]; intros session metrics Hs Hc;
    cbn [upsert_rows snd]; [exact Hs |].
  apply Forall_cons in Hc as [Hc Hrest].
  assert (Hs1 : Forall P (snd (upsert_row session c))).
  { destruct (upsert_row_cases session c)
      as [[_ (row & -> & Hrow & _)] | (i & existing & row & Hi & _ & -> & Hrow & _)];
      cbn [snd].
    - apply Forall_app. split; [exact Hs |]. constructor; [| constructor].
      eapply HP; eassumption.
    - apply Forall_insert; [exact Hs |]. eapply HP; eassumption. }
  destruct (upsert_row session c) as [result session1].
  cbn [snd] in Hs1. now apply IH.
Qed.

Lemma load_candidates_derived_from (session : Database)
    (raw_data_ids : option (list Z)) (metrics : LoadMetrics) :
  Forall (derived_from (raw_data_table session)) (clean_data_table session) ->
  Forall (derived_from (raw_data_table session))
    (snd (upsert_rows (clean_data_table session)
            (candidates_of (_get_raw_data_to_process session raw_data_ids))
            metrics)).
Proof.
  intros H. apply upsert_rows_Forall; [| exact H |].
  - intros row c. apply derived_from_carries.
  - apply Forall_forall. intros c Hc. apply list_elem_of_In in Hc.
    eapply candidate_derived_from. exact Hc.
Qed.

End Provenance.

(** X15. The load of the records of a transformation, of the default
    selection or of given raw ids, each a new object, leaves the raw table
    as it is and keeps the provenance of the clean table, whether the load
    returns or raises: when every clean row was the transformation of a raw
    row of the table, with its (expression, date), the raw id it refers to,
    the parse of its expression and the transformed value, every clean row
    is so afterwards. *)
Theorem transform_load_keeps_provenance (session : Database)
    (raw_data_ids : option (list Z)) :
  Forall (derived_from (raw_data_table session)) (clean_data_table session) ->
  let clean_records := fst (transform_raw_data session raw_data_ids) in
  let session' :=
    snd (load_clean_data session (new_objects clean_records)
           (references clean_records)) in
  raw_data_table session' = raw_data_table session
  /\ Forall (derived_from (raw_data_table session')) (clean_data_table session').
Proof.
  intros H. cbv zeta.
  destruct (load_new_objects session (fst (transform_raw_data session raw_data_ids))
              (transform_raw_data_no_id session raw_data_ids)) as [Hok Hbad].
  cbv zeta in Hok, Hbad.
  destruct (range_cases (fst (transform_raw_data session raw_data_ids)))
    as [Hall | Hex].
  - destruct (Hok Hall) as (metrics & objects' & -> & _).
    cbn [snd raw_data_table clean_data_table]. split; [reflexivity |].
    rewrite transform_raw_data_candidates.
    now apply load_candidates_derived_from.
  - destruct (Hbad Hex) as (e & ->). cbn [snd]. split; [reflexivity | exact H].
Qed.

Lemma transform_load_keeps_provenance_witness :
  let e := "DB(COV,VOLSWAPTION,USDD,2y,1y,PAYER,VOLBPVOL)" in
  let r1 := RawData.mk (Some 1) e 738000 80%float 10 1 "default" "blob://market-data/a" in
  let r2 := RawData.mk (Some 2) e 738000 81%float 20 2 "default" "blob://market-data/b" in
  let c1 := CleanData.mk (Some 1) e 738000 "USD" "1y" "2y" "SOFR"
              (_apply_value_transformations 80%float "USD" "SOFR") 1 in
  let session := mkDatabase [r1; r2] [c1] in
  let clean_records := fst (transform_raw_data session (Some [2; 1])) in
  Forall (derived_from [r1; r2])
    (clean_data_table
       (snd (load_clean_data session (new_objects clean_records)
               (references clean_records)))).
Proof.
  cbv zeta.
  match goal with
  | |- Forall _ (clean_data_table (snd (load_clean_data ?s _ _))) =>
      refine (proj2 (transform_load_keeps_provenance s (Some [2; 1]) _))
  end.
  cbn [raw_data_table clean_data_table].
  constructor; [| constructor].
  eexists. split; [left; reflexivity |].
  repeat split; vm_compute; reflexivity.
Defined.

Section ExtractorDays.

Variable utcnow : nat -> Timestamp.
Variable random_uniform : string -> Date -> Date -> nat -> float.
Variable blob_filename : string -> Date -> Date -> Timestamp -> string.
Variable open_fails : string -> bool.

Local Abbreviation extract := (extract_data utcnow random_uniform blob_filename open_fails).
Local Abbreviation extract_all :=
  (extract_expressions utcnow random_uniform blob_filename open_fails).
Local Abbreviation extract_one :=
  (extract_expression utcnow random_uniform blob_filename open_fails).
Local Abbreviation fetch := (get_historical_data random_uniform).

(** A range without a business day: the frame is empty and the iteration
    stores nothing and counts nothing but a rejected request. *)
Lemma extract_expression_no_business_day (w : World) (metrics : Metrics)
    (expression : string) (start_date end_date : Date) (mode : RunModeEnum) :
  bdate_range start_date end_date = [] ->
  let m' := fst (extract_one w metrics expression start_date end_date mode) in
  let w' := snd (extract_one w metrics expression start_date end_date mode) in
  raw_data w' = raw_data w
  /\ blob_storage w' = blob_storage w
  /\ clock w' = clock w
  /\ expressions_processed m' = expressions_processed metrics
  /\ rows_fetched m' = rows_fetched metrics
  /\ rows_inserted m' = rows_inserted metrics
  /\ duplicates_detected m' = duplicates_detected metrics
  /\ 0 <= errors m' - errors metrics <= 1.
Proof.
  intros Hempty. cbv zeta. unfold extract_expression.
  assert (Hdf : fetch expression start_date end_date = [])
    by (unfold get_historical_data; rewrite Hempty; reflexivity).
  rewrite Hdf.
  destruct (APIRequest_new expression start_date end_date);
    [| cbn; repeat split; lia].
  destruct (_should_fetch_data (raw_data w) expression start_date end_date mode)
    as [[|]|]; cbn; repeat split; lia.
Qed.

Lemma extract_expressions_no_business_day (todo : list string) :
  forall (w : World) (metrics : Metrics) (start_date end_date : Date)
         (mode : RunModeEnum),
    bdate_range start_date end_date = [] ->
    let m' := fst (extract_all w metrics todo start_date end_date mode) in
    let w' := snd (extract_all w metrics todo start_date end_date mode) in
    raw_data w' = raw_data w
    /\ blob_storage w' = blob_storage w
    /\ clock w' = clock w
    /\ expressions_processed m' = expressions_processed metrics
    /\ rows_fetched m' = rows_fetched metrics
    /\ rows_inserted m' = rows_inserted metrics
    /\ duplicates_detected m' = duplicates_detected metrics
    /\ 0 <= errors m' - errors metrics <= Z.of_nat (length todo).
Proof.
  induction todo as [|expression rest IH];
    intros w metrics start_date end_date mode Hempty; cbv zeta;
    cbn [extract_expressions fst snd length]; [repeat split; lia |].
  pose proof (extract_expression_no_business_day w metrics expression start_date
                end_date mode Hempty) as H1.
  cbv zeta in H1.
  destruct (extract_one w metrics expression start_date end_date mode)
    as [m1 w1].
  cbn [fst snd] in H1.
  pose proof (IH w1 m1 start_date end_date mode Hempty) as H2. cbv zeta in H2.
  destruct H1 as (A1 & A2 & A3 & A4 & A5 & A6 & A7 & A8).
  destruct H2 as (B1 & B2 & B3 & B4 & B5 & B6 & B7 & B8).
  repeat split; try congruence; lia.
Qed.

(** Over a single day one iteration adds at most one row. *)
Lemma extract_expression_single_day (w : World) (metrics : Metrics)
    (expression : string) (d : Date) (mode : RunModeEnum) :
  (length (raw_data (snd (extract_one w metrics expression d d mode)))
   <= 1 + length (raw_data w))%nat.
Proof.
  unfold extract_expression.
  destruct (APIRequest_new expression d d); cbn [snd]; [| lia].
  destruct (_should_fetch_data (raw_data w) expression d d mode) as [[|]|];
    cbn [snd]; try lia.
  destruct (get_historical_data_single random_uniform expression d)
    as [-> | [v ->]]; cbn [snd raw_data]; [lia |].
  unfold _store_blob. destruct (open_fails _); cbn [snd raw_data]; [lia |].
  unfold _insert_raw_data. cbn [raw_data clock insert_raw_rows].
  match goal with
  | |- context [insert_raw_row ?s ?row ?e ?uri ?m ?ts] =>
      destruct (insert_raw_row_effect s row e uri m ts)
        as [[err ->] | [r [-> _]]]
  end; cbn [snd raw_data]; [lia |].
  unfold session_add_raw. rewrite length_app. cbn [length]. lia.
Qed.

Lemma extract_expressions_single_day (todo : list string) :
  forall (w : World) (metrics : Metrics) (d : Date) (mode : RunModeEnum),
    (length (raw_data (snd (extract_all w metrics todo d d mode)))
     <= length todo + length (raw_data w))%nat.
Proof.
  induction todo as [|expression rest IH]; intros w metrics d mode;
    cbn [extract_expressions snd length]; [lia |].
  pose proof (extract_expression_single_day w metrics expression d mode) as H1.
  destruct (extract_one w metrics expression d d mode) as [m1 w1].
  cbn [snd] in H1. pose proof (IH w1 m1 d mode) as H2. lia.
Qed.

End ExtractorDays.

(** X16. A call for a range without a Monday to Friday that passes the date
    check of its mode returns metrics, stores no row and no blob and reads
    no clock; it counts no expression as processed and no row as fetched or
    inserted, and its errors are at most the number of expressions. *)
Theorem extract_data_no_business_day
    (utcnow : nat -> Timestamp)
    (random_uniform : string -> Date -> Date -> nat -> float)
    (blob_filename : string -> Date -> Date -> Timestamp -> string)
    (open_fails : string -> bool)
    (w : World) (expressions : list string) (start_date end_date : Date)
    (mode : RunModeEnum) :
  bdate_range start_date end_date = [] ->
  mode = HISTORICAL \/ start_date = end_date ->
  exists metrics w',
    extract_data utcnow random_uniform blob_filename open_fails w expressions start_date
      end_date mode = (Ok metrics, w')
    /\ raw_data w' = raw_data w
    /\ blob_storage w' = blob_storage w
    /\ clock w' = clock w
    /\ expressions_processed metrics = 0
    /\ rows_fetched metrics = 0
    /\ rows_inserted metrics = 0
    /\ 0 <= errors metrics <= Z.of_nat (length expressions).
Proof.
  intros Hempty Hok. unfold extract_data.
  assert (Hcheck :
    match mode with DEFAULT | OLD_CODES => true | HISTORICAL => false end
    && negb (start_date =? end_date) = false).
  { destruct Hok as [-> | ->]; [reflexivity |].
    rewrite Z.eqb_refl. apply andb_false_r. }
  rewrite Hcheck.
  pose proof (extract_expressions_no_business_day utcnow random_uniform
                blob_filename open_fails expressions w (mkMetrics 0 0 0 0 0) start_date
                end_date mode Hempty) as H.
  cbv zeta in H.
  destruct (extract_expressions utcnow random_uniform blob_filename open_fails w
              (mkMetrics 0 0 0 0 0) expressions start_date end_date mode)
    as [m w'].
  cbn [fst snd expressions_processed rows_fetched rows_inserted
       duplicates_detected errors] in H.
  exists m, w'. split; [reflexivity |].
  destruct H as (A1 & A2 & A3 & A4 & A5 & A6 & A7 & A8).
  repeat split; try assumption; lia.
Qed.

Lemma extract_data_no_business_day_witness :
  let e := "DB(COV,VOLSWAPTION,EUR,2y,1y,PAYER,VOLBPVOL)" in
  let w := mkWorld [] ∅ [] 0 in
  exists metrics w',
    extract_data (fun n => Z.of_nat n) (fun _ _ _ _ => 0%float) (fun x _ _ _ => x) (fun _ => false)
      w [e; "DB(COV)"] 738002 738003 HISTORICAL = (Ok metrics, w')
    /\ raw_data w' = raw_data w
    /\ blob_storage w' = blob_storage w
    /\ clock w' = clock w
    /\ expressions_processed metrics = 0
    /\ rows_fetched metrics = 0
    /\ rows_inserted metrics = 0
    /\ 0 <= errors metrics <= 2.
Proof.
  cbv zeta.
  apply (extract_data_no_business_day (fun n => Z.of_nat n) (fun _ _ _ _ => 0%float)
           (fun x _ _ _ => x) (fun _ => false) (mkWorld [] ∅ [] 0)
           ["DB(COV,VOLSWAPTION,EUR,2y,1y,PAYER,VOLBPVOL)"; "DB(COV)"]
           738002 738003 HISTORICAL).
  - vm_compute. reflexivity.
  - left. reflexivity.
Defined.

(** X17. A call for a single day returns metrics in every mode.  It only
    appends to the raw table, at most one row for each expression of the
    list, each for that day, and counts no more inserted rows than it
    appended; on a Saturday or Sunday it appends nothing. *)
Theorem extract_data_single_day
    (utcnow : nat -> Timestamp)
    (random_uniform : string -> Date -> Date -> nat -> float)
    (blob_filename : string -> Date -> Date -> Timestamp -> string)
    (open_fails : string -> bool)
    (w : World) (expressions : list string) (d : Date) (mode : RunModeEnum) :
  exists metrics w' added,
    extract_data utcnow random_uniform blob_filename open_fails w expressions d d mode
    = (Ok metrics, w')
    /\ raw_data w' = (raw_data w ++ added)%list
    /\ (length added <= length expressions)%nat
    /\ Forall (fun r => RawData.date r = d) added
    /\ 0 <= rows_inserted metrics <= Z.of_nat (length added)
    /\ (5 <= weekday d -> added = []).
Proof.
  unfold extract_data. rewrite Z.eqb_refl, andb_false_r.
  destruct (extract_expressions_effect utcnow random_uniform blob_filename open_fails
              expressions w (mkMetrics 0 0 0 0 0) expressions d d mode
              (fun e He => He))
    as ((added & calls & Ha & _ & _ & _ & _ & Hrows & _) & Hacc & _).
  pose proof (extract_expressions_single_day utcnow random_uniform blob_filename open_fails
                expressions w (mkMetrics 0 0 0 0 0) d mode) as Hlen.
  pose proof (extract_expressions_no_business_day utcnow random_uniform
                blob_filename open_fails expressions w (mkMetrics 0 0 0 0 0) d d mode)
    as Hnone.
  cbv zeta in Hnone.
  destruct (extract_expressions utcnow random_uniform blob_filename open_fails w
              (mkMetrics 0 0 0 0 0) expressions d d mode) as [m w'].
  cbn [fst snd] in *.
  exists m, w', added. split; [reflexivity |]. split; [exact Ha |].
  rewrite Ha, length_app in Hlen. split; [lia |]. split.
  - eapply Forall_impl; [exact Hrows |].
    intros r (_ & _ & Hdate & _). lia.
  - destruct Hacc as (_ & _ & Hins & _).
    cbn [rows_inserted] in Hins. rewrite Ha, length_app in Hins.
    split; [lia |].
    intros Hw.
    assert (Hempty : bdate_range d d = []).
    { destruct (bdate_range_single d) as [Hb | Hb]; [| exact Hb].
      exfalso.
      assert (Hin : In d (bdate_range d d)) by (rewrite Hb; now left).
      unfold bdate_range in Hin. apply filter_In in Hin as [_ Hlt].
      apply Z.ltb_lt in Hlt. lia. }
    destruct (Hnone Hempty) as (Hraw & _).
    rewrite Ha in Hraw.
    apply (f_equal (@length _)) in Hraw. rewrite length_app in Hraw.
    destruct added; [reflexivity | cbn [length] in Hraw; lia].
Qed.

Section IntegrityFurther.

Lemma in_latest_clean_data_stmt (session : Database) (latest : Timestamp)
    (c : CleanData.t) :
  In c (latest_clean_data_stmt session latest) -> In c (clean_data_table session).
Proof.
  unfold latest_clean_data_stmt. rewrite in_flat_map.
  intros [c0 [Hc0 Hin]]. apply in_map_iff in Hin as [r [<- _]]. exact Hc0.
Qed.

(** With distinct (expression, date) pairs in the clean table, the joined
    rows repeat a pair exactly when a clean row has two raw rows of the
    latest fetch. *)
Lemma latest_clean_data_stmt_NoDup (raws : list RawData.t) (latest : Timestamp)
    (cleans : list CleanData.t) :
  clean_unique cleans ->
  NoDup (map clean_key (latest_clean_data_stmt (mkDatabase raws cleans) latest))
  <-> Forall
        (fun c =>
           (length (select_raw_at raws (CleanData.expression c) (CleanData.date c)
                      latest) <= 1)%nat)
        cleans.
Proof.
  unfold clean_unique.
  induction cleans as [|c cleans IH]; intros Hu.
  - split; constructor.
  - cbn [map] in Hu. apply NoDup_cons in Hu as [Hc Hu]. specialize (IH Hu).
    unfold latest_clean_data_stmt in *.
    cbn [raw_data_table clean_data_table flat_map] in *.
    fold (select_raw_at raws (CleanData.expression c) (CleanData.date c) latest).
    rewrite map_app, NoDup_app, Forall_cons, IH.
    assert (Hdisjoint :
      forall k,
        k ∈ map clean_key
              (map (fun _ => c)
                 (select_raw_at raws (CleanData.expression c) (CleanData.date c)
                    latest)) ->
        k ∉ map clean_key
              (flat_map
                 (fun c0 =>
                    map (fun _ => c0)
                      (List.filter
                         (fun r =>
                            raw_key_matches (CleanData.expression c0)
                              (CleanData.date c0) r
                            && (RawData.fetch_timestamp r =? latest)) raws))
                 cleans)).
    { intros k Hk Hk'.
      apply list_elem_of_In, in_map_iff in Hk as [c1 [<- Hc1]].
      apply in_map_iff in Hc1 as [r [<- _]].
      apply list_elem_of_In, in_map_iff in Hk' as [c2 [Heq Hc2]].
      apply in_flat_map in Hc2 as [c0 [Hc0 Hin]].
      apply in_map_iff in Hin as [r' [<- _]].
      apply Hc. rewrite <- Heq. apply list_elem_of_In, in_map. exact Hc0. }
    destruct (select_raw_at raws (CleanData.expression c) (CleanData.date c) latest)
      as [|r1 [|r2 rs]]; cbn [map length].
    + split; [intros (_ & _ & H); split; [lia | exact H] |].
      intros [_ H]. split; [constructor |]. split; [exact Hdisjoint | exact H].
    + split; [intros (_ & _ & H); split; [lia | exact H] |].
      intros [_ H]. split; [apply NoDup_singleton |].
      split; [exact Hdisjoint | exact H].
    + split.
      * intros (Hnd & _). exfalso. apply NoDup_cons in Hnd as [Hnd _].
        apply Hnd. now left.
      * intros [Hlen _]. lia.
Qed.

Lemma latest_fetch_None (raws : list RawData.t) :
  latest_fetch raws = None <-> raws = [].
Proof.
  unfold latest_fetch, sql_max.
  destruct raws; cbn [map]; split; intros H; reflexivity || discriminate H.
Qed.

Lemma validate_clean_data_integrity_valid (session : Database) (latest : Timestamp) :
  latest_fetch (raw_data_table session) = Some latest ->
  valid (validate_clean_data_integrity session) = true
  <-> NoDup (map clean_key (latest_clean_data_stmt session latest)).
Proof.
  intros Hlatest. unfold validate_clean_data_integrity. rewrite Hlatest.
  pose proof (count_duplicates_positive_iff (latest_clean_data_stmt session latest))
    as Hpos.
  destruct (Z.ltb_spec 0
              (count_duplicates (latest_clean_data_stmt session latest) ∅ 0))
    as [Hlt | Hge]; cbn [valid].
  - split; [discriminate |]. intros Hnd. apply Hpos in Hlt. contradiction.
  - split; [| reflexivity]. intros _.
    destruct (decide (NoDup (map clean_key (latest_clean_data_stmt session latest))))
      as [Hnd | Hnd]; [exact Hnd |].
    apply Hpos in Hnd. lia.
Qed.

End IntegrityFurther.

(** X18. The integrity check on a clean table that satisfies its uniqueness
    constraint: with no raw row the report is valid; otherwise it is valid
    exactly when no clean row has more than one raw row of its
    (expression, date) at the latest fetch time stamp.  A failure of the
    check then tells of raw versions fetched at the same time stamp, not of
    repeated clean rows. *)
Theorem integrity_check_on_unique_clean_table (session : Database) :
  clean_unique (clean_data_table session) ->
  match latest_fetch (raw_data_table session) with
  | None =>
      raw_data_table session = []
      /\ validate_clean_data_integrity session
         = mkIntegrityReport true [NoRawDataRecordsFound] 0 None 0
  | Some latest =>
      (valid (validate_clean_data_integrity session) = true
       <-> Forall
             (fun c =>
                (length (select_raw_at (raw_data_table session)
                           (CleanData.expression c) (CleanData.date c) latest)
                 <= 1)%nat)
             (clean_data_table session))
      /\ (valid (validate_clean_data_integrity session) = true ->
          validate_clean_data_integrity session
          = mkIntegrityReport true [] 0 (Some latest)
              (Z.of_nat (length (latest_clean_data_stmt session latest))))
  end.
Proof.
  intros Hu.
  destruct (latest_fetch (raw_data_table session)) as [latest|] eqn:Hlatest.
  - split.
    + rewrite (validate_clean_data_integrity_valid session latest Hlatest).
      destruct session as [raws cleans].
      now apply latest_clean_data_stmt_NoDup.
    + unfold validate_clean_data_integrity. rewrite Hlatest.
      destruct (0 <? _); cbn [valid]; [discriminate | reflexivity].
  - split; [now apply latest_fetch_None |].
    unfold validate_clean_data_integrity. rewrite Hlatest. reflexivity.
Qed.

Lemma integrity_check_on_unique_clean_table_witness :
  let e := "DB(COV,VOLSWAPTION,EUR,2y,1y,PAYER,VOLBPVOL)" in
  let raw v := RawData.mk (Some v) e 738000 80%float 20 v "historical"
                 "blob://market-data/a" in
  let clean := CleanData.mk (Some 1) e 738000 "EUR" "1y" "2y" "Euribor" 80%float 2 in
  let raws := [raw 1; raw 2] in
  valid (validate_clean_data_integrity (mkDatabase raws [clean])) = true
  <-> Forall
        (fun c =>
           (length (select_raw_at raws (CleanData.expression c)
                      (CleanData.date c) 20%Z) <= 1)%nat)
        [clean].
Proof.
  cbv zeta.
  match goal with
  | |- valid (validate_clean_data_integrity ?s) = true <-> _ =>
      pose proof (integrity_check_on_unique_clean_table s) as H
  end.
  cbn [raw_data_table clean_data_table] in H.
  change (latest_fetch _) with (Some 20) in H.
  apply H. unfold clean_unique. cbn [map]. apply NoDup_singleton.
Defined.

(** ** Loading the same records again *)

Section LoaderReplay.

Lemma carries_same (row row' c : CleanData.t) :
  CleanData.clean_data_id row' = CleanData.clean_data_id row ->
  carries row c -> carries row' c -> row' = row.
Proof.
  intros Hid (He & Hd & Hc & Hx & Hy & Hr & Hv & Hraw)
    (He' & Hd' & Hc' & Hx' & Hy' & Hr' & Hv' & Hraw').
  destruct row, row'. cbn in *. congruence.
Qed.

Lemma clean_unique_lookup (session : list CleanData.t) (i j : nat)
    (a b : CleanData.t) :
  clean_unique session ->
  session !! i = Some a -> session !! j = Some b ->
  clean_key a = clean_key b -> i = j.
Proof.
  unfold clean_unique. revert i j.
  induction session as [|c session IH]; intros i j Hu Hi Hj Hk;
    [discriminate |].
  cbn [map] in Hu. apply NoDup_cons in Hu as [Hc Hu].
  assert (Hin : forall n x, session !! n = Some x ->
                            clean_key x ∈ map clean_key session).
  { intros n x Hx. apply list_elem_of_In, in_map, list_elem_of_In.
    eapply list_elem_of_lookup_2. exact Hx. }
  destruct i as [|i], j as [|j]; cbn in Hi, Hj.
  - reflexivity.
  - injection Hi as <-. exfalso. apply Hc. rewrite Hk. eapply Hin. exact Hj.
  - injection Hj as <-. exfalso. apply Hc. rewrite <- Hk. eapply Hin. exact Hi.
  - f_equal. eapply IH; eassumption.
Qed.

Lemma latest_candidate_snoc (expression : string) (date : Date)
    (clean_records : list CleanData.t) (c : CleanData.t) :
  latest_candidate expression date (clean_records ++ [c])
  = if clean_key_matches expression date c then Some c
    else latest_candidate expression date clean_records.
Proof.
  unfold latest_candidate. rewrite List.filter_app. cbn [List.filter].
  destruct (clean_key_matches expression date c).
  - apply last_snoc.
  - now rewrite app_nil_r.
Qed.

(** The row at a position of the table, after a load: it keeps its primary
    key and its (expression, date), and carries the last candidate of that
    (expression, date), if there is one. *)
Lemma upsert_rows_lookup (clean_records : list CleanData.t) :
  forall (session : list CleanData.t) (metrics : LoadMetrics) (i : nat)
         (row : CleanData.t),
    clean_unique session ->
    session !! i = Some row ->
    exists row',
      snd (upsert_rows session clean_records metrics) !! i = Some row'
      /\ CleanData.clean_data_id row' = CleanData.clean_data_id row
      /\ clean_key row' = clean_key row
      /\ match latest_candidate (CleanData.expression row) (CleanData.date row)
                 clean_records with
         | None => row' = row
         | Some c => carries row' c
         end.
Proof.
  induction clean_records as [|c rest IH] using rev_ind;
    intros session metrics i row Hu Hi.
  - exists row. cbn [upsert_rows snd].
    split; [exact Hi |]. split; [reflexivity |]. split; reflexivity.
  - rewrite upsert_rows_app. cbn [upsert_rows].
    pose proof (upsert_rows_spec rest session metrics) as Hspec.
    cbv zeta in Hspec. destruct Hspec as (_ & _ & _ & _ & _ & _ & Hu1 & _).
    specialize (Hu1 Hu).
    destruct (IH session metrics i row Hu Hi) as (row1 & Hi1 & Hid1 & Hk1 & Hl1).
    set (session1 := snd (upsert_rows session rest metrics)) in *.
    rewrite latest_candidate_snoc.
    assert (Hmatch : clean_key_matches (CleanData.expression row)
                       (CleanData.date row) c = true
                     <-> clean_key c = clean_key row1).
    { rewrite clean_key_matches_key, Hk1. unfold clean_key. reflexivity. }
    destruct (upsert_row_cases session1 c)
      as [[Habs (new & -> & Hnew & _)]
         | (j & existing & new & Hj & Hk & -> & Hnew & Hnew_id)];
      cbn [snd].
    + (* inserted: no row of the table has the pair of the candidate *)
      exists row1. split; [now apply lookup_app_l_Some |].
      split; [exact Hid1 |]. split; [exact Hk1 |].
      destruct (clean_key_matches (CleanData.expression row) (CleanData.date row) c)
        eqn:E; [| exact Hl1].
      exfalso. pose proof (proj1 Hmatch eq_refl) as E'.
      assert (Hin : In row1 (select_clean session1 (CleanData.expression c)
                               (CleanData.date c))).
      { unfold select_clean. apply filter_In. split.
        - apply list_elem_of_In. eapply list_elem_of_lookup_2. exact Hi1.
        - apply clean_key_matches_key. symmetry. exact E'. }
      rewrite Habs in Hin. destruct Hin.
    + assert (Hnew_key : clean_key new = clean_key c)
        by (destruct Hnew as (He & Hd & _); unfold clean_key; congruence).
      destruct (Nat.eq_dec i j) as [<- | Hne].
      * (* the updated row *)
        assert (existing = row1) by congruence. subst existing.
        exists new. split.
        { apply list_lookup_insert_eq. eapply lookup_lt_Some. exact Hi1. }
        split; [congruence |]. split; [congruence |].
        rewrite (proj2 Hmatch) by (symmetry; exact Hk). exact Hnew.
      * (* another row *)
        exists row1. split; [rewrite list_lookup_insert_ne by auto; exact Hi1 |].
        split; [exact Hid1 |]. split; [exact Hk1 |].
        destruct (clean_key_matches (CleanData.expression row) (CleanData.date row) c)
          eqn:E; [| exact Hl1].
        exfalso. pose proof (proj1 Hmatch eq_refl) as E'. apply Hne.
        eapply (clean_unique_lookup session1); [exact Hu1 | exact Hi1 | exact Hj |].
        congruence.
Qed.

Lemma clean_unique_size (session : list CleanData.t) :
  clean_unique session -> size (clean_keys session) = length session.
Proof.
  intros Hu. unfold clean_keys.
  rewrite size_list_to_set by exact Hu. apply length_map.
Qed.

(** A second load of the same records leaves the table as the first load
    left it, and inserts nothing. *)
Lemma upsert_rows_replay (clean_records session : list CleanData.t)
    (metrics metrics' : LoadMetrics) :
  clean_unique session ->
  let session1 := snd (upsert_rows session clean_records metrics) in
  snd (upsert_rows session1 clean_records metrics') = session1
  /\ records_inserted (fst (upsert_rows session1 clean_records metrics'))
     = records_inserted metrics'.
Proof.
  intros Hu. cbv zeta.
  pose proof (upsert_rows_spec clean_records session metrics) as Hspec.
  cbv zeta in Hspec. destruct Hspec as (_ & _ & _ & _ & _ & _ & Hu1 & _ & Hkeys1).
  specialize (Hu1 Hu).
  set (session1 := snd (upsert_rows session clean_records metrics)) in *.
  pose proof (upsert_rows_spec clean_records session1 metrics') as Hspec.
  cbv zeta in Hspec.
  destruct Hspec as (_ & _ & _ & _ & _ & Hlen & Hu2 & _ & Hkeys2).
  specialize (Hu2 Hu1).
  set (session2 := snd (upsert_rows session1 clean_records metrics')) in *.
  assert (Hsame : length session2 = length session1).
  { rewrite <- (clean_unique_size session2 Hu2), <- (clean_unique_size session1 Hu1).
    f_equal. rewrite Hkeys2, Hkeys1. set_solver. }
  split; [| lia].
  apply list_eq. intros i.
  destruct (session1 !! i) as [row|] eqn:Hi.
  - destruct (upsert_rows_lookup clean_records session1 metrics' i row Hu1 Hi)
      as (row' & Hi' & Hid & Hk & Hl).
    fold session2 in Hi'. rewrite Hi'. f_equal.
    pose proof (upsert_rows_latest clean_records session metrics
                  (CleanData.expression row) (CleanData.date row) Hu) as Hlatest.
    cbv zeta in Hlatest. fold session1 in Hlatest.
    destruct (latest_candidate (CleanData.expression row) (CleanData.date row)
                clean_records) as [c|]; [| exact Hl].
    destruct Hlatest as (row0 & Hsel & Hcarries).
    assert (Hin : In row (select_clean session1 (CleanData.expression row)
                            (CleanData.date row))).
    { unfold select_clean. apply filter_In. split.
      - apply list_elem_of_In. eapply list_elem_of_lookup_2. exact Hi.
      - now apply clean_key_matches_iff. }
    rewrite Hsel in Hin. destruct Hin as [<- | []].
    now apply (carries_same row0 row' c).
  - apply lookup_ge_None in Hi. apply lookup_ge_None. lia.
Qed.

(** The selection of given raw ids does not read the clean table. *)
Lemma selection_of_ids (session session' : Database) (id : Z) (ids : list Z) :
  raw_data_table session' = raw_data_table session ->
  _get_raw_data_to_process session' (Some (id :: ids))
  = _get_raw_data_to_process session (Some (id :: ids)).
Proof. intros H. cbn [_get_raw_data_to_process]. now rewrite H. Qed.

End LoaderReplay.

Section SameObjects.

Lemma select_clean_nil_keys (table : list CleanData.t) (expression : string)
    (date : Date) :
  select_clean table expression date = []
  <-> (expression, date) ∉ clean_keys table.
Proof.
  rewrite select_clean_nil. unfold clean_keys.
  rewrite elem_of_list_to_set, list_elem_of_In, in_map_iff. split.
  - intros Hnone (c & Hkey & Hc). apply (Hnone c Hc).
    unfold clean_key in Hkey. now injection Hkey.
  - intros Hnot c Hc [He Hd]. apply Hnot. exists c.
    split; [unfold clean_key; congruence | exact Hc].
Qed.

Lemma last_tl {A} (l : list A) : last (tl l) = None \/ last (tl l) = last l.
Proof.
  destruct l as [|a [|b l]]; cbn [tl]; [now left | now left | right].
  now rewrite last_cons_cons.
Qed.

(** The candidates of an (expression, date) that are reported as updated:
    all of them when the table has the pair, all but the first when it has
    not. *)
Lemma updated_of_filter (clean_records : list CleanData.t) :
  forall (table : list CleanData.t) (expression : string) (date : Date),
    List.filter (clean_key_matches expression date) (updated_of table clean_records)
    = if bool_decide ((expression, date) ∈ clean_keys table)
      then List.filter (clean_key_matches expression date) clean_records
      else tl (List.filter (clean_key_matches expression date) clean_records).
Proof.
  induction clean_records as [|c rest IH]; intros table expression date;
    cbn [updated_of List.filter]; [now destruct (bool_decide _) |].
  pose proof (upsert_row_keys table c) as Hkeys.
  destruct (upsert_row_cases table c)
    as [[Habs (row & Hup & _)] | (i & existing & row & Hi & Hk & Hup & _)];
    rewrite Hup in Hkeys |- *; cbn [snd] in Hkeys;
    cbn [String.eqb Ascii.eqb Bool.eqb app]; rewrite ?List.filter_app;
    cbn [List.filter]; rewrite IH, Hkeys.
  - apply select_clean_nil_keys in Habs.
    destruct (clean_key_matches expression date c) eqn:Hm.
    + apply clean_key_matches_key in Hm. rewrite <- Hm in *.
      rewrite bool_decide_eq_true_2 by (rewrite ?elem_of_union, ?elem_of_singleton; intuition congruence).
      rewrite bool_decide_eq_false_2 by exact Habs. reflexivity.
    + assert (Hne : clean_key c <> (expression, date)).
      { intros E. apply clean_key_matches_key in E. congruence. }
      destruct (decide ((expression, date) ∈ clean_keys table)) as [Hin | Hout].
      * rewrite !bool_decide_eq_true_2 by (rewrite ?elem_of_union, ?elem_of_singleton; intuition congruence). reflexivity.
      * rewrite !bool_decide_eq_false_2 by (rewrite ?elem_of_union, ?elem_of_singleton; intuition congruence). reflexivity.
  - assert (Hin_c : clean_key c ∈ clean_keys table).
    { rewrite <- Hk. unfold clean_keys. apply elem_of_list_to_set.
      apply list_elem_of_In, in_map. apply list_elem_of_In.
      eapply list_elem_of_lookup_2. exact Hi. }
    destruct (clean_key_matches expression date c) eqn:Hm; cbn [app].
    + apply clean_key_matches_key in Hm. rewrite <- Hm in *.
      rewrite !bool_decide_eq_true_2 by (rewrite ?elem_of_union, ?elem_of_singleton; intuition congruence). reflexivity.
    + destruct (decide ((expression, date) ∈ clean_keys table)) as [Hin | Hout].
      * rewrite !bool_decide_eq_true_2 by (rewrite ?elem_of_union, ?elem_of_singleton; intuition congruence). reflexivity.
      * rewrite !bool_decide_eq_false_2 by (rewrite ?elem_of_union, ?elem_of_singleton; intuition congruence). reflexivity.
Qed.

Lemma updated_of_latest (table clean_records : list CleanData.t)
    (expression : string) (date : Date) :
  latest_candidate expression date (updated_of table clean_records) = None
  \/ latest_candidate expression date (updated_of table clean_records)
     = latest_candidate expression date clean_records.
Proof.
  unfold latest_candidate. rewrite updated_of_filter.
  destruct (bool_decide _); [now right | apply last_tl].
Qed.

Lemma updated_of_In (clean_records : list CleanData.t) :
  forall (table : list CleanData.t) (c : CleanData.t),
    In c (updated_of table clean_records) -> In c clean_records.
Proof.
  induction clean_records as [|c' rest IH]; intros table c; cbn [updated_of];
    [auto |].
  destruct (upsert_row table c') as [result table'].
  intros Hin. apply in_app_iff in Hin as [Hin | Hin].
  - destruct (String.eqb result "inserted"); [destruct Hin |].
    destruct Hin as [<- | []]. now left.
  - right. eapply IH. exact Hin.
Qed.

Lemma updated_of_length (clean_records : list CleanData.t) :
  forall (table : list CleanData.t) (metrics : LoadMetrics),
    records_updated (fst (upsert_rows table clean_records metrics))
    = records_updated metrics
      + Z.of_nat (length (updated_of table clean_records)).
Proof.
  induction clean_records as [|c rest IH]; intros table metrics;
    cbn [upsert_rows updated_of fst length]; [lia |].
  destruct (upsert_row_cases table c)
    as [[_ (row & -> & _)] | (i & existing & row & _ & _ & -> & _)];
    cbn [String.eqb Ascii.eqb Bool.eqb app length]; rewrite IH;
    cbn [records_updated]; lia.
Qed.

(** A load of candidates among those of a first load, the last of each
    (expression, date) being the last of the first load, leaves the table as
    the first load left it and inserts nothing. *)
Lemma upsert_rows_replay_of (clean_records again session : list CleanData.t)
    (metrics metrics' : LoadMetrics) :
  clean_unique session ->
  (forall c, In c again -> In c clean_records) ->
  (forall expression date,
      latest_candidate expression date again = None
      \/ latest_candidate expression date again
         = latest_candidate expression date clean_records) ->
  let session1 := snd (upsert_rows session clean_records metrics) in
  snd (upsert_rows session1 again metrics') = session1
  /\ records_inserted (fst (upsert_rows session1 again metrics'))
     = records_inserted metrics'.
Proof.
  intros Hu Hsub Hlast. cbv zeta.
  pose proof (upsert_rows_spec clean_records session metrics) as Hspec.
  cbv zeta in Hspec. destruct Hspec as (_ & _ & _ & _ & _ & _ & Hu1 & _ & Hkeys1).
  specialize (Hu1 Hu).
  set (session1 := snd (upsert_rows session clean_records metrics)) in *.
  pose proof (upsert_rows_spec again session1 metrics') as Hspec.
  cbv zeta in Hspec.
  destruct Hspec as (_ & _ & _ & _ & _ & Hlen & Hu2 & _ & Hkeys2).
  specialize (Hu2 Hu1).
  set (session2 := snd (upsert_rows session1 again metrics')) in *.
  assert (Hkeys : clean_keys again ⊆ clean_keys clean_records).
  { intros k. unfold clean_keys. rewrite !elem_of_list_to_set, !list_elem_of_In.
    rewrite !in_map_iff. intros (c & Hk & Hc). exists c. auto. }
  assert (Hsame : length session2 = length session1).
  { rewrite <- (clean_unique_size session2 Hu2), <- (clean_unique_size session1 Hu1).
    f_equal. rewrite Hkeys2, Hkeys1. set_solver. }
  split; [| lia].
  apply list_eq. intros i.
  destruct (session1 !! i) as [row|] eqn:Hi.
  - destruct (upsert_rows_lookup again session1 metrics' i row Hu1 Hi)
      as (row' & Hi' & Hid & Hk & Hl).
    fold session2 in Hi'. rewrite Hi'. f_equal.
    pose proof (upsert_rows_latest clean_records session metrics
                  (CleanData.expression row) (CleanData.date row) Hu) as Hlatest.
    cbv zeta in Hlatest. fold session1 in Hlatest.
    destruct (Hlast (CleanData.expression row) (CleanData.date row)) as [Hn | He].
    + rewrite Hn in Hl. exact Hl.
    + rewrite He in Hl.
      destruct (latest_candidate (CleanData.expression row) (CleanData.date row)
                  clean_records) as [c|]; [| exact Hl].
      destruct Hlatest as (row0 & Hsel & Hcarries).
      assert (Hin : In row (select_clean session1 (CleanData.expression row)
                              (CleanData.date row))).
      { apply in_select_clean. split; [| split; reflexivity].
        apply list_elem_of_In. eapply list_elem_of_lookup_2. exact Hi. }
      rewrite Hsel in Hin. destruct Hin as [<- | []].
      now apply (carries_same row0 row' c).
  - apply lookup_ge_None in Hi. apply lookup_ge_None. lia.
Qed.

End SameObjects.

(** X19. Loading the same list of candidate objects a second time.  After
    a load of fresh candidates, with values in the range of the table, into
    a table that satisfies its uniqueness constraint, a load of the same
    objects returns and leaves the database exactly as the first load left
    it.  It inserts nothing: the candidates that the first load inserted are
    detached and are counted as failed, with those that had failed before,
    and the candidates that the first load updated are updated again. *)
Theorem load_clean_data_replay (engine : Database) (objects : Objects)
    (clean_records : list nat) :
  clean_unique (clean_data_table engine) ->
  fresh_candidates objects clean_records ->
  Forall (fun c => reasonable_value_range (CleanData.value c) = true)
    (readable objects clean_records) ->
  exists metrics objects1 engine1 metrics' objects2,
    load_clean_data engine objects clean_records = (Ok (metrics, objects1), engine1)
    /\ load_clean_data engine1 objects1 clean_records
       = (Ok (metrics', objects2), engine1)
    /\ records_processed metrics' = Z.of_nat (length clean_records)
    /\ records_inserted metrics' = 0
    /\ records_updated metrics' = records_updated metrics
    /\ records_failed metrics' = records_failed metrics + records_inserted metrics.
Proof.
  intros Hu [Hnd Hid] Hall.
  destruct (load_clean_data_accepted engine objects clean_records
              (conj Hnd Hid) Hall)
    as (metrics & objects1 & inserted & Hload & Hp & Hi & Hupd & Hf & _ & Hdet
        & Hkeep & Hread).
  set (cs := readable objects clean_records) in *.
  set (table := clean_data_table engine) in *.
  assert (Hfresh1 : fresh_candidates objects1 clean_records).
  { split; [exact Hnd |]. intros r c Hr Hobj.
    destruct (in_dec Nat.eq_dec r inserted) as [Hin | Hout].
    - destruct (Hdet r Hin) as [_ Hd]. congruence.
    - rewrite (Hkeep r Hout) in Hobj. eapply Hid; eassumption. }
  assert (Hall1 : Forall (fun c => reasonable_value_range (CleanData.value c) = true)
                    (readable objects1 clean_records)).
  { rewrite Hread. apply Forall_forall. intros c Hc.
    rewrite Forall_forall in Hall. apply Hall.
    apply list_elem_of_In. eapply updated_of_In. apply list_elem_of_In. exact Hc. }
  destruct (load_clean_data_accepted
              (mkDatabase (raw_data_table engine)
                 (snd (upsert_rows table cs (mkLoadMetrics 0 0 0 0))))
              objects1 clean_records Hfresh1 Hall1)
    as (metrics' & objects2 & inserted' & Hload' & Hp' & Hi' & Hupd' & Hf' & _).
  cbn [raw_data_table clean_data_table] in Hload', Hi', Hupd'.
  rewrite Hread in Hload', Hi', Hupd', Hf'.
  destruct (upsert_rows_replay_of cs (updated_of table cs) table
              (mkLoadMetrics 0 0 0 0) (mkLoadMetrics 0 0 0 0) Hu
              (updated_of_In cs table)
              (fun expression date => updated_of_latest table cs expression date))
    as (Htable & Hins).
  cbv zeta in Htable, Hins.
  pose proof (upsert_rows_spec (updated_of table cs)
                (snd (upsert_rows table cs (mkLoadMetrics 0 0 0 0)))
                (mkLoadMetrics 0 0 0 0)) as Hspec'.
  cbv zeta in Hspec'. destruct Hspec' as (_ & _ & Hsum' & _).
  pose proof (upsert_rows_spec cs table (mkLoadMetrics 0 0 0 0)) as Hspec.
  cbv zeta in Hspec. destruct Hspec as (_ & _ & Hsum & _).
  pose proof (updated_of_length cs table (mkLoadMetrics 0 0 0 0)) as Hcount.
  cbn [records_inserted records_updated] in Hins, Hsum, Hsum', Hcount.
  rewrite Htable in Hload'.
  eexists metrics, objects1, _, metrics', objects2.
  split; [exact Hload |]. split; [exact Hload' |].
  repeat split; lia.
Qed.

Lemma load_clean_data_replay_witness :
  let e := "DB(COV,VOLSWAPTION,EUR,2y,1y,PAYER,VOLBPVOL)" in
  let c d v id := CleanData.mk None e d "EUR" "1y" "2y" "Euribor" v id in
  let engine :=
    mkDatabase [] [CleanData.mk (Some 1) e 738000 "EUR" "1y" "2y" "Euribor"
                     80%float 1] in
  let objects :=
    new_objects [c 738000 81%float 3; c 738001 82%float 4; c 738000 83%float 2] in
  exists objects1 engine1 objects2,
    load_clean_data engine objects [0; 1; 2]%nat
    = (Ok (mkLoadMetrics 3 1 2 0, objects1), engine1)
    /\ load_clean_data engine1 objects1 [0; 1; 2]%nat
       = (Ok (mkLoadMetrics 3 0 2 1, objects2), engine1).
Proof.
  cbv zeta.
  match goal with
  | |- exists objects1 engine1 objects2,
         load_clean_data ?db ?objs ?refs = _ /\ _ =>
      destruct (load_clean_data_replay db objs refs)
        as (metrics & objects1 & engine1 & metrics' & objects2 & Hload & Hload'
            & Hp & Hi & Hu & Hf)
  end.
  - cbn [clean_data_table]. unfold clean_unique. cbn [map]. apply NoDup_singleton.
  - split; [apply NoDup_ListNoDup; repeat constructor; cbn; intuition lia |].
    intros r c' [<- | [<- | [<- | []]]] [= <-]; reflexivity.
  - repeat constructor; vm_compute; reflexivity.
  - exists objects1, engine1, objects2.
    pose proof Hload as Hc. vm_compute in Hc. injection Hc as Hm _ He.
    subst metrics. cbn [records_updated records_failed records_inserted] in Hu, Hf.
    cbn [length] in Hp.
    split; [exact Hload |]. rewrite Hload'. f_equal. f_equal. f_equal.
    apply LoadMetrics_eq; lia.
Defined.

(** X20. Reprocessing given raw ids is repeatable: the selection of a
    non-empty list of ids does not read the clean table, so after the load
    of its records a second transformation of the same ids returns the same
    records, and the load of these, new objects again, leaves the database
    as the first load left it.  When the second load returns, it reports no
    insertion and no failure and every record as updated; when it raises,
    the first load had raised too and the database is what it was at the
    start. *)
Theorem transform_load_replay_of_ids (session : Database) (id : Z) (ids : list Z) :
  clean_unique (clean_data_table session) ->
  let raw_data_ids := Some (id :: ids) in
  let load engine :=
    load_clean_data engine (new_objects (fst (transform_raw_data engine raw_data_ids)))
      (references (fst (transform_raw_data engine raw_data_ids))) in
  let session1 := snd (load session) in
  transform_raw_data session1 raw_data_ids = transform_raw_data session raw_data_ids
  /\ snd (load session1) = session1
  /\ match fst (load session1) with
     | Ok (metrics, _) =>
         records_inserted metrics = 0
         /\ records_failed metrics = 0
         /\ records_updated metrics
            = Z.of_nat (length (fst (transform_raw_data session raw_data_ids)))
     | Raise _ => session1 = session
     end.
Proof.
  intros Hu. cbv beta zeta.
  set (records := fst (transform_raw_data session (Some (id :: ids)))).
  destruct (load_new_objects session records
              (transform_raw_data_no_id session (Some (id :: ids)))) as [Hok Hbad].
  cbv zeta in Hok, Hbad.
  assert (Hsame : forall session1,
            raw_data_table session1 = raw_data_table session ->
            transform_raw_data session1 (Some (id :: ids))
            = transform_raw_data session (Some (id :: ids))).
  { intros session1 Hraw. unfold transform_raw_data.
    now rewrite (selection_of_ids session session1). }
  destruct (range_cases records) as [Hall | Hex].
  - destruct (Hok Hall) as (metrics & objects' & -> & _). cbn [snd].
    set (session1 := mkDatabase _ _).
    assert (Hsame1 : transform_raw_data session1 (Some (id :: ids))
                     = transform_raw_data session (Some (id :: ids)))
      by (apply Hsame; reflexivity).
    split; [exact Hsame1 |]. rewrite Hsame1. fold records.
    destruct (load_new_objects session1 records
                (transform_raw_data_no_id session (Some (id :: ids))))
      as [Hok1 _].
    cbv zeta in Hok1.
    destruct (Hok1 Hall) as (metrics1 & objects1 & -> & Hp & Hi & Hupd & Hf).
    cbn [fst snd]. subst session1. cbn [raw_data_table clean_data_table] in *.
    destruct (upsert_rows_replay records (clean_data_table session)
                (mkLoadMetrics 0 0 0 0) (mkLoadMetrics 0 0 0 0) Hu)
      as (Htable & Hins).
    cbv zeta in Htable, Hins.
    pose proof (upsert_rows_spec records
                  (snd (upsert_rows (clean_data_table session) records
                          (mkLoadMetrics 0 0 0 0)))
                  (mkLoadMetrics 0 0 0 0)) as Hspec.
    cbv zeta in Hspec. destruct Hspec as (_ & _ & Hsum & _).
    rewrite Htable. split; [reflexivity |].
    cbn [records_inserted records_updated] in Hins, Hsum.
    repeat split; lia.
  - destruct (Hbad Hex) as (e & ->). cbn [snd].
    split; [reflexivity |]. fold records.
    destruct (Hbad Hex) as (e' & ->). cbn [fst snd]. split; reflexivity.
Qed.

Lemma transform_load_replay_of_ids_witness :
  let e := "DB(COV,VOLSWAPTION,EUR,2y,1y,PAYER,VOLBPVOL)" in
  let r1 := RawData.mk (Some 1) e 738000 80%float 10 1 "default" "blob://market-data/a" in
  let r2 := RawData.mk (Some 2) e 738000 81%float 20 2 "default" "blob://market-data/b" in
  let load engine :=
    load_clean_data engine (new_objects (fst (transform_raw_data engine (Some [2; 1]))))
      (references (fst (transform_raw_data engine (Some [2; 1])))) in
  let session := mkDatabase [r1; r2] [] in
  map CleanData.raw_data_id (clean_data_table (snd (load session))) = [2]
  /\ snd (load (snd (load session))) = snd (load session).
Proof.
  cbv zeta. split; [vm_compute; reflexivity |].
  match goal with
  | |- snd (load_clean_data (snd (load_clean_data ?s _ _)) _ _) = _ =>
      refine (proj1 (proj2 (transform_load_replay_of_ids s 2 [1] _)))
  end.
  cbn [clean_data_table]. unfold clean_unique. cbn [map]. constructor.
Defined.
